(** * Verification of the scaffolding generators

    A shallow embedding of the generator scripts of the developer skills
    (Gin, React and monorepo) together with the properties their
    specification states about them.

    Conventions of the embedding:
    - Python [str] values are Rocq [string]s.  Character-level operations
      ([lower], [upper], [isspace], [isupper]) follow Python on the ASCII
      range; characters above 127 are carried through unchanged, uncased and
      not white space.
    - A [pathlib.Path] is the list of its parts, an absolute path starting
      with the part ["/"].
    - The process environment (file system, standard output, standard input)
      is threaded through a small state-and-exception monad. *)

From Stdlib Require Import Ascii.
From stdpp Require Import base gmap strings list pretty.
From Equations Require Import Equations.

Set Default Proof Using "Type".

(** ** Python string operations *)

Module Py.

Definition code (c : ascii) : nat := nat_of_ascii c.

Definition between (lo hi n : nat) : bool := Nat.leb lo n && Nat.leb n hi.

(** [str.isspace] on one ASCII character: TAB, LF, VT, FF, CR, the four
    separators FS, GS, RS, US, and the space. *)
Definition is_space (c : ascii) : bool :=
  between 9 13 (code c) || between 28 32 (code c).

Definition is_upper (c : ascii) : bool := between 65 90 (code c).
Definition is_lower (c : ascii) : bool := between 97 122 (code c).

Definition lower_char (c : ascii) : ascii :=
  if is_upper c then ascii_of_nat (code c + 32) else c.

Definition upper_char (c : ascii) : ascii :=
  if is_lower c then ascii_of_nat (code c - 32) else c.

(** [s.lower()] *)
Fixpoint lower (s : string) : string :=
  match s with
  | EmptyString => EmptyString
  | String c r => String (lower_char c) (lower r)
  end.

(** [s.capitalize()]: first character upper-cased, the rest lower-cased. *)
Definition capitalize (s : string) : string :=
  match s with
  | EmptyString => EmptyString
  | String c r => String (upper_char c) (lower r)
  end.

(** [s.lstrip()], [s.rstrip()], [s.strip()] *)
Fixpoint lstrip (s : string) : string :=
  match s with
  | EmptyString => EmptyString
  | String c r => if is_space c then lstrip r else s
  end.

Fixpoint rstrip (s : string) : string :=
  match s with
  | EmptyString => EmptyString
  | String c r =>
      match rstrip r with
      | EmptyString => if is_space c then EmptyString else String c EmptyString
      | r' => String c r'
      end
  end.

Definition strip (s : string) : string := lstrip (rstrip s).

(** [s.startswith(p)] *)
Fixpoint startswith (p s : string) : bool :=
  match p, s with
  | EmptyString, _ => true
  | String a p', String b s' => if decide (a = b) then startswith p' s' else false
  | String _ _, EmptyString => false
  end.

(** The slice [s[n:]] *)
Fixpoint slice_from (n : nat) (s : string) : string :=
  match n, s with
  | O, _ => s
  | S n', String _ r => slice_from n' r
  | S _, EmptyString => EmptyString
  end.

(** [needle in hay] *)
Fixpoint contains (needle hay : string) : bool :=
  startswith needle hay ||
  match hay with
  | EmptyString => false
  | String _ r => contains needle r
  end.

(** The number of positions of [hay] at which [needle] starts; states
    how often a line occurs in a file. *)
Fixpoint occurrences (needle hay : string) : nat :=
  (if startswith needle hay then 1 else 0) +
  match hay with
  | EmptyString => 0
  | String _ r => occurrences needle r
  end.

(** [sep.join(parts)] *)
Fixpoint join (sep : string) (parts : list string) : string :=
  match parts with
  | [] => EmptyString
  | [p] => p
  | p :: rest => p +:+ sep +:+ join sep rest
  end.

(** [s.replace(a, b)] for one-character [a] and [b] *)
Fixpoint replace_char (a b : ascii) (s : string) : string :=
  match s with
  | EmptyString => EmptyString
  | String c r => String (if decide (c = a) then b else c) (replace_char a b r)
  end.

(** [s.split(sep)] for a one-character separator: the pieces between the
    separators, empty ones included, so that the result is never empty.
    [split_aux] carries the piece being read, reversed. *)
Fixpoint split_aux (sep : ascii) (acc : string) (s : string) : list string :=
  match s with
  | EmptyString => [acc]
  | String c r =>
      if decide (c = sep) then acc :: split_aux sep EmptyString r
      else split_aux sep (acc +:+ String c EmptyString) r
  end.

Definition split (sep : ascii) (s : string) : list string :=
  split_aux sep EmptyString s.

(** [s.split()]: the maximal runs of characters that are not white space. *)
Fixpoint split_ws_aux (acc : string) (s : string) : list string :=
  match s with
  | EmptyString => match acc with EmptyString => [] | _ => [acc] end
  | String c r =>
      if is_space c then
        match acc with
        | EmptyString => split_ws_aux EmptyString r
        | _ => acc :: split_ws_aux EmptyString r
        end
      else split_ws_aux (acc +:+ String c EmptyString) r
  end.

Definition split_ws (s : string) : list string := split_ws_aux EmptyString s.

(** [s.split(sep, 1)]: the text before the first separator and the text
    after it; [None] when there is no separator (the script tests
    [sep in s] first). *)
Fixpoint split_once (sep : ascii) (s : string) : option (string * string) :=
  match s with
  | EmptyString => None
  | String c r =>
      if decide (c = sep) then Some (EmptyString, r)
      else match split_once sep r with
           | Some (a, b) => Some (String c a, b)
           | None => None
           end
  end.

(** The lines of a text file as iteration over the open file yields them:
    each keeps its line feed, the last may lack one.  Carriage returns are
    translated as text mode does (CR LF and a lone CR read as LF). *)
Fixpoint universal_newlines (s : string) : string :=
  match s with
  | EmptyString => EmptyString
  | String c r =>
      if decide (code c = 13) then
        match r with
        | String d r' =>
            if decide (code d = 10) then String d (universal_newlines r')
            else String (ascii_of_nat 10) (universal_newlines r)
        | EmptyString => String (ascii_of_nat 10) EmptyString
        end
      else String c (universal_newlines r)
  end.

Fixpoint lines_aux (acc : string) (s : string) : list string :=
  match s with
  | EmptyString => match acc with EmptyString => [] | _ => [acc] end
  | String c r =>
      if decide (code c = 10) then (acc +:+ String c EmptyString) :: lines_aux EmptyString r
      else lines_aux (acc +:+ String c EmptyString) r
  end.

Definition file_lines (s : string) : list string :=
  lines_aux EmptyString (universal_newlines s).

(** [d.get(k)] on a dictionary literal, kept as the list of its items in
    source order (the keys of each literal are distinct). *)
Fixpoint dict_lookup {K V : Type} `{EqDecision K} (d : list (K * V)) (k : K) : option V :=
  match d with
  | [] => None
  | (k', v) :: rest => if decide (k' = k) then Some v else dict_lookup rest k
  end.

(** [d.get(k, dflt)] *)
Definition dict_get {K V : Type} `{EqDecision K} (d : list (K * V)) (k : K) (dflt : V) : V :=
  default dflt (dict_lookup d k).

(** [list(d.keys())] *)
Definition keys {K V : Type} (d : list (K * V)) : list K := d.*1.

(** Truth value of a string: empty is false. *)
Definition nonempty (s : string) : bool :=
  match s with EmptyString => false | _ => true end.

End Py.

(** The double-quote character and the back quote, used to spell out
    generated Go source. *)
Definition dq : string := String (ascii_of_nat 34) EmptyString.
Definition bq : string := String (ascii_of_nat 96) EmptyString.
Definition nl : string := String (ascii_of_nat 10) EmptyString.
Definition tab : string := String (ascii_of_nat 9) EmptyString.

(** ** The process environment: file system, standard streams, exit status *)

Module Sys.

(** A path is the list of its parts; [pathlib] keeps no empty part and no
    part [.], and starts an absolute path with the part [/] (two leading
    slashes are read as one).  The file system compares paths part by part:
    [..] and symbolic links are not resolved. *)
Abbreviation path := (list string).

Definition parts_of (s : string) : path :=
  filter (fun part => part <> EmptyString /\ part <> ".") (Py.split "/" s).

(** [Path(s)] *)
Definition Path (s : string) : path :=
  if Py.startswith "/" s then "/" :: parts_of s else parts_of s.

(** [p / s]: an absolute right operand replaces the left one. *)
Definition joinpath (p : path) (s : string) : path :=
  if Py.startswith "/" s then Path s else p ++ parts_of s.

(** [p.parent]: the root and the empty path are their own parents. *)
Definition parent (p : path) : path :=
  if decide (p = ["/"]) then p else removelast p.

(** [p.name] *)
Definition name (p : path) : string :=
  if decide (p = ["/"]) then EmptyString else default EmptyString (last p).

(** [str(p)] *)
Definition str (p : path) : string :=
  match p with
  | [] => "."
  | a :: rest => if decide (a = "/") then "/" +:+ Py.join "/" rest else Py.join "/" p
  end.

(** [p.is_absolute()] *)
Definition is_absolute (p : path) : bool :=
  match p with
  | a :: _ => bool_decide (a = "/")
  | [] => false
  end.

(** The parts of [p] after those of [base], when [base] is a prefix. *)
Fixpoint strip_prefix (p base : path) : option path :=
  match base, p with
  | [], _ => Some p
  | b :: base', a :: p' => if decide (a = b) then strip_prefix p' base' else None
  | _ :: _, [] => None
  end.

(** [p.relative_to(base)]: the parts of [p] after those of [base], or
    nothing when [p] is not below [base] (the script then dies of a
    [ValueError]); an absolute path is not below a relative one. *)
Definition relative_to (p base : path) : option path :=
  if is_absolute p && negb (is_absolute base) then None else strip_prefix p base.

Inductive exn :=
| FileNotFoundError | FileExistsError | NotADirectoryError | IsADirectoryError
| EOFError | ValueError | IndexError | KeyError.

(** The file system holds directories and regular files with their text;
    [stdout] is the list of texts printed so far, one per call, and [stdin]
    the lines still to be read. *)
Record world := World {
  dirs : gset path;
  files : gmap path string;
  stdout : list string;
  stdin : list string }.

(** A run ends by returning, by [sys.exit] or by an uncaught exception. *)
Inductive outcome (A : Type) :=
| Return (a : A)
| Exit (status : nat)
| Raise (e : exn).
Arguments Return {A} a.
Arguments Exit {A} status.
Arguments Raise {A} e.

Global Instance exn_eq_dec : EqDecision exn.
Proof. solve_decision. Defined.

Global Instance outcome_eq_dec {A : Type} `{EqDecision A} : EqDecision (outcome A).
Proof. solve_decision. Defined.

Definition M (A : Type) : Type := world -> outcome A * world.

Definition ret {A} (a : A) : M A := fun w => (Return a, w).

Definition bind {A B} (m : M A) (k : A -> M B) : M B :=
  fun w =>
    match m w with
    | (Return a, w') => k a w'
    | (Exit n, w') => (Exit n, w')
    | (Raise e, w') => (Raise e, w')
    end.

Definition exit {A} (status : nat) : M A := fun w => (Exit status, w).
Definition raise {A} (e : exn) : M A := fun w => (Raise e, w).

(** The status the process ends with: 0 when the script runs to its end,
    the argument of [sys.exit], and 1 after an uncaught exception. *)
Definition exit_status {A} (o : outcome A) : nat :=
  match o with
  | Return _ => 0
  | Exit n => n
  | Raise _ => 1
  end.

(** The three ways a script changes the world. *)
Definition emit (s : string) (w : world) : world :=
  {| dirs := dirs w; files := files w; stdout := stdout w ++ [s]; stdin := stdin w |}.

Definition store (p : path) (s : string) (w : world) : world :=
  {| dirs := dirs w; files := <[p := s]> (files w); stdout := stdout w; stdin := stdin w |}.

Definition make_dirs (ps : list path) (w : world) : world :=
  {| dirs := dirs w ∪ list_to_set ps; files := files w;
     stdout := stdout w; stdin := stdin w |}.

(** [print(s)] *)
Definition print (s : string) : M unit := fun w => (Return tt, emit s w).

(** [input(prompt)]: the prompt goes to standard output, the answer is the
    next line of standard input. *)
Definition input (prompt : string) : M string :=
  fun w =>
    match stdin w with
    | [] => (Raise EOFError, emit prompt w)
    | l :: rest =>
        (Return l,
         {| dirs := dirs w; files := files w;
            stdout := stdout w ++ [prompt]; stdin := rest |})
    end.

Definition is_dir (w : world) (p : path) : bool :=
  bool_decide (p = [] \/ p = ["/"] \/ p ∈ dirs w).

Definition is_file (w : world) (p : path) : bool :=
  bool_decide (is_Some (files w !! p)).

(** [p.exists()] *)
Definition exists_ (p : path) : M bool :=
  fun w => (Return (is_dir w p || is_file w p), w).

(** The prefixes of a path, shortest first, without the empty one. *)
Definition prefixes (p : path) : list path :=
  (fun n => take n p) <$> seq 1 (length p).

(** Why [p.mkdir(parents=True, exist_ok=True)] fails, if it does: an
    ancestor of [p], or [p] itself, is a regular file. *)
Definition mkdir_error (w : world) (p : path) : option exn :=
  if existsb (is_file w) (prefixes (removelast p)) then Some NotADirectoryError
  else if is_file w p then Some FileExistsError
  else None.

(** [p.mkdir(parents=True, exist_ok=True)] leaves [p] and all its
    ancestors as directories. *)
Definition mkdir_parents (p : path) : M unit :=
  fun w =>
    match mkdir_error w p with
    | Some e => (Raise e, w)
    | None => (Return tt, make_dirs (prefixes p) w)
    end.

(** Why opening [p] for writing or appending fails, if it does. *)
Definition open_error (w : world) (p : path) : option exn :=
  if is_dir w p then Some IsADirectoryError
  else if is_file w (parent p) then Some NotADirectoryError
  else if negb (is_dir w (parent p)) then Some FileNotFoundError
  else None.

(** [p.write_text(s)] replaces the content of [p]. *)
Definition write_text (p : path) (s : string) : M unit :=
  fun w =>
    match open_error w p with
    | Some e => (Raise e, w)
    | None => (Return tt, store p s w)
    end.

(** [with open(p, 'a') as f: f.write(s)] *)
Definition append_text (p : path) (s : string) : M unit :=
  fun w =>
    match open_error w p with
    | Some e => (Raise e, w)
    | None => (Return tt, store p (default EmptyString (files w !! p) +:+ s) w)
    end.

(** [p.read_text()] *)
Definition read_text (p : path) : M string :=
  fun w =>
    match files w !! p with
    | Some s => (Return s, w)
    | None => if is_dir w p then (Raise IsADirectoryError, w)
              else (Raise FileNotFoundError, w)
    end.

(** [for x in xs: body(x)] *)
Fixpoint for_each {A} (xs : list A) (body : A -> M unit) : M unit :=
  match xs with
  | [] => ret tt
  | x :: rest => bind (body x) (fun _ => for_each rest body)
  end.

(** [p.iterdir()]: the entries of directory [p].  The order in which a
    file system lists them is its own; the model lists directories and
    files in the order of their sets. *)
Definition iterdir (w : world) (p : path) : list path :=
  filter (fun q => q <> p /\ parent q = p /\ q <> [])
         (elements (dirs w ∪ dom (files w))).

End Sys.

Notation "'let*' x ':=' m 'in' k" := (Sys.bind m (fun x => k))
  (at level 10, x pattern, m at level 100, k at level 200).
Notation "m ;; k" := (Sys.bind m (fun _ => k))
  (at level 100, k at level 200, right associativity).
Notation "p // s" := (Sys.joinpath p s) (at level 40, left associativity).

(** ** helpers.py: the Go type mapper *)

Module Helpers.

(** [GoTypeMapper.TYPE_MAP] *)
Definition TYPE_MAP : list (string * string) :=
  [ ("string", "string"); ("str", "string"); ("text", "string");
    ("int", "int"); ("integer", "int"); ("int32", "int32"); ("int64", "int64");
    ("uint", "uint"); ("uint32", "uint32"); ("uint64", "uint64");
    ("float", "float64"); ("float32", "float32"); ("float64", "float64");
    ("decimal", "float64"); ("number", "float64");
    ("bool", "bool"); ("boolean", "bool");
    ("time", "time.Time"); ("datetime", "time.Time");
    ("timestamp", "time.Time"); ("date", "time.Time");
    ("uuid", "uuid.UUID"); ("guid", "uuid.UUID");
    ("bytes", "[]byte"); ("binary", "[]byte") ].

(** [type_str.lower().strip()] *)
Definition normalise (type_str : string) : string := Py.strip (Py.lower type_str).

(** The last part of [map_type]: table lookup with the ["string"] default
    and the imports the Go type needs. *)
Definition map_base (type_str : string) : string * list string :=
  let go_type := Py.dict_get TYPE_MAP type_str "string" in
  let imports :=
    if Py.contains "time.Time" go_type then ["time"]
    else if Py.contains "uuid.UUID" go_type then ["github.com/google/uuid"]
    else [] in
  (go_type, imports).

Lemma length_lower s : String.length (Py.lower s) = String.length s.
Proof. induction s as [|c r IH]; simpl; congruence. Qed.

Lemma length_lstrip s : String.length (Py.lstrip s) <= String.length s.
Proof. induction s as [|c r IH]; simpl; [lia|]. destruct (Py.is_space c); simpl; lia. Qed.

Lemma length_rstrip s : String.length (Py.rstrip s) <= String.length s.
Proof.
  induction s as [|c r IH]; simpl; [lia|].
  destruct (Py.rstrip r); [destruct (Py.is_space c)|]; simpl in *; lia.
Qed.

Lemma length_normalise s : String.length (normalise s) <= String.length s.
Proof.
  unfold normalise, Py.strip.
  etrans; [apply length_lstrip|]. etrans; [apply length_rstrip|].
  by rewrite length_lower.
Qed.

Lemma length_slice_from p s :
  Py.startswith p s = true ->
  String.length (Py.slice_from (String.length p) s) + String.length p = String.length s.
Proof.
  revert s. induction p as [|a p IH]; intros [|b s]; simpl; try done; try lia.
  destruct (decide (a = b)); [|done]. intros H. specialize (IH _ H). lia.
Qed.

(** Case analysis on a test that keeps the equation of the branch taken. *)
Definition inspect {A : Type} (a : A) : { b : A | a = b } := exist _ a eq_refl.

(** [GoTypeMapper.map_type]: the recursion is on the inner type, which is
    strictly shorter than the argument. *)
Equations? map_type (type_str : string) : string * list string
  by wf (String.length type_str) lt :=
  map_type type_str with inspect (Py.startswith "[]" (normalise type_str)) := {
    | exist _ true Harr =>
        let r := map_type (Py.slice_from 2 (normalise type_str)) in
        ("[]" +:+ r.1, r.2)
    | exist _ false _ with inspect (Py.startswith "*" (normalise type_str)) := {
        | exist _ true Hptr =>
            let r := map_type (Py.slice_from 1 (normalise type_str)) in
            ("*" +:+ r.1, r.2)
        | exist _ false _ => map_base (normalise type_str) } }.
Proof.
  - pose proof (length_slice_from "[]" _ Harr) as H.
    pose proof (length_normalise type_str). simpl in H. lia.
  - pose proof (length_slice_from "*" _ Hptr) as H.
    pose proof (length_normalise type_str). simpl in H. lia.
Qed.

End Helpers.

(** ** gin-developer/scripts/generate_domain.py *)

Module GenerateDomain.
Import Sys.

Definition rocket : string := "üöÄ".
Definition package : string := "üì¶".
Definition memo : string := "üìù".
Definition check : string := "‚úì".
Definition done_mark : string := "‚úÖ".

(** [class Field]: the two constructor arguments and the three attributes
    the constructor derives from them. *)
Record Field := mkField {
  name : string;
  field_type : string;
  go_type : string;
  json_tag : string;
  gorm_tag : string }.

(** The dictionary [type_mapping] of [Field._map_type] *)
Definition type_mapping : list (string * string) :=
  [ ("string", "string"); ("int", "int"); ("int64", "int64");
    ("float64", "float64"); ("bool", "bool");
    ("time", "time.Time"); ("uuid", "uuid.UUID") ].

(** [Field._map_type] *)
Definition _map_type (field_type : string) : string :=
  Py.dict_get type_mapping (Py.lower field_type) "string".

(** The loop shared by [Field._to_snake_case] and [to_snake_case]: an
    underscore before every upper-case character but the first character,
    every character lower-cased.  [i] is the index [enumerate] gives. *)
Fixpoint snake_from (i : nat) (s : string) : string :=
  match s with
  | EmptyString => EmptyString
  | String c r =>
      let rest := String (Py.lower_char c) (snake_from (S i) r) in
      if Py.is_upper c && negb (Nat.eqb i 0) then String "_" rest else rest
  end.

Definition _to_snake_case (name : string) : string := snake_from 0 name.

(** [Field._generate_gorm_tag] *)
Definition _generate_gorm_tag (field_type : string) : string :=
  if decide (field_type = "string") then "type:varchar(255)"
  else if bool_decide (field_type ∈ ["int"; "int64"]) then "type:bigint"
  else if decide (field_type = "float64") then "type:decimal(10,2)"
  else if decide (field_type = "bool") then "type:boolean;default:false"
  else if decide (field_type = "time") then "type:timestamp"
  else if decide (field_type = "uuid") then "type:uuid"
  else EmptyString.

(** [Field(name, field_type)] *)
Definition new_Field (name field_type : string) : Field :=
  {| name := name;
     field_type := field_type;
     go_type := _map_type field_type;
     json_tag := _to_snake_case name;
     gorm_tag := _generate_gorm_tag field_type |}.

Definition quoted (s : string) : string := dq +:+ s +:+ dq.

(** [Field.to_struct_field] *)
Definition to_struct_field (f : Field) : string :=
  tab +:+ Py.capitalize (name f) +:+ " " +:+ go_type f +:+ " " +:+ bq
  +:+ "json:" +:+ quoted (json_tag f) +:+ " gorm:" +:+ quoted (gorm_tag f) +:+ bq.

(** [parse_fields]: a definition without a colon is skipped. *)
Definition parse_field_def (field_def : string) : list Field :=
  let field_def := Py.strip field_def in
  match Py.split_once ":" field_def with
  | None => []
  | Some (name, field_type) => [new_Field (Py.strip name) (Py.strip field_type)]
  end.

Definition parse_fields (fields_str : string) : list Field :=
  if Py.nonempty fields_str
  then concat (parse_field_def <$> Py.split "," fields_str)
  else [].

(** [capitalize]: first letter upper-cased, the rest untouched. *)
Definition capitalize (s : string) : string :=
  match s with
  | EmptyString => s
  | String c r => String (Py.upper_char c) r
  end.

Definition to_snake_case (s : string) : string := snake_from 0 s.

(** The import lines and the import block of [generate_entity]. *)
Definition entity_imports (fields : list Field) : list string :=
  let needs_time := existsb (fun f => bool_decide (field_type f = "time")) fields in
  let needs_uuid := existsb (fun f => bool_decide (field_type f = "uuid")) fields in
  (if needs_time then [tab +:+ quoted "time"] else [])
  ++ (if needs_uuid then [tab +:+ quoted "github.com/google/uuid"] else []).

Definition entity_import_block (fields : list Field) : string :=
  match entity_imports fields with
  | [] => EmptyString
  | imports => "import (" +:+ nl +:+ Py.join nl imports +:+ nl +:+ ")" +:+ nl +:+ nl
  end.

(** [generate_entity] *)
Definition generate_entity (domain_name : string) (fields : list Field)
    (module_path : string) : string :=
  let entity_name := capitalize domain_name in
  let import_block := entity_import_block fields in
  let fields_str := Py.join nl (to_struct_field <$> fields) in
  "package entity" +:+ nl +:+ nl
  +:+ import_block +:+ "type " +:+ entity_name +:+ " struct {" +:+ nl
  +:+ tab +:+ "ID        uint   " +:+ bq +:+ "json:" +:+ quoted "id"
      +:+ " gorm:" +:+ quoted "primaryKey" +:+ bq +:+ nl
  +:+ fields_str +:+ nl
  +:+ tab +:+ "CreatedAt time.Time " +:+ bq +:+ "json:" +:+ quoted "created_at"
      +:+ " gorm:" +:+ quoted "autoCreateTime" +:+ bq +:+ nl
  +:+ tab +:+ "UpdatedAt time.Time " +:+ bq +:+ "json:" +:+ quoted "updated_at"
      +:+ " gorm:" +:+ quoted "autoUpdateTime" +:+ bq +:+ nl
  +:+ "}" +:+ nl +:+ nl
  +:+ "func (e *" +:+ entity_name +:+ ") TableName() string {" +:+ nl
  +:+ tab +:+ "return " +:+ quoted (to_snake_case domain_name +:+ "s") +:+ nl
  +:+ "}" +:+ nl.

(** The four other generators interpolate the entity name and the module
    path into long Go sources; the development is parametric in them. *)
Record templates := Templates {
  generate_repository_interface : string -> string -> string;
  generate_repository_impl : string -> string -> string;
  generate_usecase : string -> string -> string;
  generate_handler : string -> string -> string }.

(** The command line: the positional domain name and the two options. *)
Record argv := Argv {
  arg_domain_name : option string;
  arg_fields : option string;
  arg_project_path : option string }.

Record args := Args {
  domain_name_ : string;
  fields_ : string;
  project_path_ : string }.

(** [parser.parse_args()]: without the domain name argparse ends the
    process with status 2. *)
Definition parse_args (a : argv) : M args :=
  match arg_domain_name a with
  | Some d => ret {| domain_name_ := d;
                     fields_ := default EmptyString (arg_fields a);
                     project_path_ := default "." (arg_project_path a) |}
  | None => exit 2
  end.

(** The loop over the lines of go.mod: the second word of the first line
    that starts with [module ], stripped; the empty string when no line
    does.  A module line of one word dies of an [IndexError]. *)
Fixpoint find_module_path (lines : list string) : M string :=
  match lines with
  | [] => ret EmptyString
  | line :: rest =>
      if Py.startswith "module " line then
        match Py.split_ws line !! 1 with
        | Some word => ret (Py.strip word)
        | None => raise IndexError
        end
      else find_module_path rest
  end.

Section Generator.
Variable T : templates.

Definition main (a : argv) : M unit :=
  let* args := parse_args a in
  let domain_name := Py.lower (domain_name_ args) in
  let project_path := Path (project_path_ args) in
  let fields := parse_fields (fields_ args) in
  let go_mod_path := project_path // "go.mod" in
  let* found := exists_ go_mod_path in
  (if found then ret tt
   else
     print "Error: go.mod not found. Make sure you're in the project root." ;;
     exit 1) ;;
  let* text := read_text go_mod_path in
  let* module_path := find_module_path (Py.file_lines text) in
  (if Py.nonempty module_path then ret tt
   else
     print "Error: Could not determine module path from go.mod" ;;
     exit 1) ;;
  print (nl +:+ rocket +:+ " Generating domain: " +:+ domain_name) ;;
  print (package +:+ " Module path: " +:+ module_path) ;;
  print (memo +:+ " Fields: " +:+ pretty (length fields) +:+ nl) ;;
  let entity_name := capitalize domain_name in
  let entity_path :=
    project_path // "internal/domain/entity" // (domain_name +:+ ".go") in
  write_text entity_path (generate_entity domain_name fields module_path) ;;
  print (check +:+ " Created entity: " +:+ str entity_path) ;;
  let repo_interface_path :=
    project_path // "internal/domain/repository"
                 // (domain_name +:+ "_repository.go") in
  write_text repo_interface_path
    (generate_repository_interface T domain_name module_path) ;;
  print (check +:+ " Created repository interface: " +:+ str repo_interface_path) ;;
  let repo_impl_path :=
    project_path // "internal/infrastructure/repository"
                 // (domain_name +:+ "_repository.go") in
  write_text repo_impl_path (generate_repository_impl T domain_name module_path) ;;
  print (check +:+ " Created repository implementation: " +:+ str repo_impl_path) ;;
  let usecase_path :=
    project_path // "internal/usecase" // (domain_name +:+ "_usecase.go") in
  write_text usecase_path (generate_usecase T domain_name module_path) ;;
  print (check +:+ " Created use case: " +:+ str usecase_path) ;;
  let handler_path :=
    project_path // "internal/handler" // (domain_name +:+ "_handler.go") in
  write_text handler_path (generate_handler T domain_name module_path) ;;
  print (check +:+ " Created handler: " +:+ str handler_path) ;;
  print (nl +:+ done_mark +:+ " Domain '" +:+ domain_name
         +:+ "' generated successfully!") ;;
  print (nl +:+ "Next steps:") ;;
  print "  1. Add migration in cmd/api/main.go:" ;;
  print ("     db.AutoMigrate(&entity." +:+ entity_name +:+ "{})") ;;
  print "  2. Register routes in cmd/api/main.go:" ;;
  print ("     " +:+ domain_name +:+ "Repo := repository.New" +:+ entity_name
         +:+ "Repository(db)") ;;
  print ("     " +:+ domain_name +:+ "UseCase := usecase.New" +:+ entity_name
         +:+ "UseCase(" +:+ domain_name +:+ "Repo)") ;;
  print ("     " +:+ domain_name +:+ "Handler := handler.New" +:+ entity_name
         +:+ "Handler(" +:+ domain_name +:+ "UseCase)") ;;
  print ("     " +:+ domain_name +:+ "Handler.RegisterRoutes(v1)") ;;
  print "  3. Run: go mod tidy" ;;
  print ("  4. Test endpoints at: http://localhost:8080/api/v1/"
         +:+ to_snake_case domain_name +:+ "s").

End Generator.

End GenerateDomain.

(** ** gin-developer/scripts/add_infrastructure.py *)

Module AddInfrastructure.
Import Sys.

(** The marks the script prints in front of its messages, as the bytes of
    the source file. *)
Definition rocket : string := "ðŸš€".
Definition cross : string := "âœ—".
Definition check : string := "âœ“".
Definition package : string := "ðŸ“¦".
Definition done_mark : string := "âœ…".

Definition SUPPORTED_TYPES : list (string * list string) :=
  [ ("storage", ["local"; "s3"; "gcs"]);
    ("cache", ["redis"; "memory"]);
    ("queue", ["redis"; "kafka"; "rabbitmq"]);
    ("email", ["smtp"; "sendgrid"]) ].

(** The Go sources the template functions return and the usage examples
    [print_usage_example] prints are long literals; the development is
    parametric in their text and uses of it only what the script uses:
    whether it is empty. *)
Record templates := Templates {
  get_storage_interface : string;
  get_storage_local : string;
  get_storage_s3 : string;
  get_storage_gcs : string;
  get_cache_interface : string;
  get_cache_redis : string;
  get_cache_memory : string;
  usage_storage_local : string;
  usage_storage_s3 : string;
  usage_storage_gcs : string;
  usage_cache_redis : string;
  usage_cache_memory : string }.

Definition get_dependencies (infra_type provider : string) : list string :=
  let deps : list ((string * string) * list string) :=
    [ (("storage", "s3"),
        [ "github.com/aws/aws-sdk-go-v2/aws";
          "github.com/aws/aws-sdk-go-v2/config";
          "github.com/aws/aws-sdk-go-v2/credentials";
          "github.com/aws/aws-sdk-go-v2/service/s3" ]);
      (("storage", "gcs"), [ "cloud.google.com/go/storage" ]);
      (("cache", "redis"), [ "github.com/redis/go-redis/v9" ]);
      (("queue", "redis"), [ "github.com/redis/go-redis/v9" ]);
      (("queue", "kafka"), [ "github.com/segmentio/kafka-go" ]);
      (("queue", "rabbitmq"), [ "github.com/rabbitmq/amqp091-go" ]);
      (("email", "sendgrid"), [ "github.com/sendgrid/sendgrid-go" ]) ] in
  Py.dict_get deps (infra_type, provider) [].

(** What the command line gives: each flag with its value, if present. *)
Record argv := Argv {
  arg_type : option string;
  arg_provider : option string;
  arg_project_path : option string }.

Record args := Args {
  type_ : string;
  provider_ : string;
  project_path_ : string }.

(** [parser.parse_args()]: [--type] and [--provider] are required and
    [--type] is one of the keys of [SUPPORTED_TYPES]; otherwise argparse
    reports the usage on standard error and ends the process with status 2. *)
Definition parse_args (a : argv) : M args :=
  match arg_type a, arg_provider a with
  | Some t, Some p =>
      if bool_decide (t ∈ Py.keys SUPPORTED_TYPES)
      then ret {| type_ := t; provider_ := p;
                  project_path_ := default "." (arg_project_path a) |}
      else exit 2
  | _, _ => exit 2
  end.

Section Generator.
Variable T : templates.

Definition print_usage_example (infra_type provider : string) : M unit :=
  if decide (infra_type = "storage") then
    if decide (provider = "local") then print (usage_storage_local T)
    else if decide (provider = "s3") then print (usage_storage_s3 T)
    else if decide (provider = "gcs") then print (usage_storage_gcs T)
    else ret tt
  else if decide (infra_type = "cache") then
    if decide (provider = "redis") then print (usage_cache_redis T)
    else if decide (provider = "memory") then print (usage_cache_memory T)
    else ret tt
  else ret tt.

(** The two contents [create_infrastructure] selects; [None] is the
    Python [None] both variables start with. *)
Definition interface_content (infra_type : string) : option string :=
  if decide (infra_type = "storage") then Some (get_storage_interface T)
  else if decide (infra_type = "cache") then Some (get_cache_interface T)
  else None.

Definition impl_content (infra_type provider : string) : option string :=
  if decide (infra_type = "storage") then
    if decide (provider = "local") then Some (get_storage_local T)
    else if decide (provider = "s3") then Some (get_storage_s3 T)
    else if decide (provider = "gcs") then Some (get_storage_gcs T)
    else None
  else if decide (infra_type = "cache") then
    if decide (provider = "redis") then Some (get_cache_redis T)
    else if decide (provider = "memory") then Some (get_cache_memory T)
    else None
  else None.

(** Truth value of a content: [None] and the empty string are false. *)
Definition truthy (c : option string) : bool :=
  match c with
  | Some s => Py.nonempty s
  | None => false
  end.

Definition create_infrastructure (project_path : path) (infra_type provider : string)
  : M unit :=
  print (nl +:+ rocket +:+ " Adding " +:+ infra_type +:+ " infrastructure with "
         +:+ provider +:+ " provider" +:+ nl) ;;
  let infra_dir := project_path // "internal" // "infrastructure" // infra_type in
  mkdir_parents infra_dir ;;
  let interface_content := interface_content infra_type in
  let impl_content := impl_content infra_type provider in
  if negb (truthy interface_content) || negb (truthy impl_content) then
    print (cross +:+ " Unsupported combination: " +:+ infra_type +:+ "/" +:+ provider) ;;
    ret tt
  else
    let interface_file := infra_dir // (infra_type +:+ ".go") in
    write_text interface_file (default EmptyString interface_content) ;;
    print (check +:+ " Created " +:+ infra_type +:+ "/" +:+ infra_type
           +:+ ".go (interface)") ;;
    let impl_file := infra_dir // (provider +:+ ".go") in
    write_text impl_file (default EmptyString impl_content) ;;
    print (check +:+ " Created " +:+ infra_type +:+ "/" +:+ provider
           +:+ ".go (implementation)") ;;
    let deps := get_dependencies infra_type provider in
    (match deps with
     | [] => ret tt
     | _ =>
         print (nl +:+ package +:+ " Required dependencies:") ;;
         for_each deps (fun dep => print ("   - " +:+ dep)) ;;
         print (nl +:+ "Run: go get " +:+ Py.join " " deps)
     end) ;;
    print (nl +:+ done_mark +:+ " " +:+ Py.capitalize infra_type
           +:+ " infrastructure added successfully!") ;;
    print (nl +:+ "Usage example:") ;;
    print_usage_example infra_type provider.

Definition main (a : argv) : M unit :=
  let* args := parse_args a in
  match Py.dict_lookup SUPPORTED_TYPES (type_ args) with
  | None => raise KeyError
  | Some providers =>
      (if bool_decide (provider_ args ∈ providers) then ret tt
       else
         print (cross +:+ " Error: Unsupported provider '" +:+ provider_ args
                +:+ "' for type '" +:+ type_ args +:+ "'") ;;
         print ("Supported providers: " +:+ Py.join ", " providers) ;;
         exit 1) ;;
      let project_path := Path (project_path_ args) in
      let* found := exists_ project_path in
      (if found then ret tt
       else
         print (cross +:+ " Error: Project path '" +:+ project_path_ args
                +:+ "' does not exist") ;;
         exit 1) ;;
      let* has_go_mod := exists_ (project_path // "go.mod") in
      (if has_go_mod then ret tt
       else
         print (cross +:+ " Error: Not a Go project (go.mod not found)") ;;
         exit 1) ;;
      create_infrastructure project_path (type_ args) (provider_ args)
  end.

End Generator.

End AddInfrastructure.

(** ** react-developer/scripts/generate_component.py *)

Module ReactComponent.
Import Sys.

Definition rocket : string := "🚀".
Definition warning : string := "⚠".
Definition check : string := "✓".
Definition memo : string := "📝".
Definition cross : string := "✗".
Definition done_mark : string := "✅".

(** [to_pascal_case]: hyphens and underscores become spaces, the words
    between white space are capitalized and joined. *)
Definition to_pascal_case (name : string) : string :=
  Py.join EmptyString
    (Py.capitalize <$> Py.split_ws (Py.replace_char "_" " " (Py.replace_char "-" " " name))).

Definition generate_basic_component (name : string) : string :=
  let pascal_name := to_pascal_case name in
  "interface " +:+ pascal_name +:+ "Props {" +:+ nl
  +:+ "  // Add your props here" +:+ nl
  +:+ "}" +:+ nl +:+ nl
  +:+ "export function " +:+ pascal_name +:+ "({  }: " +:+ pascal_name +:+ "Props) {" +:+ nl
  +:+ "  return (" +:+ nl
  +:+ "    <div>" +:+ nl
  +:+ "      <h2>" +:+ pascal_name +:+ "</h2>" +:+ nl
  +:+ "    </div>" +:+ nl
  +:+ "  )" +:+ nl
  +:+ "}" +:+ nl.

(** The five other generators interpolate the component name into longer
    sources; the development is parametric in them. *)
Record templates := Templates {
  generate_component_with_children : string -> string;
  generate_component_with_state : string -> string;
  generate_form_component : string -> string;
  generate_card_component : string -> string;
  generate_list_component : string -> string }.

(** The values of [choices=] of the [--type] option. *)
Definition type_choices : list string :=
  ["basic"; "children"; "state"; "form"; "card"; "list"].

Record argv := Argv {
  arg_name : option string;
  arg_project_path : option string;
  arg_type : option string;
  arg_dir : option string }.

Record args := Args {
  name_ : string;
  project_path_ : string;
  type_ : string;
  dir_ : string }.

(** [parser.parse_args()]: a missing name or a type outside the choices
    makes argparse end the process with status 2. *)
Definition parse_args (a : argv) : M args :=
  match arg_name a with
  | None => exit 2
  | Some n =>
      let t := default "basic" (arg_type a) in
      if bool_decide (t ∈ type_choices)
      then ret {| name_ := n;
                  project_path_ := default "." (arg_project_path a);
                  type_ := t;
                  dir_ := default "components" (arg_dir a) |}
      else exit 2
  end.

(** The text of [p.relative_to(base)] inside a message; the script dies
    of a [ValueError] when [p] is not below [base]. *)
Definition relative_str (p base : path) : M string :=
  match relative_to p base with
  | Some r => ret (str r)
  | None => raise ValueError
  end.

(** The part of [create_component] after the component file is written:
    the index file. *)
Definition update_index (project_path components_dir : path) (pascal_name : string)
  : M unit :=
  let index_file := components_dir // "index.ts" in
  let export_line := "export * from './" +:+ pascal_name +:+ "'" +:+ nl in
  let* found := exists_ index_file in
  if found then
    let* content := read_text index_file in
    if negb (Py.contains export_line content) then
      write_text index_file (content +:+ export_line) ;;
      let* rel := relative_str index_file project_path in
      print (check +:+ " Updated " +:+ rel)
    else ret tt
  else
    write_text index_file export_line ;;
    let* rel := relative_str index_file project_path in
    print (check +:+ " Created " +:+ rel).

Section Generator.
Variable T : templates.

(** The dictionary [generators] of [create_component]. *)
Definition generators : list (string * (string -> string)) :=
  [ ("basic", generate_basic_component);
    ("children", generate_component_with_children T);
    ("state", generate_component_with_state T);
    ("form", generate_form_component T);
    ("card", generate_card_component T);
    ("list", generate_list_component T) ].

Definition create_component (project_path : path)
    (name component_type directory : string) : M bool :=
  print (nl +:+ rocket +:+ " Generating " +:+ name +:+ " component" +:+ nl) ;;
  let generator := Py.dict_get generators component_type generate_basic_component in
  let content := generator name in
  let components_dir := project_path // "src" // directory in
  mkdir_parents components_dir ;;
  let pascal_name := to_pascal_case name in
  let component_file := components_dir // (pascal_name +:+ ".tsx") in
  let* found := exists_ component_file in
  let* overwrite :=
    (if found then
       print (warning +:+ " Warning: " +:+ str component_file +:+ " already exists") ;;
       let* response := input "Overwrite? (y/N): " in
       if decide (Py.lower response = "y") then ret true
       else print "Cancelled" ;; ret false
     else ret true) in
  if negb overwrite then ret false
  else
    write_text component_file content ;;
    let* rel := relative_str component_file project_path in
    print (check +:+ " Created " +:+ rel) ;;
    update_index project_path components_dir pascal_name ;;
    print (nl +:+ memo +:+ " Usage:") ;;
    print ("  import { " +:+ pascal_name +:+ " } from '@/" +:+ directory +:+ "'") ;;
    print "  // or" ;;
    print ("  import { " +:+ pascal_name +:+ " } from '@/" +:+ directory +:+ "/"
           +:+ pascal_name +:+ "'") ;;
    ret true.

Definition main (a : argv) : M unit :=
  let* args := parse_args a in
  let project_path := Path (project_path_ args) in
  let* found := exists_ project_path in
  (if found then ret tt
   else
     print (cross +:+ " Error: Project path '" +:+ project_path_ args
            +:+ "' does not exist") ;;
     exit 1) ;;
  let* has_package_json := exists_ (project_path // "package.json") in
  (if has_package_json then ret tt
   else
     print (cross +:+ " Error: Not a valid Node.js project (package.json not found)") ;;
     exit 1) ;;
  let* created := create_component project_path (name_ args) (type_ args) (dir_ args) in
  if created then print (nl +:+ done_mark +:+ " Component generated successfully!")
  else exit 1.

End Generator.

End ReactComponent.

(** ** monorepo-developer/scripts/generate_component.py *)

Module MonorepoComponent.
Import Sys.

Definition rocket : string := "ðŸš€".
Definition cross : string := "âœ—".
Definition check : string := "âœ“".
Definition package : string := "ðŸ“¦".
Definition done_mark : string := "âœ…".

Definition to_pascal_case (name : string) : string :=
  Py.join EmptyString
    (Py.capitalize <$> Py.split_ws (Py.replace_char "_" " " (Py.replace_char "-" " " name))).

Definition generate_basic_component (name : string) : string :=
  let pascal_name := to_pascal_case name in
  "interface " +:+ pascal_name +:+ "Props {" +:+ nl
  +:+ "  // Add your props here" +:+ nl
  +:+ "}" +:+ nl +:+ nl
  +:+ "export function " +:+ pascal_name +:+ "({  }: " +:+ pascal_name +:+ "Props) {" +:+ nl
  +:+ "  return (" +:+ nl
  +:+ "    <div>" +:+ nl
  +:+ "      <h2>" +:+ pascal_name +:+ "</h2>" +:+ nl
  +:+ "    </div>" +:+ nl
  +:+ "  )" +:+ nl
  +:+ "}" +:+ nl.

Record templates := Templates {
  generate_component_with_children : string -> string;
  generate_component_with_state : string -> string;
  generate_form_component : string -> string;
  generate_card_component : string -> string;
  generate_list_component : string -> string;
  generate_modal_component : string -> string }.

Definition type_choices : list string :=
  ["basic"; "children"; "state"; "form"; "card"; "list"; "modal"].

Record argv := Argv {
  arg_name : option string;
  arg_type : option string;
  arg_directory : option string;
  arg_package : option string;
  arg_project_path : option string }.

Record args := Args {
  name_ : string;
  type_ : string;
  directory_ : string;
  package_ : option string;
  project_path_ : string }.

Definition parse_args (a : argv) : M args :=
  match arg_name a with
  | None => exit 2
  | Some n =>
      let t := default "basic" (arg_type a) in
      if bool_decide (t ∈ type_choices)
      then ret {| name_ := n;
                  type_ := t;
                  directory_ := default "components" (arg_directory a);
                  package_ := arg_package a;
                  project_path_ := default "." (arg_project_path a) |}
      else exit 2
  end.

Definition relative_str (p base : path) : M string :=
  match relative_to p base with
  | Some r => ret (str r)
  | None => raise ValueError
  end.

(** [p.iterdir()] dies when [p] is a regular file. *)
Definition iterdir_ (p : path) : M (list path) :=
  fun w => if is_file w p then (Raise NotADirectoryError, w)
           else (Return (iterdir w p), w).

(** [find_frontend_package]: [None] after a message, or the package. *)
Fixpoint first_frontend (candidates : list path) : M (option path) :=
  match candidates with
  | [] =>
      print (cross +:+ " No frontend package found in monorepo") ;;
      ret None
  | package_dir :: rest =>
      let* dir := (fun w => (Return (is_dir w package_dir), w)) in
      let* has_components := exists_ (package_dir // "src" // "components") in
      if dir && has_components then ret (Some package_dir)
      else first_frontend rest
  end.

Definition find_frontend_package (project_path : path) (package_name : option string)
  : M (option path) :=
  let packages_dir := project_path // "packages" in
  let* found := exists_ packages_dir in
  if negb found then
    print (cross +:+ " Not a valid monorepo project (packages directory not found)") ;;
    ret None
  else if Py.nonempty (default EmptyString package_name) then
    let package_name := default EmptyString package_name in
    let package_path := packages_dir // package_name in
    let* there := exists_ package_path in
    let* has_components := exists_ (package_path // "src" // "components") in
    if there && has_components then ret (Some package_path)
    else
      print (cross +:+ " Frontend package '" +:+ package_name
             +:+ "' not found or not configured") ;;
      ret None
  else
    let* candidates := iterdir_ packages_dir in
    first_frontend candidates.

Section Generator.
Variable T : templates.

Definition generators : list (string * (string -> string)) :=
  [ ("basic", generate_basic_component);
    ("children", generate_component_with_children T);
    ("state", generate_component_with_state T);
    ("form", generate_form_component T);
    ("card", generate_card_component T);
    ("list", generate_list_component T);
    ("modal", generate_modal_component T) ].

Definition create_component (project_path : path)
    (name component_type directory : string) : M bool :=
  print (nl +:+ rocket +:+ " Generating " +:+ name +:+ " component ("
         +:+ component_type +:+ ")" +:+ nl) ;;
  match Py.dict_lookup generators component_type with
  | None =>
      print (cross +:+ " Unknown component type: " +:+ component_type) ;;
      print ("Available types: " +:+ Py.join ", " (Py.keys generators)) ;;
      ret false
  | Some generator =>
      let content := generator name in
      let pascal_name := to_pascal_case name in
      let component_path :=
        if decide (directory = "ui")
        then project_path // "src" // "components" // "ui" // (pascal_name +:+ ".tsx")
        else project_path // "src" // "components" // directory
                          // (pascal_name +:+ ".tsx") in
      mkdir_parents (parent component_path) ;;
      write_text component_path content ;;
      let* rel := relative_str component_path project_path in
      print (check +:+ " Created " +:+ rel) ;;
      let index_path := parent component_path // "index.ts" in
      let export_line :=
        "export { " +:+ pascal_name +:+ " } from './" +:+ pascal_name +:+ "'" +:+ nl in
      let* found := exists_ index_path in
      (if negb found then
         write_text index_path export_line ;;
         let* rel := relative_str index_path project_path in
         print (check +:+ " Created " +:+ rel)
       else
         append_text index_path export_line ;;
         let* rel := relative_str index_path project_path in
         print (check +:+ " Updated " +:+ rel)) ;;
      ret true
  end.

Definition main (a : argv) : M unit :=
  let* args := parse_args a in
  let project_path := Path (project_path_ args) in
  let* package_path := find_frontend_package project_path (package_ args) in
  match package_path with
  | None => exit 1
  | Some package_path =>
      print (nl +:+ package +:+ " Target package: " +:+ name package_path +:+ nl) ;;
      let* created :=
        create_component package_path (name_ args) (type_ args) (directory_ args) in
      (if created then ret tt else exit 1) ;;
      print (nl +:+ done_mark +:+ " Component '" +:+ name_ args
             +:+ "' generated successfully!" +:+ nl) ;;
      print "Usage:" ;;
      print ("  import { " +:+ to_pascal_case (name_ args) +:+ " } from '@/components/"
             +:+ directory_ args +:+ "'")
  end.

End Generator.

End MonorepoComponent.

(** ** helpers.py: names, plurals, imports and comments *)

Module HelperFunctions.

(** String operations of Python the helpers need beyond those above. *)
Fixpoint rev (s : string) : string :=
  match s with
  | EmptyString => EmptyString
  | String c r => rev r +:+ String c EmptyString
  end.

(** [s.endswith(suffix)] *)
Definition endswith (suffix s : string) : bool := Py.startswith (rev suffix) (rev s).

(** [s[:-1]] *)
Definition drop_last (s : string) : string :=
  match rev s with
  | EmptyString => EmptyString
  | String _ r => rev r
  end.

(** [s[-2]], when [s] has two characters *)
Definition second_last (s : string) : option ascii :=
  match rev s with
  | String _ (String c _) => Some c
  | _ => None
  end.

Definition is_digit (c : ascii) : bool := Py.between 48 57 (Py.code c).

(** [c.isalpha()] on one ASCII character *)
Definition is_alpha (c : ascii) : bool := Py.is_upper c || Py.is_lower c.

(** [all(p(c) for c in s)] *)
Fixpoint all_chars (p : ascii -> bool) (s : string) : bool :=
  match s with
  | EmptyString => true
  | String c r => p c && all_chars p r
  end.

(** [s.title()]: in every run of letters the first is upper-cased and the
    others lower-cased; [prev_cased] tells whether the character before was
    a letter. *)
Fixpoint title_from (prev_cased : bool) (s : string) : string :=
  match s with
  | EmptyString => EmptyString
  | String c r =>
      String (if is_alpha c
              then (if prev_cased then Py.lower_char c else Py.upper_char c)
              else c)
             (title_from (is_alpha c) r)
  end.

Definition title (s : string) : string := title_from false s.

(** The first substitution of [to_snake_case],
    [re.sub('(.)([A-Z][a-z]+)', r'\1_\2', text)]: an underscore after every
    character, line feed apart, that is followed by an upper-case letter and
    a lower-case one.  The match takes all the lower-case letters that
    follow, the search goes on behind them; [in_run] tells that the
    character read belongs to these letters. *)
Fixpoint sub_word_start (in_run : bool) (s : string) : string :=
  match s with
  | EmptyString => EmptyString
  | String c r =>
      if in_run && Py.is_lower c then String c (sub_word_start true r)
      else
        match r with
        | String u (String l r') =>
            if negb (bool_decide (Py.code c = 10)) && Py.is_upper u && Py.is_lower l
            then String c (String "_" (String u (String l (sub_word_start true r'))))
            else String c (sub_word_start false r)
        | _ => String c (sub_word_start false r)
        end
  end.

(** The second substitution,
    [re.sub('([a-z0-9])([A-Z])', r'\1_\2', s1)]: an underscore between a
    lower-case letter or digit and an upper-case letter; the search goes on
    behind the two. *)
Fixpoint sub_lower_upper (s : string) : string :=
  match s with
  | EmptyString => EmptyString
  | String c r =>
      match r with
      | String u r' =>
          if (Py.is_lower c || is_digit c) && Py.is_upper u
          then String c (String "_" (String u (sub_lower_upper r')))
          else String c (sub_lower_upper r)
      | EmptyString => String c EmptyString
      end
  end.

(** [to_snake_case] *)
Definition to_snake_case (text : string) : string :=
  let s1 := sub_word_start false text in
  let s2 := sub_lower_upper s1 in
  Py.lower s2.

(** [to_camel_case] *)
Definition to_camel_case (text : string) : string :=
  match Py.split "_" text with
  | [] => EmptyString
  | first :: rest => first +:+ Py.join EmptyString (title <$> rest)
  end.

(** [to_pascal_case] *)
Definition to_pascal_case (text : string) : string :=
  Py.join EmptyString (title <$> Py.split "_" text).

(** [pluralize] *)
Definition special_cases : list (string * string) :=
  [ ("person", "people"); ("child", "children"); ("man", "men");
    ("woman", "women"); ("tooth", "teeth"); ("foot", "feet");
    ("mouse", "mice"); ("goose", "geese") ].

Definition is_vowel (c : ascii) : bool :=
  bool_decide (c ∈ ["a"; "e"; "i"; "o"; "u"]%char).

Definition pluralize (word : string) : string :=
  match Py.dict_lookup special_cases (Py.lower word) with
  | Some plural => plural
  | None =>
      if endswith "y" word && Nat.ltb 1 (String.length word)
         && negb (from_option is_vowel false (second_last word))
      then drop_last word +:+ "ies"
      else if existsb (fun suffix => endswith suffix word) ["s"; "x"; "z"; "ch"; "sh"]
      then word +:+ "es"
      else word +:+ "s"
  end.

(** [generate_import_block] *)
Definition generate_import_block (imports : list string) : string :=
  match imports with
  | [] => EmptyString
  | [imp] => "import " +:+ dq +:+ imp +:+ dq +:+ nl +:+ nl
  | _ =>
      let import_lines := Py.join nl ((fun imp => tab +:+ dq +:+ imp +:+ dq) <$> imports) in
      "import (" +:+ nl +:+ import_lines +:+ nl +:+ ")" +:+ nl +:+ nl
  end.

(** ['\t' * indent] *)
Fixpoint tabs (indent : nat) : string :=
  match indent with
  | O => EmptyString
  | S n => tab +:+ tabs n
  end.

(** [format_go_comment], for an indent that is not negative (a negative
    one indents like 0). *)
Definition format_go_comment (text : string) (indent : nat) : string :=
  let indent_str := tabs indent in
  let lines := Py.split (ascii_of_nat 10) text in
  Py.join nl ((fun line => indent_str +:+ "// " +:+ line) <$> lines).

End HelperFunctions.

(** ** monorepo-developer/scripts/generate_component.py, the case helper *)

Module MonorepoNames.


End MonorepoNames.

(** * Properties *)

(** ** Python string operations *)

Module PyProps.

(** Substrings of a concatenation. *)
Lemma startswith_app x y : Py.startswith x (x +:+ y) = true.
Proof. induction x as [|c x IH]; simpl; [done|]. by rewrite decide_True. Qed.

Lemma contains_prefix x t : Py.startswith x t = true -> Py.contains x t = true.
Proof. intros H. destruct t; simpl; rewrite H; done. Qed.

Lemma contains_app_r x s t : Py.contains x t = true -> Py.contains x (s +:+ t) = true.
Proof.
  intros H. induction s as [|c s IH]; simpl; [done|].
  rewrite IH. apply orb_true_r.
Qed.

Lemma startswith_refl x : Py.startswith x x = true.
Proof. induction x as [|c x IH]; simpl; [done|]. by rewrite decide_True. Qed.

Lemma contains_app_self s x : Py.contains x (s +:+ x) = true.
Proof. apply contains_app_r, contains_prefix, startswith_refl. Qed.

End PyProps.

(** ** The Go type mapper *)

Module HelpersProps.
Import Helpers.

(** One unfolding of [map_type], as the Python body reads. *)
Lemma map_type_unfold type_str :
  map_type type_str =
    let s := normalise type_str in
    if Py.startswith "[]" s then
      let r := map_type (Py.slice_from 2 s) in ("[]" +:+ r.1, r.2)
    else if Py.startswith "*" s then
      let r := map_type (Py.slice_from 1 s) in ("*" +:+ r.1, r.2)
    else map_base s.
Proof.
  cbn zeta. match goal with |- _ = ?r => set (rhs := r) end.
  rewrite map_type_equation_1.
  destruct (inspect (Py.startswith "[]" (normalise type_str))) as [[] e1];
    simp map_type.
  - rewrite <- map_type_equation_1. subst rhs. by rewrite e1.
  - destruct (inspect (Py.startswith "*" (normalise type_str))) as [[] e2];
      simp map_type; rewrite <- ?map_type_equation_1; subst rhs; by rewrite e1, e2.
Qed.

(** Lower-casing and stripping commute and are idempotent. *)
Lemma is_space_lower_char c : Py.is_space (Py.lower_char c) = Py.is_space c.
Proof. by destruct c as [[] [] [] [] [] [] [] []]. Qed.

Lemma lower_char_idemp c : Py.lower_char (Py.lower_char c) = Py.lower_char c.
Proof. by destruct c as [[] [] [] [] [] [] [] []]. Qed.

Lemma lower_idemp s : Py.lower (Py.lower s) = Py.lower s.
Proof. induction s as [|c r IH]; simpl; [done|]. by rewrite lower_char_idemp, IH. Qed.

Lemma lower_app s t : Py.lower (s +:+ t) = Py.lower s +:+ Py.lower t.
Proof. induction s as [|c r IH]; simpl; [done|]. by rewrite IH. Qed.

Lemma lower_rstrip s : Py.lower (Py.rstrip s) = Py.rstrip (Py.lower s).
Proof.
  induction s as [|c r IH]; simpl; [done|].
  rewrite <- IH, is_space_lower_char.
  destruct (Py.rstrip r); simpl; [by destruct (Py.is_space c)|done].
Qed.

Lemma rstrip_idemp s : Py.rstrip (Py.rstrip s) = Py.rstrip s.
Proof.
  induction s as [|c r IH]; simpl; [done|].
  destruct (Py.rstrip r) as [|d r'] eqn:E.
  - destruct (Py.is_space c) eqn:Ec; simpl; [done|]. by rewrite Ec.
  - simpl in *. by rewrite IH.
Qed.

Lemma rstrip_cons_nonspace c s :
  Py.is_space c = false -> Py.rstrip (String c s) = String c (Py.rstrip s).
Proof. intros H. simpl. rewrite H. by destruct (Py.rstrip s). Qed.

Lemma normalise_rstrip_lower s : normalise (Py.rstrip (Py.lower s)) = normalise s.
Proof.
  unfold normalise, Py.strip.
  by rewrite lower_rstrip, lower_idemp, rstrip_idemp.
Qed.

(** [map_type] looks at its argument through [normalise] only. *)
Lemma map_type_normalise s t : normalise s = normalise t -> map_type s = map_type t.
Proof. intros H. by rewrite (map_type_unfold s), (map_type_unfold t), H. Qed.

Lemma normalise_array s : normalise ("[]" +:+ s) = "[]" +:+ Py.rstrip (Py.lower s).
Proof.
  unfold normalise, Py.strip. rewrite lower_app.
  change (Py.lower "[]" +:+ Py.lower s) with (String "[" (String "]" (Py.lower s))).
  by rewrite !rstrip_cons_nonspace.
Qed.

Lemma normalise_pointer s : normalise ("*" +:+ s) = "*" +:+ Py.rstrip (Py.lower s).
Proof.
  unfold normalise, Py.strip. rewrite lower_app.
  change (Py.lower "*" +:+ Py.lower s) with (String "*" (Py.lower s)).
  by rewrite !rstrip_cons_nonspace.
Qed.

Lemma map_type_array s :
  map_type ("[]" +:+ s) = ("[]" +:+ (map_type s).1, (map_type s).2).
Proof.
  rewrite (map_type_unfold ("[]" +:+ s)). cbn zeta. rewrite normalise_array.
  change (Py.startswith "[]" ("[]" +:+ Py.rstrip (Py.lower s))) with true.
  change (Py.slice_from 2 ("[]" +:+ Py.rstrip (Py.lower s)))
    with (Py.rstrip (Py.lower s)).
  cbv iota. by rewrite (map_type_normalise _ s (normalise_rstrip_lower s)).
Qed.

Lemma map_type_pointer s :
  map_type ("*" +:+ s) = ("*" +:+ (map_type s).1, (map_type s).2).
Proof.
  rewrite (map_type_unfold ("*" +:+ s)). cbn zeta. rewrite normalise_pointer.
  change (Py.startswith "[]" ("*" +:+ Py.rstrip (Py.lower s))) with false.
  change (Py.startswith "*" ("*" +:+ Py.rstrip (Py.lower s))) with true.
  change (Py.slice_from 1 ("*" +:+ Py.rstrip (Py.lower s)))
    with (Py.rstrip (Py.lower s)).
  cbv iota. by rewrite (map_type_normalise _ s (normalise_rstrip_lower s)).
Qed.

(** The two modifiers of a type and a stack of them in front of a type. *)
Inductive modifier := Array | Pointer.

Definition modifier_prefix (m : modifier) : string :=
  match m with Array => "[]" | Pointer => "*" end.

Definition wrap (ms : list modifier) (s : string) : string :=
  foldr (fun m acc => modifier_prefix m +:+ acc) s ms.

(** C6. Mapping an array type or a pointer type maps the inner type and
    puts the modifier back in front of the Go type, with the imports of the
    inner type; the same holds under any stack of modifiers. *)
Theorem C6_map_type_unwrap_rewrap (T : string) :
  map_type ("[]" +:+ T) = ("[]" +:+ (map_type T).1, (map_type T).2)
  /\ map_type ("*" +:+ T) = ("*" +:+ (map_type T).1, (map_type T).2)
  /\ forall ms : list modifier,
       map_type (wrap ms T) = (wrap ms (map_type T).1, (map_type T).2).
Proof.
  split; [apply map_type_array|]. split; [apply map_type_pointer|].
  induction ms as [|m ms IH]; simpl.
  - by destruct (map_type T).
  - destruct m; simpl; [rewrite map_type_array|rewrite map_type_pointer];
      by rewrite IH.
Qed.

Example map_type_nested :
  map_type "[]*[]Time" = ("[]*[]time.Time", ["time"]).
Proof. reflexivity. Qed.

(** A type outside the table maps to the default. *)
Lemma map_base_unknown s :
  Py.dict_lookup TYPE_MAP s = None -> map_base s = ("string", []).
Proof. intros H. unfold map_base, Py.dict_get. by rewrite H. Qed.

(** The claim C7 as the specification words it, for [map_type]. *)
Definition unknown_maps_to_string (type_str : string) : Prop :=
  Py.dict_lookup TYPE_MAP (normalise type_str) = None ->
  map_type type_str = ("string", []).

(** C7, counterexample: a pointer to a time is not in the table, and it
    maps to a pointer to [time.Time] with the import of [time]. *)
Lemma C7_counterexample_pointer_time :
  Py.dict_lookup TYPE_MAP (normalise "*time") = None
  /\ map_type "*time" = ("*time.Time", ["time"])
  /\ ~ unknown_maps_to_string "*time".
Proof.
  split; [reflexivity|]. split; [reflexivity|].
  intros H. specialize (H eq_refl). discriminate H.
Qed.

(** [Field._map_type] maps every type outside its own table to [string]. *)
Lemma field_map_type_unknown t :
  Py.dict_lookup GenerateDomain.type_mapping (Py.lower t) = None ->
  GenerateDomain._map_type t = "string".
Proof. intros H. unfold GenerateDomain._map_type, Py.dict_get. by rewrite H. Qed.

(** The table of [Field._map_type] is a part of [TYPE_MAP], and no key of
    [TYPE_MAP] changes when stripped. *)
Lemma type_mapping_sub_TYPE_MAP k :
  Py.dict_lookup TYPE_MAP k = None -> Py.dict_lookup GenerateDomain.type_mapping k = None.
Proof.
  intros H. destruct (Py.dict_lookup GenerateDomain.type_mapping k) eqn:E; [|done].
  unfold GenerateDomain.type_mapping in E. simpl in E.
  repeat (case_decide as Hk; [rewrite <- Hk in H; discriminate H|clear Hk]). done.
Qed.

Lemma TYPE_MAP_keys_stripped k :
  Py.dict_lookup TYPE_MAP (Py.strip k) = None -> Py.dict_lookup TYPE_MAP k = None.
Proof.
  intros H. destruct (Py.dict_lookup TYPE_MAP k) eqn:E; [|done].
  unfold TYPE_MAP in E. simpl in E.
  repeat (case_decide as Hk; [rewrite <- Hk in H; discriminate H|clear Hk]). done.
Qed.

(** C7, amended. A type that is not in the table and has no modifier in
    front maps to [string] with no import, and [Field._map_type] maps it
    to [string]; both functions are total, so that nothing is raised. *)
Theorem C7_unknown_type_defaults (type_str : string) :
  Py.dict_lookup TYPE_MAP (normalise type_str) = None ->
  Py.startswith "[]" (normalise type_str) = false ->
  Py.startswith "*" (normalise type_str) = false ->
  map_type type_str = ("string", [])
  /\ GenerateDomain._map_type type_str = "string".
Proof.
  intros H Ha Hp. split.
  - rewrite map_type_unfold. cbn zeta. rewrite Ha, Hp.
    by apply map_base_unknown.
  - by apply field_map_type_unknown, type_mapping_sub_TYPE_MAP, TYPE_MAP_keys_stripped.
Qed.

Lemma C7_unknown_type_defaults_witness :
  Py.dict_lookup TYPE_MAP (normalise " Money ") = None
  /\ Py.startswith "[]" (normalise " Money ") = false
  /\ Py.startswith "*" (normalise " Money ") = false
  /\ map_type " Money " = ("string", [])
  /\ GenerateDomain._map_type " Money " = "string".
Proof.
  split; [reflexivity|]. split; [reflexivity|]. split; [reflexivity|].
  apply (C7_unknown_type_defaults " Money "); reflexivity.
Defined.

End HelpersProps.

(** ** The process environment *)

Module SysProps.
Import Sys.

(** Closed statements about runs on example worlds are decided by
    evaluation. *)
Ltac by_evaluation := apply (bool_decide_unpack _); vm_compute; exact I.
Ltac each_by_evaluation :=
  cbv zeta; repeat match goal with |- _ /\ _ => split end; by_evaluation.

(** Running the primitives in front of a continuation. *)
Lemma run_print s {A} (k : M A) w : (print s ;; k) w = k (emit s w).
Proof. done. Qed.

Lemma run_ret {A B} (a : A) (k : A -> M B) w : (let* x := ret a in k x) w = k a w.
Proof. done. Qed.

Lemma run_exists p {A} (k : bool -> M A) w :
  (let* b := exists_ p in k b) w = k (is_dir w p || is_file w p) w.
Proof. done. Qed.

Lemma run_mkdir p {A} (k : M A) w :
  mkdir_error w p = None -> (mkdir_parents p ;; k) w = k (make_dirs (prefixes p) w).
Proof. intros H. unfold bind, mkdir_parents. by rewrite H. Qed.

Lemma run_mkdir_error p e {A} (k : M A) w :
  mkdir_error w p = Some e -> (mkdir_parents p ;; k) w = (Raise e, w).
Proof. intros H. unfold bind, mkdir_parents. by rewrite H. Qed.

Lemma run_write p s {A} (k : M A) w :
  open_error w p = None -> (write_text p s ;; k) w = k (store p s w).
Proof. intros H. unfold bind, write_text. by rewrite H. Qed.

Lemma run_write_error p s e {A} (k : M A) w :
  open_error w p = Some e -> (write_text p s ;; k) w = (Raise e, w).
Proof. intros H. unfold bind, write_text. by rewrite H. Qed.

Lemma run_append p s {A} (k : M A) w :
  open_error w p = None ->
  (append_text p s ;; k) w = k (store p (default EmptyString (files w !! p) +:+ s) w).
Proof. intros H. unfold bind, append_text. by rewrite H. Qed.

Lemma run_read p s {A} (k : string -> M A) w :
  files w !! p = Some s -> (let* x := read_text p in k x) w = k s w.
Proof. intros H. unfold bind, read_text. by rewrite H. Qed.

(** Printing changes neither files nor directories. *)
Lemma is_dir_emit s w p : is_dir (emit s w) p = is_dir w p.
Proof. done. Qed.
Lemma is_file_emit s w p : is_file (emit s w) p = is_file w p.
Proof. done. Qed.
Lemma mkdir_error_emit s w p : mkdir_error (emit s w) p = mkdir_error w p.
Proof. done. Qed.
Lemma open_error_emit s w p : open_error (emit s w) p = open_error w p.
Proof. done. Qed.

(** Paths *)
Lemma join_plain (p : path) (s : string) :
  Py.startswith "/" s = false -> parts_of s = [s] -> p // s = p ++ [s].
Proof. intros H1 H2. unfold joinpath. by rewrite H1, H2. Qed.

Lemma parent_snoc (p : path) (x : string) : x <> "/" -> parent (p ++ [x]) = p.
Proof.
  intros Hx. unfold parent. rewrite removelast_last.
  case_decide as E; [|done]. destruct p as [|a [|b p]]; simplify_eq/=.
Qed.

Lemma prefixes_snoc (p : path) (x : string) :
  prefixes (p ++ [x]) = prefixes p ++ [p ++ [x]].
Proof.
  unfold prefixes. rewrite length_app. simpl.
  rewrite Nat.add_1_r, seq_S, fmap_app. simpl. f_equal.
  - apply list_fmap_ext. intros i n Hn. apply lookup_seq in Hn as [-> Hi].
    by rewrite take_app_le by lia.
  - by rewrite firstn_all2 by (rewrite length_app; simpl; lia).
Qed.

Lemma elem_of_prefixes_self (p : path) : p <> [] -> p ∈ prefixes p.
Proof.
  destruct p as [|x q _] using rev_ind; [done|]. intros _.
  rewrite prefixes_snoc. set_solver.
Qed.

Lemma prefixes_length (p q : path) : q ∈ prefixes p -> 0 < length q <= length p.
Proof.
  unfold prefixes. intros (n & -> & Hn)%list_elem_of_fmap.
  apply elem_of_seq in Hn. rewrite length_take. lia.
Qed.

Lemma mkdir_error_not_file w p : mkdir_error w p = None -> is_file w p = false.
Proof. unfold mkdir_error. repeat case_match; done. Qed.

(** After [mkdir], the directory is there, and a path below it is a
    directory only if it was one before. *)
Lemma is_dir_make_dirs w p : is_dir (make_dirs (prefixes p) w) p = true.
Proof.
  unfold is_dir. apply bool_decide_eq_true. simpl.
  destruct (decide (p = [])) as [->|Hp]; [by left|].
  right; right. apply elem_of_union_r, elem_of_list_to_set, elem_of_prefixes_self, Hp.
Qed.

Lemma is_dir_below_make_dirs w p x :
  x <> "/" -> p ++ [x] ∉ dirs w -> is_dir (make_dirs (prefixes p) w) (p ++ [x]) = false.
Proof.
  intros Hx H. unfold is_dir. apply bool_decide_eq_false. simpl.
  intros [E|[E|[E|E%elem_of_list_to_set%prefixes_length]%elem_of_union]].
  - by destruct p.
  - destruct p as [|a [|b p]]; simplify_eq/=.
  - done.
  - rewrite length_app in E. simpl in E. lia.
Qed.

Lemma is_file_make_dirs ps w p : is_file (make_dirs ps w) p = is_file w p.
Proof. done. Qed.

Lemma is_dir_store q s w p : is_dir (store q s w) p = is_dir w p.
Proof. done. Qed.

Lemma is_file_store_ne q s w p : q <> p -> is_file (store q s w) p = is_file w p.
Proof.
  intros H. unfold is_file, store. simpl. by rewrite lookup_insert_ne.
Qed.

(** A file can be written right below a directory just made, unless a
    directory has its name. *)
Lemma open_error_below_make_dirs w p x :
  x <> "/" -> mkdir_error w p = None -> p ++ [x] ∉ dirs w ->
  open_error (make_dirs (prefixes p) w) (p ++ [x]) = None.
Proof.
  intros Hx Hmk Hd. unfold open_error.
  rewrite is_dir_below_make_dirs, parent_snoc by done.
  rewrite is_file_make_dirs, (mkdir_error_not_file _ _ Hmk), is_dir_make_dirs.
  done.
Qed.

(** A Go project in the current directory: go.mod and nothing else. *)
Definition go_project : world :=
  {| dirs := ∅;
     files := {[ ["go.mod"] := "module example.com/app" +:+ nl ]};
     stdout := [];
     stdin := [] |}.

End SysProps.

(** ** The infrastructure generator *)

Module AddInfrastructureProps.
Import Sys SysProps AddInfrastructure.

(** The pairs of type and provider for which [create_infrastructure] has
    a generator of the interface and one of the implementation. *)
Definition registered : list (string * string) :=
  [ ("storage", "local"); ("storage", "s3"); ("storage", "gcs");
    ("cache", "redis"); ("cache", "memory") ].

(** The pairs the argument resolver lets through: the type is a key of
    [SUPPORTED_TYPES] and the provider is in its list. *)
Definition accepted (infra_type provider : string) : Prop :=
  exists providers,
    Py.dict_lookup SUPPORTED_TYPES infra_type = Some providers /\ provider ∈ providers.

Definition adding_message (infra_type provider : string) : string :=
  nl +:+ rocket +:+ " Adding " +:+ infra_type +:+ " infrastructure with "
  +:+ provider +:+ " provider" +:+ nl.

Definition unsupported_message (infra_type provider : string) : string :=
  cross +:+ " Unsupported combination: " +:+ infra_type +:+ "/" +:+ provider.

Definition infra_dir (project_path : path) (infra_type : string) : path :=
  project_path // "internal" // "infrastructure" // infra_type.

(** Stand-ins for the Go sources, used to run the generator on examples:
    the package clause each source starts with, and one line of each usage
    example. *)
Definition sample_templates : templates :=
  {| get_storage_interface := "package storage";
     get_storage_local := "package storage";
     get_storage_s3 := "package storage";
     get_storage_gcs := "package storage";
     get_cache_interface := "package cache";
     get_cache_redis := "package cache";
     get_cache_memory := "package cache";
     usage_storage_local := "// In your main.go or initialization code:";
     usage_storage_s3 := "// In your main.go or initialization code:";
     usage_storage_gcs := "// In your main.go or initialization code:";
     usage_cache_redis := "// In your main.go or initialization code:";
     usage_cache_memory := "// In your main.go or initialization code:" |}.

Definition argv_of (infra_type provider : string) : argv :=
  {| arg_type := Some infra_type; arg_provider := Some provider;
     arg_project_path := None |}.

Section Generator.
Variable T : templates.

Lemma unregistered_impl infra_type provider :
  (infra_type, provider) ∉ registered -> impl_content T infra_type provider = None.
Proof.
  intros H. unfold impl_content.
  repeat (case_decide; subst); try done; exfalso; apply H; unfold registered;
    set_solver.
Qed.

Lemma unsupported_test infra_type provider :
  (infra_type, provider) ∉ registered ->
  negb (truthy (interface_content T infra_type))
  || negb (truthy (impl_content T infra_type provider)) = true.
Proof. intros H. rewrite (unregistered_impl _ _ H). simpl. apply orb_true_r. Qed.

(** What [create_infrastructure] does without a generator: the
    directory is made, the two messages are printed, nothing else. *)
Lemma create_infrastructure_unsupported project_path infra_type provider w :
  (infra_type, provider) ∉ registered ->
  create_infrastructure T project_path infra_type provider w =
    match mkdir_error w (infra_dir project_path infra_type) with
    | Some e => (Raise e, emit (adding_message infra_type provider) w)
    | None =>
        (Return tt,
         emit (unsupported_message infra_type provider)
           (make_dirs (prefixes (infra_dir project_path infra_type))
              (emit (adding_message infra_type provider) w)))
    end.
Proof.
  intros H. unfold create_infrastructure. rewrite (unsupported_test _ _ H).
  rewrite run_print. fold (adding_message infra_type provider).
  fold (infra_dir project_path infra_type).
  destruct (mkdir_error w (infra_dir project_path infra_type)) as [e|] eqn:E.
  - by rewrite (run_mkdir_error _ e).
  - by rewrite run_mkdir.
Qed.

(** C3. A pair of type and provider without a generator makes the
    script print the message of the unsupported combination and write no
    file: the files of the project are those it had before.  (The
    message presupposes that the directory of the type could be made.) *)
Theorem C3_unsupported_combination_writes_nothing
    project_path infra_type provider w :
  (infra_type, provider) ∉ registered ->
  mkdir_error w (infra_dir project_path infra_type) = None ->
  let res := create_infrastructure T project_path infra_type provider w in
  res.1 = Return tt
  /\ files res.2 = files w
  /\ stdout res.2 = stdout w ++ [ adding_message infra_type provider;
                                 unsupported_message infra_type provider ].
Proof.
  intros H Hmk res. subst res.
  rewrite (create_infrastructure_unsupported _ _ _ _ H), Hmk. simpl.
  split; [done|]. split; [done|]. by rewrite <- app_assoc.
Qed.

(** Files are left alone even when the directory cannot be made. *)
Lemma unsupported_combination_files project_path infra_type provider w :
  (infra_type, provider) ∉ registered ->
  files (create_infrastructure T project_path infra_type provider w).2 = files w.
Proof.
  intros H. rewrite (create_infrastructure_unsupported _ _ _ _ H).
  by destruct (mkdir_error _ _).
Qed.

Lemma dict_lookup_keys {V} (d : list (string * V)) k v :
  Py.dict_lookup d k = Some v -> k ∈ Py.keys d.
Proof.
  unfold Py.keys. induction d as [|[k' v'] d IH]; simpl; [done|].
  case_decide as E; [subst; intros _; apply elem_of_cons; by left|].
  intros H. apply elem_of_cons. right. by apply IH.
Qed.

(** [main] up to the call of [create_infrastructure], when the resolver
    accepts the pair and the project is a Go project. *)
Lemma main_accepted a infra_type provider w :
  arg_type a = Some infra_type ->
  arg_provider a = Some provider ->
  accepted infra_type provider ->
  let project_path := Path (default "." (arg_project_path a)) in
  is_dir w project_path || is_file w project_path = true ->
  is_dir w (project_path // "go.mod") || is_file w (project_path // "go.mod") = true ->
  main T a w = create_infrastructure T project_path infra_type provider w.
Proof.
  intros Ht Hp (providers & Hl & Hin) project_path He Hg.
  unfold main, parse_args. rewrite Ht, Hp.
  rewrite bool_decide_eq_true_2 by (by eapply dict_lookup_keys).
  rewrite run_ret. cbn [type_ provider_ project_path_]. rewrite Hl.
  rewrite bool_decide_eq_true_2 by done.
  unfold bind at 1. cbn [ret]. fold project_path.
  rewrite run_exists, He. unfold bind at 1. cbn [ret].
  rewrite run_exists, Hg. unfold bind at 1. cbn [ret]. done.
Qed.

(** C2, amended. When the resolver accepts the type and the provider
    and no generator exists for the pair, the script prints the message
    of the unsupported combination, writes no file and runs to its end:
    the process ends with status 0. *)
Theorem C2_unsupported_combination_exit_status a infra_type provider w :
  arg_type a = Some infra_type ->
  arg_provider a = Some provider ->
  accepted infra_type provider ->
  (infra_type, provider) ∉ registered ->
  let project_path := Path (default "." (arg_project_path a)) in
  is_dir w project_path || is_file w project_path = true ->
  is_dir w (project_path // "go.mod") || is_file w (project_path // "go.mod") = true ->
  mkdir_error w (infra_dir project_path infra_type) = None ->
  let res := main T a w in
  exit_status res.1 = 0
  /\ files res.2 = files w
  /\ stdout res.2 = stdout w ++ [ adding_message infra_type provider;
                                 unsupported_message infra_type provider ].
Proof.
  intros Ht Hp Hacc Hreg project_path He Hg Hmk res. subst res.
  rewrite (main_accepted a infra_type provider w Ht Hp Hacc He Hg).
  rewrite (create_infrastructure_unsupported _ _ _ _ Hreg).
  fold project_path. rewrite Hmk. simpl.
  split; [done|]. split; [done|]. by rewrite <- app_assoc.
Qed.

(** C9. For the cache type with the redis provider the script writes
    two files, the interface cache.go and the implementation redis.go in
    the directory of the type, which it makes first, changes no other
    file, and lists the Redis client package among the dependencies. *)
Theorem C9_cache_redis_two_files project_path w :
  let dir := infra_dir project_path "cache" in
  Py.nonempty (get_cache_interface T) = true ->
  Py.nonempty (get_cache_redis T) = true ->
  mkdir_error w dir = None ->
  dir ++ ["cache.go"] ∉ dirs w ->
  dir ++ ["redis.go"] ∉ dirs w ->
  let res := create_infrastructure T project_path "cache" "redis" w in
  res.1 = Return tt
  /\ files res.2 = <[dir ++ ["redis.go"] := get_cache_redis T]>
                    (<[dir ++ ["cache.go"] := get_cache_interface T]> (files w))
  /\ dirs res.2 = dirs w ∪ list_to_set (prefixes dir)
  /\ "   - github.com/redis/go-redis/v9" ∈ stdout res.2.
Proof.
  intros dir Hi Hr Hmk Hc Hd res. subst res.
  unfold create_infrastructure. fold (infra_dir project_path "cache"). fold dir.
  change ("cache" +:+ ".go") with "cache.go".
  change ("redis" +:+ ".go") with "redis.go".
  change (interface_content T "cache") with (Some (get_cache_interface T)).
  change (impl_content T "cache" "redis") with (Some (get_cache_redis T)).
  change (get_dependencies "cache" "redis") with ["github.com/redis/go-redis/v9"].
  change (print_usage_example T "cache" "redis") with (print (usage_cache_redis T)).
  cbn [truthy default]. rewrite Hi, Hr. cbn [negb orb].
  rewrite (join_plain dir "cache.go"), (join_plain dir "redis.go") by done.
  rewrite run_print, run_mkdir by done.
  rewrite run_write by (by apply open_error_below_make_dirs).
  rewrite run_print.
  rewrite run_write.
  2:{ unfold open_error. rewrite parent_snoc by done.
      rewrite is_dir_emit, is_dir_store, is_dir_below_make_dirs by done.
      rewrite is_file_emit, is_file_store_ne.
      2:{ intros E. apply (f_equal length) in E. rewrite length_app in E.
          simpl in E. lia. }
      rewrite is_file_make_dirs, is_file_emit, (mkdir_error_not_file _ _ Hmk).
      by rewrite is_dir_emit, is_dir_store, is_dir_make_dirs. }
  split; [done|]. split; [done|]. split; [done|].
  cbn. rewrite !elem_of_app, !list_elem_of_singleton. tauto.
Qed.

End Generator.

Lemma C9_cache_redis_two_files_witness :
  Py.nonempty (get_cache_interface sample_templates) = true
  /\ Py.nonempty (get_cache_redis sample_templates) = true
  /\ mkdir_error go_project (infra_dir [] "cache") = None
  /\ (infra_dir [] "cache" ++ ["cache.go"] ∉ dirs go_project)
  /\ (infra_dir [] "cache" ++ ["redis.go"] ∉ dirs go_project)
  /\ (create_infrastructure sample_templates [] "cache" "redis" go_project).1 = Return tt
  /\ files (create_infrastructure sample_templates [] "cache" "redis" go_project).2 =
       <[infra_dir [] "cache" ++ ["redis.go"] := get_cache_redis sample_templates]>
         (<[infra_dir [] "cache" ++ ["cache.go"] := get_cache_interface sample_templates]>
            (files go_project))
  /\ dirs (create_infrastructure sample_templates [] "cache" "redis" go_project).2 =
       dirs go_project ∪ list_to_set (prefixes (infra_dir [] "cache"))
  /\ "   - github.com/redis/go-redis/v9"
       ∈ stdout (create_infrastructure sample_templates [] "cache" "redis" go_project).2.
Proof.
  assert (forall p : path, p ∉ dirs go_project) as Hno
    by (intros p; apply not_elem_of_empty).
  split; [reflexivity|]. split; [reflexivity|]. split; [by vm_compute|].
  split; [apply Hno|]. split; [apply Hno|].
  apply (C9_cache_redis_two_files sample_templates [] go_project);
    [reflexivity | reflexivity | by vm_compute | apply Hno | apply Hno].
Defined.

Lemma not_registered_queue_kafka : ("queue", "kafka") ∉ registered.
Proof. unfold registered. rewrite !not_elem_of_cons. repeat split; try done. apply not_elem_of_nil. Qed.

Lemma accepted_queue_kafka : accepted "queue" "kafka".
Proof. exists ["redis"; "kafka"; "rabbitmq"]. split; [reflexivity|]. set_solver. Qed.

Lemma C3_unsupported_combination_writes_nothing_witness :
  (("queue", "kafka") ∉ registered)
  /\ mkdir_error go_project (infra_dir [] "queue") = None
  /\ (create_infrastructure sample_templates [] "queue" "kafka" go_project).1 = Return tt
  /\ files (create_infrastructure sample_templates [] "queue" "kafka" go_project).2 =
       files go_project
  /\ stdout (create_infrastructure sample_templates [] "queue" "kafka" go_project).2 =
       stdout go_project ++ [ adding_message "queue" "kafka";
                              unsupported_message "queue" "kafka" ].
Proof.
  split; [apply not_registered_queue_kafka|]. split; [by vm_compute|].
  apply (C3_unsupported_combination_writes_nothing sample_templates [] "queue" "kafka"
           go_project not_registered_queue_kafka).
  by vm_compute.
Defined.

(** The claim C2 as the specification words it: the process ends with
    status 1. *)
Definition ends_with_status_1 (T : templates) (a : argv) (w : world) : Prop :=
  exit_status (main T a w).1 = 1.

(** C2, counterexample: the resolver accepts the kafka queue, there is
    no generator for it, and the process ends with status 0. *)
Lemma C2_counterexample_queue_kafka :
  accepted "queue" "kafka"
  /\ (("queue", "kafka") ∉ registered)
  /\ exit_status (main sample_templates (argv_of "queue" "kafka") go_project).1 = 0
  /\ ~ ends_with_status_1 sample_templates (argv_of "queue" "kafka") go_project.
Proof.
  split; [apply accepted_queue_kafka|]. split; [apply not_registered_queue_kafka|].
  split; [by vm_compute|]. unfold ends_with_status_1. by vm_compute.
Qed.

Lemma C2_unsupported_combination_exit_status_witness :
  arg_type (argv_of "queue" "kafka") = Some "queue"
  /\ arg_provider (argv_of "queue" "kafka") = Some "kafka"
  /\ accepted "queue" "kafka"
  /\ (("queue", "kafka") ∉ registered)
  /\ is_dir go_project (Path ".") || is_file go_project (Path ".") = true
  /\ is_dir go_project (Path "." // "go.mod")
     || is_file go_project (Path "." // "go.mod") = true
  /\ mkdir_error go_project (infra_dir (Path ".") "queue") = None
  /\ exit_status (main sample_templates (argv_of "queue" "kafka") go_project).1 = 0
  /\ files (main sample_templates (argv_of "queue" "kafka") go_project).2 =
       files go_project
  /\ stdout (main sample_templates (argv_of "queue" "kafka") go_project).2 =
       stdout go_project ++ [ adding_message "queue" "kafka";
                              unsupported_message "queue" "kafka" ].
Proof.
  split; [reflexivity|]. split; [reflexivity|].
  split; [apply accepted_queue_kafka|]. split; [apply not_registered_queue_kafka|].
  split; [by vm_compute|]. split; [by vm_compute|]. split; [by vm_compute|].
  apply (C2_unsupported_combination_exit_status sample_templates
           (argv_of "queue" "kafka") "queue" "kafka" go_project
           eq_refl eq_refl accepted_queue_kafka not_registered_queue_kafka);
    by vm_compute.
Defined.

End AddInfrastructureProps.

(** ** The domain generator *)

Module GenerateDomainProps.
Import Sys SysProps PyProps GenerateDomain.

(** The fields of the scenario of the specification. *)
Definition scenario_fields : list Field :=
  parse_fields "name:string,age:int,active:bool".

Definition struct_line (go_name go_type json_name gorm : string) : string :=
  tab +:+ go_name +:+ " " +:+ go_type +:+ " " +:+ bq
  +:+ "json:" +:+ quoted json_name +:+ " gorm:" +:+ quoted gorm +:+ bq.

(** The two time stamps every entity ends with. *)
Definition timestamps : string :=
  struct_line "CreatedAt" "time.Time" "created_at" "autoCreateTime" +:+ nl
  +:+ struct_line "UpdatedAt" "time.Time" "updated_at" "autoUpdateTime" +:+ nl.

(** C8. The fields [name:string,age:int,active:bool] give three fields
    of the Go types string, int and bool with the JSON tags name, age and
    active, and the entity declares exactly these three between the
    identifier and the time stamps. *)
Theorem C8_entity_of_three_fields (domain_name module_path : string) :
  (fun f => (name f, field_type f, go_type f, json_tag f)) <$> scenario_fields =
    [ ("name", "string", "string", "name");
      ("age", "int", "int", "age");
      ("active", "bool", "bool", "active") ]
  /\ to_struct_field <$> scenario_fields =
       [ struct_line "Name" "string" "name" "type:varchar(255)";
         struct_line "Age" "int" "age" "type:bigint";
         struct_line "Active" "bool" "active" "type:boolean;default:false" ]
  /\ generate_entity domain_name scenario_fields module_path =
       "package entity" +:+ nl +:+ nl
       +:+ "type " +:+ capitalize domain_name +:+ " struct {" +:+ nl
       +:+ tab +:+ "ID        uint   " +:+ bq +:+ "json:" +:+ quoted "id"
           +:+ " gorm:" +:+ quoted "primaryKey" +:+ bq +:+ nl
       +:+ struct_line "Name" "string" "name" "type:varchar(255)" +:+ nl
       +:+ struct_line "Age" "int" "age" "type:bigint" +:+ nl
       +:+ struct_line "Active" "bool" "active" "type:boolean;default:false" +:+ nl
       +:+ timestamps
       +:+ "}" +:+ nl +:+ nl
       +:+ "func (e *" +:+ capitalize domain_name +:+ ") TableName() string {" +:+ nl
       +:+ tab +:+ "return " +:+ quoted (to_snake_case domain_name +:+ "s") +:+ nl
       +:+ "}" +:+ nl.
Proof.
  split; [reflexivity|]. split; [reflexivity|].
  reflexivity.
Qed.

Definition has_time_field (fields : list Field) : Prop :=
  exists f, f ∈ fields /\ field_type f = "time".

Lemma needs_time_spec fields :
  existsb (fun f => bool_decide (field_type f = "time")) fields = true
  <-> has_time_field fields.
Proof.
  rewrite existsb_exists. unfold has_time_field. split.
  - intros (f & Hin & Hf). exists f. split; [by apply list_elem_of_In|].
    by apply bool_decide_eq_true in Hf.
  - intros (f & Hin & Hf). exists f. split; [by apply list_elem_of_In|].
    by apply bool_decide_eq_true.
Qed.

(** C10. The entity always declares the two time stamps of type
    [time.Time], whatever the fields are, while its import block holds the
    import of [time] exactly when some field has the declared type
    [time]; the block stands between the package clause and the type. *)
Theorem C10_time_import_follows_fields
    (domain_name module_path : string) (fields : list Field) :
  Py.contains timestamps (generate_entity domain_name fields module_path) = true
  /\ (Py.contains (quoted "time") (entity_import_block fields) = true
      <-> has_time_field fields)
  /\ exists rest,
       generate_entity domain_name fields module_path =
         "package entity" +:+ nl +:+ nl +:+ entity_import_block fields
         +:+ "type " +:+ rest.
Proof.
  split; [|split].
  - unfold generate_entity.
    repeat first [ apply contains_prefix; reflexivity | apply contains_app_r ].
  - rewrite <- needs_time_spec. unfold entity_import_block, entity_imports.
    destruct (existsb _ fields), (existsb _ fields); by vm_compute.
  - eexists. reflexivity.
Qed.

Example entity_without_time_import :
  Py.contains (quoted "time")
    (generate_entity "user" scenario_fields "example.com/app") = false
  /\ Py.contains "CreatedAt time.Time"
       (generate_entity "user" scenario_fields "example.com/app") = true.
Proof. by vm_compute. Qed.

Definition argv_of (domain_name fields : string) : argv :=
  {| arg_domain_name := Some domain_name; arg_fields := Some fields;
     arg_project_path := None |}.

(** The directory of the entity is never made: whenever go.mod names the
    module and the entity file cannot be opened, the run ends with the
    error of the first write, after the three lines of the heading. *)
Lemma domain_generator_first_write (T : templates) a d text m e w :
  arg_domain_name a = Some d ->
  let project_path := Path (default "." (arg_project_path a)) in
  let domain_name := Py.lower d in
  let entity_path := project_path // "internal/domain/entity" // (domain_name +:+ ".go") in
  files w !! (project_path // "go.mod") = Some text ->
  (forall w', find_module_path (Py.file_lines text) w' = (Return m, w')) ->
  Py.nonempty m = true ->
  open_error w entity_path = Some e ->
  main T a w =
    (Raise e,
     emit (memo +:+ " Fields: "
           +:+ pretty (length (parse_fields (default EmptyString (arg_fields a)))) +:+ nl)
       (emit (package +:+ " Module path: " +:+ m)
          (emit (nl +:+ rocket +:+ " Generating domain: " +:+ domain_name) w))).
Proof.
  intros Hd project_path domain_name entity_path Hmod Hfind Hm Hopen.
  unfold main, parse_args. rewrite Hd, run_ret.
  cbn [domain_name_ fields_ project_path_]. fold project_path domain_name.
  rewrite run_exists.
  assert (is_file w (project_path // "go.mod") = true) as ->
    by (apply bool_decide_eq_true; rewrite Hmod; eauto).
  rewrite orb_true_r. unfold bind at 1. cbn [ret].
  rewrite (run_read _ text) by done.
  unfold bind at 1. rewrite Hfind, Hm.
  unfold bind at 1. cbn [ret].
  rewrite !run_print. fold entity_path.
  rewrite (run_write_error _ _ e) by done.
  done.
Qed.

(** C5, at the failing input.  In a Go project that has its go.mod but
    not the directory internal/domain/entity, the domain generator dies of
    a [FileNotFoundError] at its first write: no directory is made and no
    file is written. *)
Theorem C5_domain_generator_makes_no_directory (T : templates) :
  let res := main T (argv_of "user" "name:string") go_project in
  open_error go_project ["internal"; "domain"; "entity"; "user.go"] = Some FileNotFoundError
  /\ res.1 = Raise FileNotFoundError
  /\ exit_status res.1 = 1
  /\ dirs res.2 = dirs go_project
  /\ files res.2 = files go_project.
Proof. each_by_evaluation. Qed.

(** Stand-ins for the four other Go sources. *)
Definition sample_templates : templates :=
  {| generate_repository_interface := fun _ _ => "package repository";
     generate_repository_impl := fun _ _ => "package repository";
     generate_usecase := fun _ _ => "package usecase";
     generate_handler := fun _ _ => "package handler" |}.

(** The same project with the directories the project initialiser makes. *)
Definition initialised_project : world :=
  {| dirs := list_to_set
               (concat (prefixes <$>
                  [ ["internal"; "domain"; "entity"];
                    ["internal"; "domain"; "repository"];
                    ["internal"; "infrastructure"; "repository"];
                    ["internal"; "usecase"];
                    ["internal"; "handler"] ]));
     files := {[ ["go.mod"] := "module example.com/app" +:+ nl ]};
     stdout := [];
     stdin := [] |}.

Example domain_generator_in_initialised_project :
  let res := main sample_templates (argv_of "user" "name:string,age:int,active:bool")
               initialised_project in
  res.1 = Return tt
  /\ files res.2 !! ["internal"; "domain"; "entity"; "user.go"] =
       Some (generate_entity "user" scenario_fields "example.com/app")
  /\ dom (files res.2) =
       {[ ["go.mod"];
          ["internal"; "domain"; "entity"; "user.go"];
          ["internal"; "domain"; "repository"; "user_repository.go"];
          ["internal"; "infrastructure"; "repository"; "user_repository.go"];
          ["internal"; "usecase"; "user_usecase.go"];
          ["internal"; "handler"; "user_handler.go"] ]}.
Proof. each_by_evaluation. Qed.

End GenerateDomainProps.

(** ** The component generators *)

Module ComponentProps.
Import Sys SysProps PyProps.

Lemma dict_lookup_None {V} (d : list (string * V)) k :
  Py.dict_lookup d k = None <-> k ∉ Py.keys d.
Proof.
  unfold Py.keys. induction d as [|[k' v'] d IH]; simpl.
  - split; [intros _; apply not_elem_of_nil|done].
  - rewrite not_elem_of_cons. case_decide as E; [subst|]; [split; [done|tauto]|].
    rewrite IH. split; [by split|tauto].
Qed.

(** Stand-ins for the generators the development is parametric in. *)
Definition react_templates : ReactComponent.templates :=
  {| ReactComponent.generate_component_with_children := fun name => "children " +:+ name;
     ReactComponent.generate_component_with_state := fun name => "state " +:+ name;
     ReactComponent.generate_form_component := fun name => "form " +:+ name;
     ReactComponent.generate_card_component := fun name => "card " +:+ name;
     ReactComponent.generate_list_component := fun name => "list " +:+ name |}.

Definition monorepo_templates : MonorepoComponent.templates :=
  {| MonorepoComponent.generate_component_with_children := fun name => "children " +:+ name;
     MonorepoComponent.generate_component_with_state := fun name => "state " +:+ name;
     MonorepoComponent.generate_form_component := fun name => "form " +:+ name;
     MonorepoComponent.generate_card_component := fun name => "card " +:+ name;
     MonorepoComponent.generate_list_component := fun name => "list " +:+ name;
     MonorepoComponent.generate_modal_component := fun name => "modal " +:+ name |}.

(** A Node project in the current directory, and a monorepo with one
    frontend package. *)
Definition node_project : world :=
  {| dirs := ∅; files := {[ ["package.json"] := "{}" ]}; stdout := []; stdin := [] |}.

Definition frontend_monorepo : world :=
  {| dirs := list_to_set (prefixes ["packages"; "web"; "src"; "components"]);
     files := ∅; stdout := []; stdin := [] |}.

Definition react_argv (name component_type : string) : ReactComponent.argv :=
  {| ReactComponent.arg_name := Some name;
     ReactComponent.arg_project_path := None;
     ReactComponent.arg_type := Some component_type;
     ReactComponent.arg_dir := None |}.

Definition monorepo_argv (name component_type : string) : MonorepoComponent.argv :=
  {| MonorepoComponent.arg_name := Some name;
     MonorepoComponent.arg_type := Some component_type;
     MonorepoComponent.arg_directory := None;
     MonorepoComponent.arg_package := None;
     MonorepoComponent.arg_project_path := None |}.

(** *** The aggregator file *)

Definition monorepo_index : path :=
  ["packages"; "web"; "src"; "components"; "components"; "index.ts"].

Definition user_card_export : string :=
  "export { UserCard } from './UserCard'" +:+ nl.

(** C1, at the failing input.  The monorepo generator run twice for the
    same component in the same package: both runs succeed, the first
    creates the index file with the export line, the second appends the
    line again, so that the line occurs twice. *)
Theorem C1_monorepo_second_run_duplicates_export (T : MonorepoComponent.templates) :
  let run := MonorepoComponent.main T (monorepo_argv "user-card" "basic") in
  let w1 := (run frontend_monorepo).2 in
  let w2 := (run w1).2 in
  (run frontend_monorepo).1 = Return tt
  /\ (run w1).1 = Return tt
  /\ files w1 !! monorepo_index = Some user_card_export
  /\ files w2 !! monorepo_index = Some (user_card_export +:+ user_card_export)
  /\ Py.occurrences user_card_export (user_card_export +:+ user_card_export) = 2.
Proof. each_by_evaluation. Qed.

(** The React generator, for comparison, leaves the index file alone
    when the line is there: a second update after a successful one changes
    nothing. *)
Lemma react_update_index_idempotent
    project_path components_dir pascal_name w w1 :
  ReactComponent.update_index project_path components_dir pascal_name w = (Return tt, w1) ->
  ReactComponent.update_index project_path components_dir pascal_name w1 = (Return tt, w1).
Proof.
  unfold ReactComponent.update_index.
  set (index_file := components_dir // "index.ts").
  set (export_line := "export * from './" +:+ pascal_name +:+ "'" +:+ nl).
  assert (forall c s w', is_file (emit s (store index_file c w')) index_file = true) as Hfile.
  { intros c s w'. apply bool_decide_eq_true. simpl. rewrite lookup_insert_eq. eauto. }
  assert (forall c s w', files (emit s (store index_file c w')) !! index_file = Some c)
    as Hread by (intros; apply lookup_insert_eq).
  rewrite !run_exists.
  destruct (is_dir w index_file || is_file w index_file) eqn:Hfound.
  - unfold bind at 1, read_text at 1.
    destruct (files w !! index_file) as [content|] eqn:Hc;
      [|destruct (is_dir w index_file); discriminate].
    destruct (Py.contains export_line content) eqn:Hin; cbn [negb].
    + intros [= <-]. rewrite Hfound. by rewrite (run_read _ content), Hin.
    + unfold bind at 1, write_text at 1.
      destruct (open_error w index_file); [discriminate|].
      unfold bind at 1, ReactComponent.relative_str.
      destruct (relative_to index_file project_path); [|discriminate].
      cbn [ret print]. intros [= <-].
      rewrite Hfile, orb_true_r.
      rewrite (run_read _ _ _ _ (Hread _ _ _)).
      by rewrite contains_app_self.
  - unfold bind at 1, write_text at 1.
    destruct (open_error w index_file); [discriminate|].
    unfold bind at 1, ReactComponent.relative_str.
    destruct (relative_to index_file project_path); [|discriminate].
    cbn [ret print]. intros [= <-].
    rewrite Hfile, orb_true_r.
    rewrite (run_read _ _ _ _ (Hread _ _ _)).
    by rewrite (contains_prefix _ _ (startswith_refl _)).
Qed.

(** *** Types outside the catalog *)

(** The claim C4 as the specification words it, for a call of
    [create_component]: a type outside the catalog is not served, so the
    call does not succeed and no file is written. *)
Definition unknown_type_is_rejected (T : ReactComponent.templates)
    (project_path : path) (name component_type directory : string) (w : world) : Prop :=
  Py.dict_lookup (ReactComponent.generators T) component_type = None ->
  let res := ReactComponent.create_component T project_path name component_type directory w in
  res.1 <> Return true /\ files res.2 = files w.

(** C4, counterexample: the React catalog has no modal type; called
    with it, [create_component] succeeds and writes the component of the
    basic generator, without a word about the type. *)
Lemma C4_counterexample_react_modal :
  let res := ReactComponent.create_component react_templates [] "user-card" "modal"
               "components" node_project in
  Py.dict_lookup (ReactComponent.generators react_templates) "modal" = None
  /\ res.1 = Return true
  /\ files res.2 !! ["src"; "components"; "UserCard.tsx"] =
       Some (ReactComponent.generate_basic_component "user-card")
  /\ ~ unknown_type_is_rejected react_templates [] "user-card" "modal" "components"
         node_project.
Proof.
  cbv zeta. split; [reflexivity|]. split; [by_evaluation|]. split; [by_evaluation|].
  intros H. destruct (H eq_refl) as [Hres _]. apply Hres. by_evaluation.
Qed.

Definition unknown_message (component_type : string) : string :=
  MonorepoComponent.cross +:+ " Unknown component type: " +:+ component_type.

Definition available_message : string :=
  "Available types: basic, children, state, form, card, list, modal".

Definition generating_message (name component_type : string) : string :=
  nl +:+ MonorepoComponent.rocket +:+ " Generating " +:+ name +:+ " component ("
  +:+ component_type +:+ ")" +:+ nl.

(** C4, amended.  Every key of a component catalog has one generator.
    On the command line a type outside the catalog is refused by the
    argument parser: the process ends with status 2 and nothing is printed
    on standard output or written.  Called with such a type, the monorepo
    [create_component] reports it and returns false without touching the
    file system, while the React [create_component] does what it does for
    the basic type. *)
Theorem C4_unknown_component_type
    (TR : ReactComponent.templates) (TM : MonorepoComponent.templates)
    (tr tm : string) (ar : ReactComponent.argv) (am : MonorepoComponent.argv)
    (project_path : path) (name directory : string) (w : world) :
  Py.dict_lookup (ReactComponent.generators TR) tr = None ->
  Py.dict_lookup (MonorepoComponent.generators TM) tm = None ->
  ReactComponent.arg_type ar = Some tr ->
  MonorepoComponent.arg_type am = Some tm ->
  NoDup (Py.keys (ReactComponent.generators TR))
  /\ NoDup (Py.keys (MonorepoComponent.generators TM))
  /\ ReactComponent.main TR ar w = (Exit 2, w)
  /\ MonorepoComponent.main TM am w = (Exit 2, w)
  /\ MonorepoComponent.create_component TM project_path name tm directory w =
       (Return false,
        emit available_message
          (emit (unknown_message tm) (emit (generating_message name tm) w)))
  /\ ReactComponent.create_component TR project_path name tr directory w =
       ReactComponent.create_component TR project_path name "basic" directory w.
Proof.
  intros Hr Hm Har Ham.
  split; [by_evaluation|]. split; [by_evaluation|].
  split; [|split; [|split]].
  - unfold ReactComponent.main, ReactComponent.parse_args. rewrite Har. simpl.
    destruct (ReactComponent.arg_name ar); [|done].
    rewrite bool_decide_eq_false_2; [done|]. by apply dict_lookup_None in Hr.
  - unfold MonorepoComponent.main, MonorepoComponent.parse_args. rewrite Ham. simpl.
    destruct (MonorepoComponent.arg_name am); [|done].
    rewrite bool_decide_eq_false_2; [done|]. by apply dict_lookup_None in Hm.
  - unfold MonorepoComponent.create_component. rewrite run_print, Hm. done.
  - unfold ReactComponent.create_component, Py.dict_get. by rewrite Hr.
Qed.

Lemma C4_unknown_component_type_witness :
  Py.dict_lookup (ReactComponent.generators react_templates) "modal" = None
  /\ Py.dict_lookup (MonorepoComponent.generators monorepo_templates) "table" = None
  /\ ReactComponent.arg_type (react_argv "user-card" "modal") = Some "modal"
  /\ MonorepoComponent.arg_type (monorepo_argv "user-card" "table") = Some "table"
  /\ NoDup (Py.keys (ReactComponent.generators react_templates))
  /\ NoDup (Py.keys (MonorepoComponent.generators monorepo_templates))
  /\ ReactComponent.main react_templates (react_argv "user-card" "modal") node_project =
       (Exit 2, node_project)
  /\ MonorepoComponent.main monorepo_templates (monorepo_argv "user-card" "table")
       node_project = (Exit 2, node_project)
  /\ MonorepoComponent.create_component monorepo_templates [] "user-card" "table"
       "components" node_project =
       (Return false,
        emit available_message
          (emit (unknown_message "table")
             (emit (generating_message "user-card" "table") node_project)))
  /\ ReactComponent.create_component react_templates [] "user-card" "modal" "components"
       node_project =
     ReactComponent.create_component react_templates [] "user-card" "basic" "components"
       node_project.
Proof.
  split; [reflexivity|]. split; [reflexivity|].
  split; [reflexivity|]. split; [reflexivity|].
  apply (C4_unknown_component_type react_templates monorepo_templates "modal" "table"
           (react_argv "user-card" "modal") (monorepo_argv "user-card" "table")
           [] "user-card" "components" node_project);
    reflexivity.
Defined.

End ComponentProps.

(** ** More on Python strings *)

Module TextProps.
Import HelperFunctions.

(** Inside this module [simpl] computes an append whose left operand starts
    with a character. *)
#[local] Arguments String.append !_ _ : simpl nomatch.

Lemma string_app_assoc (a b c : string) : (a +:+ b) +:+ c = a +:+ b +:+ c.
Proof. induction a as [|x a IH]; simpl; [done|]. by rewrite IH. Qed.

Lemma string_app_empty_r (a : string) : a +:+ EmptyString = a.
Proof. induction a as [|x a IH]; simpl; [done|]. by rewrite IH. Qed.

Lemma string_length_app (a b : string) :
  String.length (a +:+ b) = String.length a + String.length b.
Proof. induction a as [|x a IH]; simpl; [done|]. by rewrite IH. Qed.

Lemma all_chars_app p a b : all_chars p (a +:+ b) = all_chars p a && all_chars p b.
Proof. induction a as [|x a IH]; simpl; [done|]. by rewrite IH, andb_assoc. Qed.

(** [needle in hay] says that [hay] is some text, the needle, some text. *)
Lemma startswith_spec x s : Py.startswith x s = true <-> exists post, s = x +:+ post.
Proof.
  revert s. induction x as [|c x IH]; intros s; simpl.
  - split; [by exists s|done].
  - destruct s as [|d s]; [split; [done|by intros [? ?]]|].
    case_decide as E.
    + subst. rewrite IH. split; intros [post H]; exists post; [by rewrite H|].
      by injection H.
    + split; [done|]. intros [post H]. by injection H.
Qed.

Lemma contains_spec x s :
  Py.contains x s = true <-> exists pre post, s = pre +:+ x +:+ post.
Proof.
  induction s as [|d s IH].
  - simpl. rewrite orb_false_r, startswith_spec. split.
    + intros [post H]. by exists EmptyString, post.
    + intros (pre & post & H). destruct pre; [by exists post|done].
  - cbn [Py.contains]. rewrite orb_true_iff, IH, startswith_spec. split.
    + intros [[post H]|(pre & post & H)].
      * by exists EmptyString, post.
      * exists (String d pre), post. simpl. by rewrite H.
    + intros (pre & post & H). destruct pre as [|e pre].
      * left. by exists post.
      * right. exists pre, post. simpl in H. by injection H.
Qed.

Lemma contains_trans a b c :
  Py.contains a b = true -> Py.contains b c = true -> Py.contains a c = true.
Proof.
  rewrite !contains_spec. intros (p1 & q1 & ->) (p2 & q2 & ->).
  exists (p2 +:+ p1), (q1 +:+ q2). by rewrite !string_app_assoc.
Qed.

Lemma contains_app_l x a b : Py.contains x a = true -> Py.contains x (a +:+ b) = true.
Proof.
  rewrite !contains_spec. intros (p & q & ->). exists p, (q +:+ b).
  by rewrite !string_app_assoc.
Qed.

(** A string without a given character. *)
Definition lacks (c : ascii) (s : string) : bool :=
  all_chars (fun x => negb (bool_decide (x = c))) s.

Lemma lacks_app c a b : lacks c (a +:+ b) = lacks c a && lacks c b.
Proof. apply all_chars_app. Qed.

Lemma lacks_not_contains c s :
  lacks c s = true <-> Py.contains (String c EmptyString) s = false.
Proof.
  induction s as [|d s IH]; [done|].
  cbn [Py.contains Py.startswith lacks all_chars]. fold (lacks c s).
  destruct (decide (c = d)) as [->|Hne].
  - rewrite bool_decide_eq_true_2 by done. simpl. split; done.
  - rewrite bool_decide_eq_false_2 by congruence. simpl. apply IH.
Qed.

(** The pieces of [split] have no separator, and [split] undoes [join]. *)
Lemma split_aux_lacks sep acc s :
  lacks sep acc = true -> Forall (fun p => lacks sep p = true) (Py.split_aux sep acc s).
Proof.
  revert acc. induction s as [|c s IH]; intros acc Hacc; simpl.
  - by constructor.
  - case_decide as E.
    + constructor; [done|]. by apply IH.
    + apply IH. rewrite lacks_app, Hacc. unfold lacks. simpl.
      by rewrite bool_decide_eq_false_2.
Qed.

Lemma split_lacks sep s : Forall (fun p => lacks sep p = true) (Py.split sep s).
Proof. by apply split_aux_lacks. Qed.

Lemma split_aux_piece sep acc p :
  lacks sep p = true -> Py.split_aux sep acc p = [acc +:+ p].
Proof.
  revert acc. induction p as [|c p IH]; intros acc Hp; simpl.
  - by rewrite string_app_empty_r.
  - simpl in Hp. apply andb_true_iff in Hp as [Hc Hp].
    apply negb_true_iff, bool_decide_eq_false in Hc.
    rewrite decide_False by done. rewrite IH by done. by rewrite string_app_assoc.
Qed.

Lemma split_aux_piece_sep sep acc p rest :
  lacks sep p = true ->
  Py.split_aux sep acc (p +:+ String sep rest) =
    (acc +:+ p) :: Py.split_aux sep EmptyString rest.
Proof.
  revert acc. induction p as [|c p IH]; intros acc Hp; simpl.
  - rewrite decide_True by done. by rewrite string_app_empty_r.
  - simpl in Hp. apply andb_true_iff in Hp as [Hc Hp].
    apply negb_true_iff, bool_decide_eq_false in Hc.
    rewrite decide_False by done. rewrite IH by done. by rewrite string_app_assoc.
Qed.

Lemma split_join sep (parts : list string) :
  parts <> [] ->
  Forall (fun p => lacks sep p = true) parts ->
  Py.split sep (Py.join (String sep EmptyString) parts) = parts.
Proof.
  unfold Py.split. induction parts as [|p parts IH]; [done|]. intros _ Hall.
  apply Forall_cons in Hall as [Hp Hall].
  destruct parts as [|q parts].
  - simpl. by rewrite split_aux_piece.
  - cbn [Py.join]. change (String sep EmptyString +:+ ?x) with (String sep x).
    rewrite split_aux_piece_sep by done. simpl. f_equal. by apply IH.
Qed.

Lemma elem_of_join_contains sep x (parts : list string) :
  x ∈ parts -> Py.contains x (Py.join sep parts) = true.
Proof.
  induction parts as [|p parts IH]; [by intros ?%elem_of_nil|].
  intros [->|Hin]%elem_of_cons.
  - destruct parts; [apply PyProps.contains_prefix, PyProps.startswith_refl|].
    cbn [Py.join]. apply PyProps.contains_prefix, PyProps.startswith_app.
  - destruct parts as [|q parts]; [by apply elem_of_nil in Hin|].
    cbn [Py.join]. by apply PyProps.contains_app_r, PyProps.contains_app_r, IH.
Qed.


Definition no_upper (s : string) : bool := all_chars (fun c => negb (Py.is_upper c)) s.


Lemma lower_fixed s : no_upper s = true -> Py.lower s = s.
Proof.
  induction s as [|c s IH]; [done|]. unfold no_upper. simpl.
  intros [Hc Hs]%andb_true_iff. rewrite IH by done.
  unfold Py.lower_char. apply negb_true_iff in Hc. by rewrite Hc.
Qed.

End TextProps.

(** ** Properties of the helpers *)

Module HelperFunctionsProps.
Import HelperFunctions TextProps.
#[local] Arguments String.append !_ _ : simpl nomatch.

(** Neither substitution of [to_snake_case] changes a text without
    upper-case letters. *)
Lemma sub_word_start_fixed in_run s :
  no_upper s = true -> sub_word_start in_run s = s.
Proof.
  revert in_run. induction s as [|c r IH]; intros in_run; [done|].
  unfold no_upper. cbn [all_chars]. intros [Hc Hr]%andb_true_iff.
  fold (no_upper r) in Hr. cbn [sub_word_start].
  destruct (in_run && Py.is_lower c); [by rewrite IH|].
  destruct r as [|u [|l r']]; [done|by rewrite IH|].
  unfold no_upper in Hr. cbn [all_chars] in Hr.
  apply andb_true_iff in Hr as [Hu Hr']. apply negb_true_iff in Hu.
  rewrite Hu, andb_false_r. cbn [andb]. rewrite IH; [done|].
  unfold no_upper. cbn [all_chars]. by rewrite Hu, Hr'.
Qed.

Lemma sub_lower_upper_fixed s : no_upper s = true -> sub_lower_upper s = s.
Proof.
  induction s as [|c r IH]; [done|].
  unfold no_upper. cbn [all_chars]. intros [Hc Hr]%andb_true_iff.
  fold (no_upper r) in Hr. cbn [sub_lower_upper].
  destruct r as [|u r']; [done|].
  assert (Py.is_upper u = false) as ->.
  { unfold no_upper in Hr. cbn [all_chars] in Hr.
    by apply andb_true_iff in Hr as [?%negb_true_iff _]. }
  rewrite andb_false_r. by rewrite IH.
Qed.


(** Words of lower-case letters *)
Definition all_lower (s : string) : bool := all_chars Py.is_lower s.

Lemma is_lower_facts c :
  Py.is_lower c = true ->
  Py.is_upper c = false /\ Py.code c <> 10 /\ Py.lower_char c = c.
Proof. destruct c as [[] [] [] [] [] [] [] []]; done. Qed.

Lemma is_upper_facts c :
  Py.is_upper c = true -> Py.is_lower c = false /\ is_digit c = false.
Proof. destruct c as [[] [] [] [] [] [] [] []]; done. Qed.

Lemma all_lower_no_upper s : all_lower s = true -> no_upper s = true.
Proof.
  induction s as [|c s IH]; [done|]. unfold all_lower, no_upper in *.
  cbn [all_chars]. intros [Hc Hs]%andb_true_iff.
  destruct (is_lower_facts c Hc) as (-> & _). by rewrite IH.
Qed.

Lemma sub_word_start_cons in_run c r :
  sub_word_start in_run (String c r) =
    if in_run && Py.is_lower c then String c (sub_word_start true r)
    else
      match r with
      | String u (String l r') =>
          if negb (bool_decide (Py.code c = 10)) && Py.is_upper u && Py.is_lower l
          then String c (String "_" (String u (String l (sub_word_start true r'))))
          else String c (sub_word_start false r)
      | _ => String c (sub_word_start false r)
      end.
Proof. by destruct r as [|u [|l r']]. Qed.

Lemma sub_lower_upper_cons c u r :
  sub_lower_upper (String c (String u r)) =
    if (Py.is_lower c || is_digit c) && Py.is_upper u
    then String c (String "_" (String u (sub_lower_upper r)))
    else String c (sub_lower_upper (String u r)).
Proof. done. Qed.

Lemma sub_word_start_camel a c b :
  all_lower a = true -> a <> EmptyString ->
  Py.is_upper c = true ->
  all_lower b = true -> b <> EmptyString ->
  sub_word_start false (a +:+ String c b) = a +:+ String "_" (String c b).
Proof.
  intros Ha Hne Hc Hb Hbne.
  destruct b as [|l b]; [done|]. clear Hbne.
  unfold all_lower in Hb. cbn [all_chars] in Hb. apply andb_true_iff in Hb as [Hl Hb].
  induction a as [|x a IH]; [done|]. clear Hne.
  unfold all_lower in Ha. cbn [all_chars] in Ha. apply andb_true_iff in Ha as [Hx Ha].
  destruct (is_lower_facts x Hx) as (_ & Hnl & _).
  destruct a as [|y a].
  - change (String x EmptyString +:+ String c (String l b))
      with (String x (String c (String l b))).
    cbn [sub_word_start andb]. rewrite Hc, Hl.
    rewrite (bool_decide_eq_false_2 _ Hnl). cbn [negb andb].
    by rewrite (sub_word_start_fixed true b (all_lower_no_upper b Hb)).
  - change (String x (String y a) +:+ String c (String l b))
      with (String x (String y (a +:+ String c (String l b)))).
    rewrite sub_word_start_cons. cbn [andb].
    pose proof Ha as Ha'. unfold all_lower in Ha'. cbn [all_chars] in Ha'.
    apply andb_true_iff in Ha' as [Hy _].
    destruct (is_lower_facts y Hy) as (Hyu & _ & _).
    destruct (a +:+ String c (String l b)) as [|z r] eqn:E.
    + by destruct a.
    + rewrite Hyu, andb_false_r. cbn [andb]. rewrite <- E.
      change (String y (a +:+ String c (String l b)))
        with (String y a +:+ String c (String l b)).
      by rewrite IH.
Qed.

Lemma sub_lower_upper_camel a c b :
  all_lower a = true ->
  Py.is_upper c = true ->
  all_lower b = true ->
  sub_lower_upper (a +:+ String "_" (String c b)) = a +:+ String "_" (String c b).
Proof.
  intros Ha Hc Hb. destruct (is_upper_facts c Hc) as (Hcl & Hcd).
  assert (sub_lower_upper (String "_" (String c b)) = String "_" (String c b)) as Htail.
  { rewrite sub_lower_upper_cons. change (Py.is_lower "_" || is_digit "_") with false.
    cbn [andb]. f_equal. destruct b as [|l b]; [done|].
    rewrite sub_lower_upper_cons, Hcl, Hcd. cbn [orb andb]. f_equal.
    apply sub_lower_upper_fixed, all_lower_no_upper. exact Hb. }
  induction a as [|x a IH]; [exact Htail|].
  unfold all_lower in Ha. cbn [all_chars] in Ha. apply andb_true_iff in Ha as [Hx Ha].
  change (String x a +:+ String "_" (String c b))
    with (String x (a +:+ String "_" (String c b))).
  destruct (a +:+ String "_" (String c b)) as [|u r] eqn:E; [by destruct a|].
  rewrite sub_lower_upper_cons.
  assert (Py.is_upper u = false) as ->.
  { destruct a as [|y a]; cbn in E; injection E as <- _; [done|].
    unfold all_lower in Ha. cbn [all_chars] in Ha.
    apply andb_true_iff in Ha as [Hy _]. by destruct (is_lower_facts y Hy). }
  rewrite andb_false_r. by rewrite (IH Ha).
Qed.

(** X30. A camel-case name of two words, lower-case letters, one
    upper-case letter, lower-case letters, becomes the two words in lower
    case with an underscore between them. *)
Theorem to_snake_case_of_camel_case (a b : string) (c : ascii) :
  all_lower a = true -> a <> EmptyString ->
  Py.is_upper c = true ->
  all_lower b = true -> b <> EmptyString ->
  to_snake_case (a +:+ String c b) = a +:+ "_" +:+ String (Py.lower_char c) b.
Proof.
  intros Ha Hne Hc Hb Hbne. unfold to_snake_case. cbn zeta.
  rewrite sub_word_start_camel, sub_lower_upper_camel by done.
  rewrite HelpersProps.lower_app.
  rewrite (lower_fixed a (all_lower_no_upper a Ha)).
  change (Py.lower (String "_" (String c b)))
    with (String "_" (String (Py.lower_char c) (Py.lower b))).
  by rewrite (lower_fixed b (all_lower_no_upper b Hb)).
Qed.

Lemma to_snake_case_of_camel_case_witness :
  to_snake_case "userName" = "user_name".
Proof. apply (to_snake_case_of_camel_case "user" "ame" "N"); done. Defined.

(** [title] puts no underscore where there was none. *)
Lemma title_from_lacks_underscore b s :
  lacks "_" s = true -> lacks "_" (title_from b s) = true.
Proof.
  revert b. induction s as [|c r IH]; intros b; [done|].
  unfold lacks. cbn [all_chars title_from].
  intros [Hc Hr]%andb_true_iff. apply andb_true_iff. split; [|by apply IH].
  revert Hc. clear. destruct b; by destruct c as [[] [] [] [] [] [] [] []].
Qed.

Lemma join_empty_lacks c (parts : list string) :
  Forall (fun p => lacks c p = true) parts -> lacks c (Py.join EmptyString parts) = true.
Proof.
  induction 1 as [|p parts Hp Hall IH]; [done|].
  destruct parts as [|q parts]; [done|].
  change (Py.join EmptyString (p :: q :: parts))
    with (p +:+ EmptyString +:+ Py.join EmptyString (q :: parts)).
  by rewrite !lacks_app, Hp, IH.
Qed.

(** X2. The results of [to_camel_case] and [to_pascal_case] hold no
    underscore. *)
Theorem camel_and_pascal_case_without_underscore (text : string) :
  Py.contains "_" (to_camel_case text) = false
  /\ Py.contains "_" (to_pascal_case text) = false.
Proof.
  pose proof (split_lacks "_" text) as Hall.
  assert (Forall (fun p => lacks "_" p = true) (title <$> Py.split "_" text)) as Htitle.
  { apply Forall_fmap. eapply Forall_impl; [exact Hall|].
    intros p Hp. by apply title_from_lacks_underscore. }
  split; apply lacks_not_contains.
  - unfold to_camel_case. destruct (Py.split "_" text) as [|first rest]; [done|].
    apply Forall_cons in Hall as [Hf _].
    rewrite fmap_cons in Htitle. apply Forall_cons in Htitle as [_ Hrest].
    rewrite lacks_app, Hf. by rewrite join_empty_lacks.
  - unfold to_pascal_case. by apply join_empty_lacks.
Qed.

(** Reversal *)
Lemma rev_app a b : rev (a +:+ b) = rev b +:+ rev a.
Proof.
  induction a as [|c a IH]; simpl; [by rewrite string_app_empty_r|].
  by rewrite IH, string_app_assoc.
Qed.

Lemma length_rev s : String.length (rev s) = String.length s.
Proof.
  induction s as [|c s IH]; [done|]. simpl. rewrite string_length_app, IH. simpl. lia.
Qed.

Lemma rev_involutive s : rev (rev s) = s.
Proof. induction s as [|c s IH]; [done|]. simpl. by rewrite rev_app, IH. Qed.

Lemma endswith_app suffix s : endswith suffix (s +:+ suffix) = true.
Proof. unfold endswith. rewrite rev_app. apply PyProps.startswith_app. Qed.

Lemma endswith_app2 suffix mid s : endswith suffix (s +:+ mid +:+ suffix) = true.
Proof. rewrite <- string_app_assoc. apply endswith_app. Qed.

Lemma length_drop_last s :
  s <> EmptyString -> S (String.length (drop_last s)) = String.length s.
Proof.
  intros Hs. unfold drop_last. rewrite <- (length_rev s).
  destruct (rev s) as [|c r] eqn:E.
  - apply (f_equal rev) in E. rewrite rev_involutive in E. done.
  - simpl. by rewrite length_rev.
Qed.

(** X3. The plural of a word that is not one of the eight irregular
    nouns ends with an s and is longer than the word. *)
Theorem pluralize_regular (word : string) :
  Py.dict_lookup special_cases (Py.lower word) = None ->
  endswith "s" (pluralize word) = true
  /\ String.length word < String.length (pluralize word).
Proof.
  intros H. unfold pluralize. rewrite H.
  destruct (endswith "y" word) eqn:Hy; cbn [andb].
  - destruct (1 <? String.length word) eqn:Hlen; cbn [andb].
    + destruct (negb _); [|destruct (existsb _ _)].
      * split; [exact (endswith_app2 "s" "ie" _)|].
        assert (word <> EmptyString) as Hne by (by intros ->).
        pose proof (length_drop_last word Hne).
        rewrite string_length_app. simpl. lia.
      * split; [exact (endswith_app2 "s" "e" _)|].
        rewrite string_length_app. simpl. lia.
      * split; [apply endswith_app|]. rewrite string_length_app. simpl. lia.
    + destruct (existsb _ _).
      * split; [exact (endswith_app2 "s" "e" _)|].
        rewrite string_length_app. simpl. lia.
      * split; [apply endswith_app|]. rewrite string_length_app. simpl. lia.
  - destruct (existsb _ _).
    + split; [exact (endswith_app2 "s" "e" _)|].
      rewrite string_length_app. simpl. lia.
    + split; [apply endswith_app|]. rewrite string_length_app. simpl. lia.
Qed.

Lemma pluralize_regular_witness :
  Py.dict_lookup special_cases (Py.lower "Category") = None
  /\ endswith "s" (pluralize "Category") = true
  /\ String.length "Category" < String.length (pluralize "Category").
Proof.
  split; [reflexivity|]. apply (pluralize_regular "Category"). reflexivity.
Defined.

(** X4. Every import handed to [generate_import_block] stands in the
    block between double quotes, whether the block is the single line of
    one import or the parenthesized list of several. *)
Theorem import_block_holds_every_import (imports : list string) (imp : string) :
  imp ∈ imports ->
  Py.contains (dq +:+ imp +:+ dq) (generate_import_block imports) = true.
Proof.
  intros Hin. unfold generate_import_block.
  destruct imports as [|a [|b rest]]; [by apply elem_of_nil in Hin| |].
  - apply list_elem_of_singleton in Hin as ->.
    apply contains_spec. exists "import ", (nl +:+ nl). by rewrite !string_app_assoc.
  - set (line := fun i : string => tab +:+ dq +:+ i +:+ dq).
    apply (contains_trans _ (line imp)).
    { apply PyProps.contains_app_r, PyProps.contains_prefix, PyProps.startswith_refl. }
    cbn zeta. do 2 apply PyProps.contains_app_r. apply contains_app_l.
    apply elem_of_join_contains. by apply (list_elem_of_fmap_2 line).
Qed.

Lemma import_block_holds_every_import_witness :
  ("time" ∈ ["fmt"; "time"])
  /\ Py.contains (dq +:+ "time" +:+ dq) (generate_import_block ["fmt"; "time"]) = true.
Proof.
  assert ("time" ∈ ["fmt"; "time"]) as H by (apply elem_of_cons; right; apply elem_of_cons; by left).
  split; [exact H|]. apply (import_block_holds_every_import ["fmt"; "time"] "time" H).
Defined.

Lemma tabs_lacks_newline n : lacks (ascii_of_nat 10) (tabs n) = true.
Proof.
  induction n as [|n IH]; [done|].
  change (tabs (S n)) with (tab +:+ tabs n). by rewrite lacks_app, IH.
Qed.

Lemma split_aux_nonempty sep acc s : Py.split_aux sep acc s <> [].
Proof.
  revert acc. induction s as [|c s IH]; intros acc; simpl; [done|].
  case_decide; [done|apply IH].
Qed.

(** X5. [format_go_comment] turns every line of the text into one line
    of comment: the lines of the result are the lines of the text, each
    behind the tabs of the indent and the comment mark. *)
Theorem format_go_comment_lines (text : string) (indent : nat) :
  Py.split (ascii_of_nat 10) (format_go_comment text indent) =
    (fun line => tabs indent +:+ "// " +:+ line) <$> Py.split (ascii_of_nat 10) text.
Proof.
  unfold format_go_comment. cbn zeta. apply split_join.
  - pose proof (split_aux_nonempty (ascii_of_nat 10) EmptyString text) as H.
    unfold Py.split. destruct (Py.split_aux _ _ text); done.
  - apply Forall_fmap. eapply Forall_impl; [apply split_lacks|].
    intros line Hline.
    change (lacks (ascii_of_nat 10) (tabs indent +:+ "// " +:+ line) = true).
    by rewrite !lacks_app, tabs_lacks_newline, Hline.
Qed.

End HelperFunctionsProps.

(** ** The imports of a mapped type *)

Module TypeMapperImports.
Import Helpers HelpersProps.

(** The imports a Go type needs, as [map_type] reads them off the type. *)
Definition imports_of (go_type : string) : list string :=
  if Py.contains "time.Time" go_type then ["time"]
  else if Py.contains "uuid.UUID" go_type then ["github.com/google/uuid"]
  else [].

Lemma imports_of_array g : imports_of ("[]" +:+ g) = imports_of g.
Proof. reflexivity. Qed.

Lemma imports_of_pointer g : imports_of ("*" +:+ g) = imports_of g.
Proof. reflexivity. Qed.

(** X6. Whatever the type string and however many array and pointer
    modifiers it starts with, the imports [map_type] gives are those of the
    Go type it gives: the time package when the type names time.Time, the
    uuid package when it names uuid.UUID, nothing otherwise. *)
Theorem map_type_imports_match (type_str : string) :
  (map_type type_str).2 = imports_of (map_type type_str).1.
Proof.
  remember (String.length type_str) as n eqn:Hn.
  revert type_str Hn. induction n as [n IH] using lt_wf_ind. intros type_str ->.
  rewrite (map_type_unfold type_str). cbn zeta.
  pose proof (length_normalise type_str) as Hlen.
  destruct (Py.startswith "[]" (normalise type_str)) eqn:Ha.
  - cbn [fst snd]. rewrite imports_of_array.
    pose proof (length_slice_from "[]" _ Ha) as Hs. cbn [String.length] in Hs.
    apply (IH (String.length (Py.slice_from 2 (normalise type_str)))); [lia|reflexivity].
  - destruct (Py.startswith "*" (normalise type_str)) eqn:Hp.
    + cbn [fst snd]. rewrite imports_of_pointer.
      pose proof (length_slice_from "*" _ Hp) as Hs. cbn [String.length] in Hs.
      apply (IH (String.length (Py.slice_from 1 (normalise type_str)))); [lia|reflexivity].
    + reflexivity.
Qed.

End TypeMapperImports.

(** ** More on the domain generator *)

Module GenerateDomainMore.
Import Sys SysProps PyProps HelperFunctions TextProps GenerateDomain.
#[local] Arguments String.append !_ _ : simpl nomatch.

(** Stripping *)
Lemma lstrip_idemp s : Py.lstrip (Py.lstrip s) = Py.lstrip s.
Proof.
  induction s as [|c s IH]; [done|]. simpl.
  destruct (Py.is_space c) eqn:E; [done|]. simpl. by rewrite E.
Qed.

Lemma rstrip_lstrip s : Py.rstrip (Py.lstrip s) = Py.lstrip (Py.rstrip s).
Proof.
  induction s as [|c s IH]; [done|].
  destruct (Py.is_space c) eqn:E.
  - cbn [Py.lstrip Py.rstrip]. rewrite E, IH.
    destruct (Py.rstrip s) as [|d r]; [done|]. cbn [Py.lstrip]. by rewrite E.
  - rewrite (HelpersProps.rstrip_cons_nonspace c s E).
    cbn [Py.lstrip]. rewrite E. by apply HelpersProps.rstrip_cons_nonspace.
Qed.

Lemma strip_fixed s : Py.strip s = s -> Py.lstrip s = s /\ Py.rstrip s = s.
Proof.
  unfold Py.strip. intros H. split.
  - rewrite <- H at 1. by rewrite lstrip_idemp.
  - rewrite <- H at 1. by rewrite rstrip_lstrip, HelpersProps.rstrip_idemp.
Qed.

Lemma lstrip_fixed_head c s : Py.lstrip (String c s) = String c s -> Py.is_space c = false.
Proof.
  cbn [Py.lstrip]. destruct (Py.is_space c); [|done]. intros H.
  pose proof (Helpers.length_lstrip s) as Hl. rewrite H in Hl. simpl in Hl. lia.
Qed.

Lemma rstrip_app_tail a b :
  Py.rstrip b <> EmptyString -> Py.rstrip (a +:+ b) = a +:+ Py.rstrip b.
Proof.
  intros Hb. induction a as [|c a IH]; [done|].
  simpl. rewrite IH. destruct (a +:+ Py.rstrip b) eqn:E; [|done].
  destruct a; simpl in E; done.
Qed.

Lemma lstrip_preserves_lacks c s : lacks c s = true -> lacks c (Py.lstrip s) = true.
Proof.
  induction s as [|d s IH]; [done|]. unfold lacks in *. cbn [all_chars Py.lstrip].
  intros [Hd Hs]%andb_true_iff. destruct (Py.is_space d); [by apply IH|].
  cbn [all_chars]. by rewrite Hd, Hs.
Qed.

Lemma rstrip_preserves_lacks c s : lacks c s = true -> lacks c (Py.rstrip s) = true.
Proof.
  induction s as [|d s IH]; [done|]. unfold lacks in *. cbn [all_chars Py.rstrip].
  intros [Hd Hs]%andb_true_iff. specialize (IH Hs).
  destruct (Py.rstrip s) as [|e r].
  - destruct (Py.is_space d); [done|]. cbn [all_chars]. by rewrite Hd.
  - cbn [all_chars] in *. by rewrite Hd, IH.
Qed.

(** The pieces of [split] keep out every character the text keeps out. *)
Lemma split_aux_lacks_other sep c acc s :
  lacks c acc = true -> lacks c s = true ->
  Forall (fun p => lacks c p = true) (Py.split_aux sep acc s).
Proof.
  revert acc. induction s as [|d s IH]; intros acc Hacc Hs; simpl.
  - by constructor.
  - unfold lacks in Hs. cbn [all_chars] in Hs. apply andb_true_iff in Hs as [Hd Hs].
    destruct (decide (d = sep)) as [_|_].
    + constructor; [done|]. by apply IH.
    + apply IH; [|done]. rewrite lacks_app, Hacc. unfold lacks. cbn [all_chars].
      by rewrite Hd.
Qed.

Lemma split_once_lacks c s : lacks c s = true -> Py.split_once c s = None.
Proof.
  induction s as [|d s IH]; [done|]. unfold lacks. cbn [all_chars Py.split_once].
  intros [Hd Hs]%andb_true_iff. apply negb_true_iff, bool_decide_eq_false in Hd.
  rewrite decide_False by done. fold (lacks c s) in Hs. by rewrite IH.
Qed.

Lemma split_once_app c n t :
  lacks c n = true -> Py.split_once c (n +:+ String c t) = Some (n, t).
Proof.
  induction n as [|d n IH]; simpl.
  - by rewrite decide_True.
  - unfold lacks. cbn [all_chars]. intros [Hd Hs]%andb_true_iff.
    apply negb_true_iff, bool_decide_eq_false in Hd.
    rewrite decide_False by done. fold (lacks c n) in Hs. by rewrite IH.
Qed.

(** The token of a field in the fields string. *)
Definition field_token (spec : string * string) : string := spec.1 +:+ ":" +:+ spec.2.

(** A name and a type as [parse_fields] can give them back: no comma, no
    colon in the name, nothing to strip. *)
Definition plain_spec (spec : string * string) : Prop :=
  lacks "," spec.1 = true /\ lacks ":" spec.1 = true /\ lacks "," spec.2 = true
  /\ Py.strip spec.1 = spec.1 /\ Py.strip spec.2 = spec.2.

Lemma strip_field_token n t :
  Py.strip n = n -> Py.strip t = t -> Py.strip (n +:+ ":" +:+ t) = n +:+ ":" +:+ t.
Proof.
  intros [Hln Hrn]%strip_fixed [Hlt Hrt]%strip_fixed. unfold Py.strip.
  assert (Py.rstrip (":" +:+ t) = ":" +:+ t) as Hr.
  { change (":" +:+ t) with (String ":" t).
    rewrite HelpersProps.rstrip_cons_nonspace by done. by rewrite Hrt. }
  rewrite rstrip_app_tail by (by rewrite Hr). rewrite Hr.
  destruct n as [|c n]; [done|].
  apply lstrip_fixed_head in Hln. simpl. by rewrite Hln.
Qed.

Lemma parse_field_def_token n t :
  lacks ":" n = true -> Py.strip n = n -> Py.strip t = t ->
  parse_field_def (field_token (n, t)) = [new_Field n t].
Proof.
  intros Hc Hn Ht. unfold parse_field_def, field_token. cbn [fst snd].
  rewrite strip_field_token by done.
  change (":" +:+ t) with (String ":" t). rewrite split_once_app by done.
  by rewrite Hn, Ht.
Qed.

(** X7. [parse_fields] reads back what was written: the tokens of names
    and types joined with commas give the fields of these names and types,
    in order. *)
Theorem parse_fields_of_tokens (specs : list (string * string)) :
  Forall plain_spec specs ->
  parse_fields (Py.join "," (field_token <$> specs)) =
    (fun spec => new_Field spec.1 spec.2) <$> specs.
Proof.
  intros Hall. destruct specs as [|spec0 rest]; [done|].
  set (specs := spec0 :: rest) in *.
  unfold parse_fields.
  assert (Py.nonempty (Py.join "," (field_token <$> specs)) = true) as ->.
  { subst specs. destruct spec0 as [n t]. rewrite fmap_cons.
    unfold field_token at 1. cbn [fst snd].
    destruct (field_token <$> rest); destruct n; done. }
  rewrite (split_join ","%char).
  - clearbody specs. induction Hall as [|[n t] l (Hc1 & Hc2 & Hc3 & Hs1 & Hs2) Hall IH];
      [done|].
    rewrite !fmap_cons. cbn [concat fst snd].
    rewrite parse_field_def_token by done. by rewrite IH.
  - done.
  - apply Forall_fmap. eapply Forall_impl; [exact Hall|].
    intros [n t] (Hc1 & Hc2 & Hc3 & Hs1 & Hs2). cbn [fst snd] in *.
    change (lacks "," (n +:+ ":" +:+ t) = true).
    by rewrite !lacks_app, Hc1, Hc3.
Qed.

Lemma parse_fields_of_tokens_witness :
  Forall plain_spec [("name", "string"); ("createdAt", "time")]
  /\ parse_fields (Py.join "," (field_token <$> [("name", "string"); ("createdAt", "time")])) =
       (fun spec => new_Field spec.1 spec.2) <$> [("name", "string"); ("createdAt", "time")].
Proof.
  assert (Forall plain_spec [("name", "string"); ("createdAt", "time")]) as H
    by (repeat constructor).
  split; [exact H|]. apply (parse_fields_of_tokens _ H).
Defined.

(** X8. A fields string without colon gives no field at all, whatever
    it holds. *)
Theorem parse_fields_without_colon (fields_str : string) :
  Py.contains ":" fields_str = false -> parse_fields fields_str = [].
Proof.
  intros H%lacks_not_contains. unfold parse_fields.
  destruct (Py.nonempty fields_str); [|done].
  pose proof (split_aux_lacks_other ","%char ":"%char EmptyString fields_str eq_refl H)
    as Hall.
  fold (Py.split "," fields_str) in Hall.
  induction Hall as [|p l Hp Hall IH]; [done|].
  rewrite fmap_cons. cbn [concat]. rewrite IH, app_nil_r.
  unfold parse_field_def.
  by rewrite split_once_lacks
    by (by apply lstrip_preserves_lacks, rstrip_preserves_lacks).
Qed.

Lemma parse_fields_without_colon_witness :
  Py.contains ":" "name string, age" = false /\ parse_fields "name string, age" = [].
Proof. split; [reflexivity|]. apply (parse_fields_without_colon "name string, age"). reflexivity. Defined.




(** X10. The table of Go types is read with the lower-cased type, the
    table of tags and the import test with the type as written: a type
    written with an upper-case letter gets the Go type of its lower-case
    spelling, an empty tag, and no import. *)
Theorem field_type_case_matters (name t : string) :
  t <> Py.lower t ->
  go_type (new_Field name t) = go_type (new_Field name (Py.lower t))
  /\ gorm_tag (new_Field name t) = EmptyString
  /\ entity_import_block [new_Field name t] = EmptyString.
Proof.
  intros Ht. cbn [go_type gorm_tag new_Field]. unfold _map_type.
  rewrite HelpersProps.lower_idemp. split; [done|].
  assert (forall k : string, Py.lower k = k -> t <> k) as Hk
    by (intros k Hk ->; by rewrite Hk in Ht).
  split.
  - unfold _generate_gorm_tag.
    rewrite !decide_False by (by apply Hk).
    rewrite bool_decide_eq_false_2; [done|].
    rewrite !elem_of_cons, elem_of_nil. intros [E|[E|[]]]; by apply (Hk _ eq_refl) in E.
  - unfold entity_import_block, entity_imports. cbn [existsb field_type new_Field].
    by rewrite !bool_decide_eq_false_2 by (by apply Hk).
Qed.

Lemma field_type_case_matters_witness :
  "UUID" <> Py.lower "UUID"
  /\ go_type (new_Field "id" "UUID") = "uuid.UUID"
  /\ gorm_tag (new_Field "id" "UUID") = EmptyString
  /\ entity_import_block [new_Field "id" "UUID"] = EmptyString.
Proof.
  assert ("UUID" <> Py.lower "UUID") as H by done.
  split; [exact H|]. apply (field_type_case_matters "id" "UUID" H).
Defined.

End GenerateDomainMore.

(** ** What a generated entity holds *)

Module EntityContents.
Import HelperFunctions TextProps PyProps GenerateDomain GenerateDomainMore.
#[local] Arguments String.append !_ _ : simpl nomatch.

(** X28. The entity source holds the struct line of every field, and its
    table name is the snake case of the domain name followed by an s,
    whatever the last letters of the name: the plural is not formed by
    [pluralize]. *)
Theorem entity_holds_fields_and_table_name
    (domain_name : string) (fields : list Field) (module_path : string) :
  (forall f, f ∈ fields ->
     Py.contains (to_struct_field f) (generate_entity domain_name fields module_path) = true)
  /\ Py.contains ("return " +:+ quoted (to_snake_case domain_name +:+ "s"))
       (generate_entity domain_name fields module_path) = true.
Proof.
  unfold generate_entity. cbn zeta. split.
  - intros f Hf.
    repeat match goal with
           | |- Py.contains _ (?a +:+ _) = true =>
               lazymatch a with
               | Py.join _ _ => fail
               | _ => apply contains_app_r
               end
           end.
    apply contains_app_l, elem_of_join_contains.
    by apply (list_elem_of_fmap_2 to_struct_field).
  - repeat match goal with
           | |- Py.contains _ (?a +:+ _) = true =>
               lazymatch a with
               | "return " => fail
               | _ => apply contains_app_r
               end
           end.
    apply contains_prefix, startswith_spec. eexists.
    by rewrite string_app_assoc.
Qed.

End EntityContents.

(** ** Runs of the domain generator *)

Module DomainGeneratorRuns.
Import Sys SysProps HelperFunctions TextProps GenerateDomain.
#[local] Arguments String.append !_ _ : simpl nomatch.

(** The search of the module line is a function of the lines: it leaves
    the world alone. *)
Lemma find_module_path_pure lines :
  exists o, forall w, find_module_path lines w = (o, w).
Proof.
  induction lines as [|line rest IH]; cbn [find_module_path];
    [by exists (Return EmptyString)|].
  destruct (Py.startswith "module " line); [|exact IH].
  destruct (Py.split_ws line !! 1) as [word|];
    [by exists (Return (Py.strip word))|by exists (Raise IndexError)].
Qed.

Lemma find_module_path_at lines w m :
  (find_module_path lines w).1 = Return m ->
  forall w', find_module_path lines w' = (Return m, w').
Proof.
  destruct (find_module_path_pure lines) as [o Ho]. rewrite Ho. simpl.
  intros -> w'. apply Ho.
Qed.

Lemma find_module_path_no_module_line lines w :
  Forall (fun line => Py.startswith "module " line = false) lines ->
  find_module_path lines w = (Return EmptyString, w).
Proof.
  induction 1 as [|line rest Hl _ IH]; cbn [find_module_path]; [done|]. by rewrite Hl.
Qed.

(** X11. Without go.mod in the project directory the domain generator
    prints one line and ends with status 1; nothing is written. *)
Theorem domain_generator_requires_go_mod (T : templates) a d w :
  arg_domain_name a = Some d ->
  let go_mod_path := Path (default "." (arg_project_path a)) // "go.mod" in
  is_dir w go_mod_path = false ->
  is_file w go_mod_path = false ->
  main T a w =
    (Exit 1, emit "Error: go.mod not found. Make sure you're in the project root." w).
Proof.
  intros Hd go_mod_path Hdir Hfile.
  unfold main, parse_args. rewrite Hd, run_ret.
  cbn [domain_name_ fields_ project_path_]. fold go_mod_path.
  rewrite run_exists, Hdir, Hfile. done.
Qed.

(** X12. With a go.mod none of whose lines starts with the word module and
    a blank, the domain generator prints one line and ends with status 1;
    nothing is written. *)
Theorem domain_generator_requires_module_line (T : templates) a d text w :
  arg_domain_name a = Some d ->
  let go_mod_path := Path (default "." (arg_project_path a)) // "go.mod" in
  files w !! go_mod_path = Some text ->
  Forall (fun line => Py.startswith "module " line = false) (Py.file_lines text) ->
  main T a w =
    (Exit 1, emit "Error: Could not determine module path from go.mod" w).
Proof.
  intros Hd go_mod_path Hmod Hlines.
  unfold main, parse_args. rewrite Hd, run_ret.
  cbn [domain_name_ fields_ project_path_]. fold go_mod_path.
  rewrite run_exists.
  assert (is_file w go_mod_path = true) as ->
    by (apply bool_decide_eq_true; rewrite Hmod; eauto).
  rewrite orb_true_r. unfold bind at 1. cbn [ret].
  rewrite (run_read _ text) by done.
  unfold bind at 1. rewrite (find_module_path_no_module_line _ _ Hlines). done.
Qed.

(** The first line that starts with the word module decides. *)
Lemma find_module_path_first pre line post w :
  Forall (fun l => Py.startswith "module " l = false) pre ->
  Py.startswith "module " line = true ->
  find_module_path (pre ++ line :: post) w =
    match Py.split_ws line !! 1 with
    | Some word => (Return (Py.strip word), w)
    | None => (Raise IndexError, w)
    end.
Proof.
  intros Hpre Hline. induction Hpre as [|l pre Hl _ IH]; cbn [app find_module_path].
  - rewrite Hline. by destruct (Py.split_ws line !! 1).
  - by rewrite Hl.
Qed.

(** X29. A go.mod whose first line starting with the word module
    holds no second word kills the domain generator with an uncaught
    [IndexError], before anything is printed or written; the lines after
    it are not read. *)
Theorem domain_generator_module_line_without_name
    (T : templates) a d text pre line post w :
  arg_domain_name a = Some d ->
  let go_mod_path := Path (default "." (arg_project_path a)) // "go.mod" in
  files w !! go_mod_path = Some text ->
  Py.file_lines text = pre ++ line :: post ->
  Forall (fun l => Py.startswith "module " l = false) pre ->
  Py.startswith "module " line = true ->
  length (Py.split_ws line) = 1 ->
  main T a w = (Raise IndexError, w) /\ exit_status (main T a w).1 = 1.
Proof.
  intros Hd go_mod_path Hmod Hlines Hpre Hline Hone.
  assert (main T a w = (Raise IndexError, w)) as H; [|by rewrite H].
  unfold main, parse_args. rewrite Hd, run_ret.
  cbn [domain_name_ fields_ project_path_]. fold go_mod_path.
  rewrite run_exists.
  assert (is_file w go_mod_path = true) as ->
    by (apply bool_decide_eq_true; rewrite Hmod; eauto).
  rewrite orb_true_r. unfold bind at 1. cbn [ret].
  rewrite (run_read _ text) by done.
  unfold bind at 1. rewrite Hlines, (find_module_path_first _ _ _ _ Hpre Hline).
  by rewrite lookup_ge_None_2 by lia.
Qed.

(** File names *)
Lemma lower_char_slash c : Py.lower_char c = "/"%char -> c = "/"%char.
Proof. destruct c as [[] [] [] [] [] [] [] []]; done. Qed.

Lemma lower_lacks_slash s : lacks "/" s = true -> lacks "/" (Py.lower s) = true.
Proof.
  induction s as [|c s IH]; [done|]. unfold lacks in *. cbn [all_chars Py.lower].
  intros [Hc Hs]%andb_true_iff. rewrite IH by done. rewrite andb_true_r.
  apply negb_true_iff, bool_decide_eq_false in Hc.
  apply negb_true_iff, bool_decide_eq_false. intros E. by apply Hc, lower_char_slash.
Qed.

(** A name without slash followed by a suffix such as [.go] is one part
    of a path. *)
Lemma join_file_name (p : path) (n suffix : string) :
  lacks "/" n = true -> lacks "/" suffix = true -> 2 <= String.length suffix ->
  p // (n +:+ suffix) = p ++ [n +:+ suffix] /\ n +:+ suffix <> "/".
Proof.
  intros Hn Hs Hlen.
  assert (lacks "/" (n +:+ suffix) = true) as Hl by (by rewrite lacks_app, Hn, Hs).
  assert (2 <= String.length (n +:+ suffix)) as Hlen'
    by (rewrite string_length_app; lia).
  destruct (n +:+ suffix) as [|c r] eqn:E; [simpl in Hlen'; lia|].
  assert (c <> "/"%char) as Hc.
  { unfold lacks in Hl. cbn [all_chars] in Hl. apply andb_true_iff in Hl as [Hl _].
    by apply negb_true_iff, bool_decide_eq_false in Hl. }
  split; [|by intros [= -> _]].
  apply join_plain.
  - cbn [Py.startswith]. by destruct (decide ("/"%char = c)) as [<-|].
  - unfold parts_of, Py.split. rewrite split_aux_piece by done.
    change (EmptyString +:+ String c r) with (String c r).
    rewrite filter_cons_True; [done|]. split; [done|].
    intros [= -> ->]. simpl in Hlen'. lia.
Qed.

(** Opening a file in a directory that is there. *)
Lemma open_error_in_dir w (dir : path) (x : string) :
  x <> "/" -> is_dir w dir = true -> is_file w dir = false ->
  is_dir w (dir ++ [x]) = false -> open_error w (dir ++ [x]) = None.
Proof.
  intros Hx Hd Hf Hp. unfold open_error. rewrite parent_snoc by done.
  by rewrite Hp, Hf, Hd.
Qed.

Lemma is_file_store_other q s w p :
  length q <> length p -> is_file (store q s w) p = is_file w p.
Proof. intros H. apply is_file_store_ne. by intros ->. Qed.

(** The five directories the domain generator writes into, and what it
    needs of them: each is a directory, and the file to write is not one. *)
Definition layers : list (list string) :=
  [ ["internal"; "domain"; "entity"];
    ["internal"; "domain"; "repository"];
    ["internal"; "infrastructure"; "repository"];
    ["internal"; "usecase"];
    ["internal"; "handler"] ].

Definition file_suffixes : list string :=
  [ ".go"; "_repository.go"; "_repository.go"; "_usecase.go"; "_handler.go" ].

Definition targets (project_path : path) (domain_name : string) : list path :=
  zip_with (fun layer suffix => project_path ++ layer ++ [domain_name +:+ suffix])
    layers file_suffixes.

Definition layers_ready (w : world) (project_path : path) (domain_name : string) : Prop :=
  Forall (fun layer => is_dir w (project_path ++ layer) = true
                       /\ is_file w (project_path ++ layer) = false) layers
  /\ Forall (fun p => is_dir w p = false) (targets project_path domain_name).

(** X13. In a project that has go.mod with its module line and the five
    directories of the layers, the domain generator runs to its end and
    leaves the five Go files of the domain, each in its directory; no other
    file changes and no directory is made. *)
Theorem domain_generator_writes_five_files (T : templates) a d text m w :
  arg_domain_name a = Some d ->
  Py.contains "/" d = false ->
  let project_path := Path (default "." (arg_project_path a)) in
  let n := Py.lower d in
  let fields := parse_fields (default EmptyString (arg_fields a)) in
  files w !! (project_path // "go.mod") = Some text ->
  (find_module_path (Py.file_lines text) w).1 = Return m ->
  Py.nonempty m = true ->
  layers_ready w project_path n ->
  let res := main T a w in
  res.1 = Return tt
  /\ dirs res.2 = dirs w
  /\ files res.2 =
       <[project_path ++ ["internal"; "handler"] ++ [n +:+ "_handler.go"]
           := generate_handler T n m]>
      (<[project_path ++ ["internal"; "usecase"] ++ [n +:+ "_usecase.go"]
           := generate_usecase T n m]>
      (<[project_path ++ ["internal"; "infrastructure"; "repository"]
                      ++ [n +:+ "_repository.go"]
           := generate_repository_impl T n m]>
      (<[project_path ++ ["internal"; "domain"; "repository"] ++ [n +:+ "_repository.go"]
           := generate_repository_interface T n m]>
      (<[project_path ++ ["internal"; "domain"; "entity"] ++ [n +:+ ".go"]
           := generate_entity n fields m]> (files w))))).
Proof.
  intros Hd Hslash project_path n fields Hmod Hfind Hm [Hlayers Htargets] res.
  subst res.
  apply lacks_not_contains, lower_lacks_slash in Hslash. fold n in Hslash.
  unfold layers in Hlayers.
  unfold targets, layers, file_suffixes in Htargets. cbn [zip_with] in Htargets.
  repeat match goal with H : Forall _ (_ :: _) |- _ =>
    apply Forall_cons in H as [? H] end.
  repeat match goal with H : _ /\ _ |- _ => destruct H end.
  cut (exists w', main T a w = (Return tt, w') /\ dirs w' = dirs w /\ files w' =
       <[project_path ++ ["internal"; "handler"] ++ [n +:+ "_handler.go"]
           := generate_handler T n m]>
      (<[project_path ++ ["internal"; "usecase"] ++ [n +:+ "_usecase.go"]
           := generate_usecase T n m]>
      (<[project_path ++ ["internal"; "infrastructure"; "repository"]
                      ++ [n +:+ "_repository.go"]
           := generate_repository_impl T n m]>
      (<[project_path ++ ["internal"; "domain"; "repository"] ++ [n +:+ "_repository.go"]
           := generate_repository_interface T n m]>
      (<[project_path ++ ["internal"; "domain"; "entity"] ++ [n +:+ ".go"]
           := generate_entity n fields m]> (files w)))))).
  { by intros (w' & -> & ? & ?). }
  eexists. split.
  - unfold main, parse_args. rewrite Hd, run_ret.
    cbn [domain_name_ fields_ project_path_]. fold project_path n fields.
    rewrite run_exists.
    assert (is_file w (project_path // "go.mod") = true) as ->
      by (apply bool_decide_eq_true; rewrite Hmod; eauto).
    rewrite orb_true_r. unfold bind at 1. cbn [ret].
    rewrite (run_read _ text) by done.
    unfold bind at 1. rewrite (find_module_path_at _ _ _ Hfind), Hm.
    unfold bind at 1. cbn [ret].
    change (project_path // "internal/domain/entity")
      with (project_path ++ ["internal"; "domain"; "entity"]).
    change (project_path // "internal/domain/repository")
      with (project_path ++ ["internal"; "domain"; "repository"]).
    change (project_path // "internal/infrastructure/repository")
      with (project_path ++ ["internal"; "infrastructure"; "repository"]).
    change (project_path // "internal/usecase") with (project_path ++ ["internal"; "usecase"]).
    change (project_path // "internal/handler") with (project_path ++ ["internal"; "handler"]).
    destruct (join_file_name (project_path ++ ["internal"; "domain"; "entity"])
                n ".go" Hslash eq_refl) as [-> ?]; [simpl; lia|].
    destruct (join_file_name (project_path ++ ["internal"; "domain"; "repository"])
                n "_repository.go" Hslash eq_refl) as [-> ?]; [simpl; lia|].
    destruct (join_file_name (project_path ++ ["internal"; "infrastructure"; "repository"])
                n "_repository.go" Hslash eq_refl) as [-> ?]; [simpl; lia|].
    destruct (join_file_name (project_path ++ ["internal"; "usecase"])
                n "_usecase.go" Hslash eq_refl) as [-> ?]; [simpl; lia|].
    destruct (join_file_name (project_path ++ ["internal"; "handler"])
                n "_handler.go" Hslash eq_refl) as [-> ?]; [simpl; lia|].
repeat (rewrite run_print ||
      (rewrite run_write;
       [|apply open_error_in_dir; [done|..];
         repeat (rewrite is_dir_emit || rewrite is_dir_store || rewrite is_file_emit
                 || rewrite is_file_store_other by (rewrite !length_app; simpl; lia));
         try rewrite <- (assoc_L (++) project_path); done])).
    reflexivity.
  - split; [done|]. cbn [files emit store].
    by rewrite <- !(assoc_L (++) project_path).
Qed.

(** Three projects to run the generator in: an empty directory, one
    whose go.mod names no module, and (above) an initialised one. *)
Definition empty_directory : world :=
  {| dirs := ∅; files := ∅; stdout := []; stdin := [] |}.

Definition go_mod_without_module : world :=
  {| dirs := ∅;
     files := {[ ["go.mod"] := "go 1.21" +:+ nl +:+ "require example.com/module v1" +:+ nl ]};
     stdout := [];
     stdin := [] |}.

Lemma domain_generator_requires_go_mod_witness :
  main GenerateDomainProps.sample_templates
    (GenerateDomainProps.argv_of "user" "name:string") empty_directory =
  (Exit 1,
   emit "Error: go.mod not found. Make sure you're in the project root." empty_directory).
Proof.
  apply (domain_generator_requires_go_mod GenerateDomainProps.sample_templates
           (GenerateDomainProps.argv_of "user" "name:string") "user" empty_directory
           eq_refl); by vm_compute.
Defined.

Lemma domain_generator_requires_module_line_witness :
  main GenerateDomainProps.sample_templates
    (GenerateDomainProps.argv_of "user" "name:string") go_mod_without_module =
  (Exit 1,
   emit "Error: Could not determine module path from go.mod" go_mod_without_module).
Proof.
  apply (domain_generator_requires_module_line GenerateDomainProps.sample_templates
           (GenerateDomainProps.argv_of "user" "name:string") "user"
           ("go 1.21" +:+ nl +:+ "require example.com/module v1" +:+ nl)
           go_mod_without_module eq_refl).
  - by vm_compute.
  - vm_compute. repeat constructor.
Defined.

Definition go_mod_with_bare_module_line : world :=
  {| dirs := ∅;
     files := {[ ["go.mod"] := "go 1.21" +:+ nl +:+ "module " +:+ nl
                               +:+ "module example.com/app" +:+ nl ]};
     stdout := [];
     stdin := [] |}.

Lemma domain_generator_module_line_without_name_witness :
  main GenerateDomainProps.sample_templates
    (GenerateDomainProps.argv_of "user" "name:string") go_mod_with_bare_module_line =
    (Raise IndexError, go_mod_with_bare_module_line)
  /\ exit_status (main GenerateDomainProps.sample_templates
                    (GenerateDomainProps.argv_of "user" "name:string")
                    go_mod_with_bare_module_line).1 = 1.
Proof.
  apply (domain_generator_module_line_without_name GenerateDomainProps.sample_templates
           (GenerateDomainProps.argv_of "user" "name:string") "user"
           ("go 1.21" +:+ nl +:+ "module " +:+ nl +:+ "module example.com/app" +:+ nl)
           ["go 1.21" +:+ nl] ("module " +:+ nl) ["module example.com/app" +:+ nl]
           go_mod_with_bare_module_line eq_refl).
  - by vm_compute.
  - by vm_compute.
  - repeat constructor.
  - reflexivity.
  - reflexivity.
Defined.

Lemma domain_generator_writes_five_files_witness :
  (main GenerateDomainProps.sample_templates
     (GenerateDomainProps.argv_of "Order" "total:float64")
     GenerateDomainProps.initialised_project).1 = Return tt
  /\ dirs (main GenerateDomainProps.sample_templates
             (GenerateDomainProps.argv_of "Order" "total:float64")
             GenerateDomainProps.initialised_project).2 =
       dirs GenerateDomainProps.initialised_project
  /\ files (main GenerateDomainProps.sample_templates
              (GenerateDomainProps.argv_of "Order" "total:float64")
              GenerateDomainProps.initialised_project).2 =
       <[ ["internal"; "handler"; "order_handler.go"] := "package handler" ]>
      (<[ ["internal"; "usecase"; "order_usecase.go"] := "package usecase" ]>
      (<[ ["internal"; "infrastructure"; "repository"; "order_repository.go"]
            := "package repository" ]>
      (<[ ["internal"; "domain"; "repository"; "order_repository.go"]
            := "package repository" ]>
      (<[ ["internal"; "domain"; "entity"; "order.go"]
            := generate_entity "order" (parse_fields "total:float64") "example.com/app" ]>
         (files GenerateDomainProps.initialised_project))))).
Proof.
  apply (domain_generator_writes_five_files GenerateDomainProps.sample_templates
           (GenerateDomainProps.argv_of "Order" "total:float64") "Order"
           ("module example.com/app" +:+ nl) "example.com/app"
           GenerateDomainProps.initialised_project eq_refl).
  - reflexivity.
  - by vm_compute.
  - reflexivity.
  - reflexivity.
  - split; repeat constructor; by vm_compute.
Defined.

End DomainGeneratorRuns.

(** ** Runs of the infrastructure generator *)

Module InfrastructureRuns.
Import Sys SysProps AddInfrastructure AddInfrastructureProps.

Section Generator.
Variable T : templates.

(** X14. A provider outside the list of its type ends the run with
    status 1 after two lines, the second of which lists the providers of
    the type; the file system is not touched, not even looked at. *)
Theorem unsupported_provider_exits a infra_type provider providers w :
  arg_type a = Some infra_type ->
  arg_provider a = Some provider ->
  Py.dict_lookup SUPPORTED_TYPES infra_type = Some providers ->
  provider ∉ providers ->
  main T a w =
    (Exit 1,
     emit ("Supported providers: " +:+ Py.join ", " providers)
       (emit (cross +:+ " Error: Unsupported provider '" +:+ provider
              +:+ "' for type '" +:+ infra_type +:+ "'") w)).
Proof.
  intros Ht Hp Hl Hin. unfold main, parse_args. rewrite Ht, Hp.
  rewrite bool_decide_eq_true_2 by (by eapply dict_lookup_keys).
  rewrite run_ret. cbn [type_ provider_ project_path_]. rewrite Hl.
  by rewrite bool_decide_eq_false_2 by done.
Qed.

(** [main] up to the test of the project path, for a pair the resolver
    accepts. *)
Lemma main_to_project_test a infra_type provider w :
  arg_type a = Some infra_type ->
  arg_provider a = Some provider ->
  accepted infra_type provider ->
  let given := default "." (arg_project_path a) in
  let project_path := Path given in
  main T a w =
    ((if is_dir w project_path || is_file w project_path then ret tt
      else
        print (cross +:+ " Error: Project path '" +:+ given +:+ "' does not exist") ;;
        exit 1) ;;
     let* has_go_mod := exists_ (project_path // "go.mod") in
     (if has_go_mod then ret tt
      else
        print (cross +:+ " Error: Not a Go project (go.mod not found)") ;;
        exit 1) ;;
     create_infrastructure T project_path infra_type provider) w.
Proof.
  intros Ht Hp (providers & Hl & Hin) given project_path.
  unfold main, parse_args. rewrite Ht, Hp.
  rewrite bool_decide_eq_true_2 by (by eapply dict_lookup_keys).
  rewrite run_ret. cbn [type_ provider_ project_path_]. rewrite Hl.
  rewrite bool_decide_eq_true_2 by done.
  unfold bind at 1. cbn [ret]. fold given project_path.
  by rewrite run_exists.
Qed.

(** X15. With a supported provider, a project path that does not exist
    ends the run with status 1 after one line that quotes the path as it
    was given; nothing is made or written. *)
Theorem missing_project_exits a infra_type provider w :
  arg_type a = Some infra_type ->
  arg_provider a = Some provider ->
  accepted infra_type provider ->
  let given := default "." (arg_project_path a) in
  is_dir w (Path given) = false ->
  is_file w (Path given) = false ->
  main T a w =
    (Exit 1, emit (cross +:+ " Error: Project path '" +:+ given
                   +:+ "' does not exist") w).
Proof.
  intros Ht Hp Hacc given Hd Hf.
  rewrite (main_to_project_test a infra_type provider w Ht Hp Hacc).
  fold given. by rewrite Hd, Hf.
Qed.

(** X16. A project directory without go.mod ends the run with status 1
    after one line; nothing is made or written. *)
Theorem missing_go_mod_exits a infra_type provider w :
  arg_type a = Some infra_type ->
  arg_provider a = Some provider ->
  accepted infra_type provider ->
  let project_path := Path (default "." (arg_project_path a)) in
  is_dir w project_path || is_file w project_path = true ->
  is_dir w (project_path // "go.mod") = false ->
  is_file w (project_path // "go.mod") = false ->
  main T a w =
    (Exit 1, emit (cross +:+ " Error: Not a Go project (go.mod not found)") w).
Proof.
  intros Ht Hp Hacc project_path He Hd Hf.
  rewrite (main_to_project_test a infra_type provider w Ht Hp Hacc).
  fold project_path. rewrite He. unfold bind at 1. cbn [ret].
  by rewrite run_exists, Hd, Hf.
Qed.

(** What [create_infrastructure] does for a registered pair: the
    directory of the type is made, the interface and the implementation are
    written, and the rest of the run prints only. *)
Lemma create_infrastructure_registered project_path infra_type provider w :
  (infra_type, provider) ∈ registered ->
  let dir := infra_dir project_path infra_type in
  truthy (interface_content T infra_type) = true ->
  truthy (impl_content T infra_type provider) = true ->
  mkdir_error w dir = None ->
  dir ++ [infra_type +:+ ".go"] ∉ dirs w ->
  dir ++ [provider +:+ ".go"] ∉ dirs w ->
  exists w',
    create_infrastructure T project_path infra_type provider w = (Return tt, w')
    /\ files w' =
         <[dir ++ [provider +:+ ".go"] := default EmptyString (impl_content T infra_type provider)]>
           (<[dir ++ [infra_type +:+ ".go"] := default EmptyString (interface_content T infra_type)]>
              (files w))
    /\ dirs w' = dirs w ∪ list_to_set (prefixes dir).
Proof.
  intros Hreg dir Hi Hr Hmk Hc Hd.
  unfold registered in Hreg.
  rewrite !elem_of_cons, elem_of_nil in Hreg.
  unfold create_infrastructure. fold (infra_dir project_path infra_type). fold dir.
  rewrite Hi, Hr. cbn [negb orb].
  destruct Hreg as [E|[E|[E|[E|[E|[]]]]]]; injection E as -> ->;
    (eexists; split;
     [ rewrite run_print, run_mkdir by done;
       repeat match goal with
              | |- context [?x +:+ ".go"] =>
                  let v := eval vm_compute in (x +:+ ".go") in
                  change (x +:+ ".go") with v in *
              end;
       rewrite !join_plain by done;
       rewrite run_write by (by apply open_error_below_make_dirs);
       rewrite run_print;
       rewrite run_write;
       [|unfold open_error; rewrite parent_snoc by done;
         rewrite is_dir_emit, is_dir_store, is_dir_below_make_dirs by done;
         rewrite is_file_emit, is_file_store_ne
           by (intros E; apply (f_equal length) in E; rewrite length_app in E;
               simpl in E; lia);
         rewrite is_file_make_dirs, is_file_emit, (mkdir_error_not_file _ _ Hmk);
         by rewrite is_dir_emit, is_dir_store, is_dir_make_dirs];
       reflexivity
     | split; reflexivity ]).
Qed.

(** X17. For each of the five registered pairs of type and provider the
    run ends normally, the new files are the interface and the
    implementation in the directory of the type, and the new directories are
    that directory and its ancestors. *)
Theorem registered_pair_writes_two_files project_path infra_type provider w :
  (infra_type, provider) ∈ registered ->
  let dir := infra_dir project_path infra_type in
  truthy (interface_content T infra_type) = true ->
  truthy (impl_content T infra_type provider) = true ->
  mkdir_error w dir = None ->
  dir ++ [infra_type +:+ ".go"] ∉ dirs w ->
  dir ++ [provider +:+ ".go"] ∉ dirs w ->
  let res := create_infrastructure T project_path infra_type provider w in
  res.1 = Return tt
  /\ files res.2 =
       <[dir ++ [provider +:+ ".go"] := default EmptyString (impl_content T infra_type provider)]>
         (<[dir ++ [infra_type +:+ ".go"] := default EmptyString (interface_content T infra_type)]>
            (files w))
  /\ dirs res.2 = dirs w ∪ list_to_set (prefixes dir).
Proof.
  intros Hreg dir Hi Hr Hmk Hc Hd res. subst res.
  by destruct (create_infrastructure_registered _ _ _ _ Hreg Hi Hr Hmk Hc Hd)
    as (w' & -> & ? & ?).
Qed.

(** Whether a directory can be made depends on the files at it and
    above it only. *)
Lemma existsb_is_file_same w w' (l : list path) :
  Forall (fun q => files w' !! q = files w !! q) l ->
  existsb (is_file w') l = existsb (is_file w) l.
Proof.
  induction 1 as [|q l Hq _ IH]; [done|]. cbn [existsb]. unfold is_file at 1 3.
  by rewrite Hq, IH.
Qed.

Lemma prefixes_removelast_length (p q : path) :
  q ∈ prefixes (removelast p) -> length q <= length p.
Proof.
  intros [_ H]%prefixes_length.
  destruct p as [|x p _] using rev_ind; [done|].
  rewrite removelast_last in H. rewrite length_app. simpl. lia.
Qed.

Lemma mkdir_error_same w w' (dir : path) :
  (forall q : path, length q <= length dir -> files w' !! q = files w !! q) ->
  mkdir_error w' dir = mkdir_error w dir.
Proof.
  intros Hsame. unfold mkdir_error.
  rewrite (existsb_is_file_same w w').
  - unfold is_file. by rewrite (Hsame dir).
  - apply Forall_forall. intros q Hq. by apply Hsame, prefixes_removelast_length.
Qed.

(** X18. Running the generator a second time for a registered pair ends
    normally again and changes neither the files nor the directories: the
    two files are written over with the text they have. *)
Theorem registered_pair_rerun_changes_nothing project_path infra_type provider w :
  (infra_type, provider) ∈ registered ->
  let dir := infra_dir project_path infra_type in
  truthy (interface_content T infra_type) = true ->
  truthy (impl_content T infra_type provider) = true ->
  mkdir_error w dir = None ->
  dir ++ [infra_type +:+ ".go"] ∉ dirs w ->
  dir ++ [provider +:+ ".go"] ∉ dirs w ->
  let first := create_infrastructure T project_path infra_type provider w in
  let second := create_infrastructure T project_path infra_type provider first.2 in
  first.1 = Return tt
  /\ second.1 = Return tt
  /\ files second.2 = files first.2
  /\ dirs second.2 = dirs first.2.
Proof.
  intros Hreg dir Hi Hr Hmk Hc Hd first second. subst first second.
  destruct (create_infrastructure_registered _ _ _ _ Hreg Hi Hr Hmk Hc Hd)
    as (w1 & -> & Hf1 & Hd1).
  cbn [fst snd]. fold dir in Hf1, Hd1.
  assert (forall x : string, dir ++ [x] ∉ dirs w -> dir ++ [x] ∉ dirs w1) as Hnew.
  { intros x Hx. rewrite Hd1, not_elem_of_union. split; [done|].
    intros E%elem_of_list_to_set%prefixes_length. rewrite length_app in E.
    simpl in E. lia. }
  assert (mkdir_error w1 dir = None) as Hmk1.
  { rewrite <- Hmk. apply mkdir_error_same. intros q Hq. rewrite Hf1.
    rewrite !lookup_insert_ne; [done|..]; intros <-; rewrite length_app in Hq;
      simpl in Hq; lia. }
  destruct (create_infrastructure_registered _ _ _ _ Hreg Hi Hr Hmk1
              (Hnew _ Hc) (Hnew _ Hd)) as (w2 & -> & Hf2 & Hd2).
  cbn [fst snd]. fold dir in Hf2, Hd2.
  split; [done|]. split; [done|]. split.
  - rewrite Hf2, Hf1. apply map_eq. intros k.
    destruct (decide (dir ++ [provider +:+ ".go"] = k)) as [<-|Hk].
    { by rewrite !lookup_insert_eq. }
    rewrite !(lookup_insert_ne _ (dir ++ [provider +:+ ".go"])) by done.
    destruct (decide (dir ++ [infra_type +:+ ".go"] = k)) as [<-|Hk'].
    { by rewrite !lookup_insert_eq. }
    by rewrite !lookup_insert_ne by done.
  - rewrite Hd2, Hd1. by rewrite <- (assoc_L (∪)), (idemp_L (∪)).
Qed.

End Generator.

Lemma unsupported_provider_exits_witness :
  main sample_templates (argv_of "storage" "redis") go_project =
    (Exit 1,
     emit "Supported providers: local, s3, gcs"
       (emit (cross +:+ " Error: Unsupported provider 'redis' for type 'storage'")
          go_project)).
Proof.
  apply (unsupported_provider_exits sample_templates (argv_of "storage" "redis")
           "storage" "redis" ["local"; "s3"; "gcs"] go_project eq_refl eq_refl eq_refl).
  rewrite !not_elem_of_cons. repeat split; try done. apply not_elem_of_nil.
Defined.

Lemma accepted_storage_s3 : accepted "storage" "s3".
Proof. exists ["local"; "s3"; "gcs"]. split; [reflexivity|]. set_solver. Qed.

Lemma registered_storage_s3 : ("storage", "s3") ∈ registered.
Proof. unfold registered. set_solver. Qed.

Definition argv_in (infra_type provider project_path : string) : argv :=
  {| arg_type := Some infra_type; arg_provider := Some provider;
     arg_project_path := Some project_path |}.

Lemma missing_project_exits_witness :
  main sample_templates (argv_in "storage" "s3" "../api") go_project =
    (Exit 1, emit (cross +:+ " Error: Project path '../api' does not exist") go_project).
Proof.
  apply (missing_project_exits sample_templates (argv_in "storage" "s3" "../api")
           "storage" "s3" go_project eq_refl eq_refl accepted_storage_s3);
    by vm_compute.
Defined.

Lemma missing_go_mod_exits_witness :
  main sample_templates (argv_of "storage" "s3") DomainGeneratorRuns.empty_directory =
    (Exit 1, emit (cross +:+ " Error: Not a Go project (go.mod not found)")
               DomainGeneratorRuns.empty_directory).
Proof.
  apply (missing_go_mod_exits sample_templates (argv_of "storage" "s3")
           "storage" "s3" DomainGeneratorRuns.empty_directory
           eq_refl eq_refl accepted_storage_s3);
    by vm_compute.
Defined.

Lemma registered_pair_writes_two_files_witness :
  (create_infrastructure sample_templates [] "storage" "s3" go_project).1 = Return tt
  /\ files (create_infrastructure sample_templates [] "storage" "s3" go_project).2 =
       <[ ["internal"; "infrastructure"; "storage"; "s3.go"] := "package storage" ]>
         (<[ ["internal"; "infrastructure"; "storage"; "storage.go"] := "package storage" ]>
            (files go_project))
  /\ dirs (create_infrastructure sample_templates [] "storage" "s3" go_project).2 =
       dirs go_project
       ∪ list_to_set (prefixes ["internal"; "infrastructure"; "storage"]).
Proof.
  apply (registered_pair_writes_two_files sample_templates [] "storage" "s3" go_project
           registered_storage_s3);
    [reflexivity | reflexivity | by vm_compute | apply not_elem_of_empty
    | apply not_elem_of_empty].
Defined.

Lemma registered_pair_rerun_changes_nothing_witness :
  (create_infrastructure sample_templates [] "storage" "s3" go_project).1 = Return tt
  /\ (create_infrastructure sample_templates [] "storage" "s3"
        (create_infrastructure sample_templates [] "storage" "s3" go_project).2).1
     = Return tt
  /\ files (create_infrastructure sample_templates [] "storage" "s3"
              (create_infrastructure sample_templates [] "storage" "s3" go_project).2).2
     = files (create_infrastructure sample_templates [] "storage" "s3" go_project).2
  /\ dirs (create_infrastructure sample_templates [] "storage" "s3"
             (create_infrastructure sample_templates [] "storage" "s3" go_project).2).2
     = dirs (create_infrastructure sample_templates [] "storage" "s3" go_project).2.
Proof.
  apply (registered_pair_rerun_changes_nothing sample_templates [] "storage" "s3"
           go_project registered_storage_s3);
    [reflexivity | reflexivity | by vm_compute | apply not_elem_of_empty
    | apply not_elem_of_empty].
Defined.

End InfrastructureRuns.

(** ** Names and runs of the component generators *)

Module ComponentRuns.
Import Sys SysProps PyProps HelperFunctions TextProps ComponentProps.
#[local] Arguments String.append !_ _ : simpl nomatch.

(** *** Component names *)

(** The characters [to_pascal_case] splits a name at. *)
Definition is_separator (c : ascii) : bool :=
  Py.is_space c || bool_decide (c = "-"%char) || bool_decide (c = "_"%char).

Definition one_word (s : string) : bool := all_chars (fun c => negb (is_separator c)) s.

Lemma is_separator_upper_char c : is_separator (Py.upper_char c) = is_separator c.
Proof. by destruct c as [[] [] [] [] [] [] [] []]. Qed.

Lemma is_separator_lower_char c : is_separator (Py.lower_char c) = is_separator c.
Proof. by destruct c as [[] [] [] [] [] [] [] []]. Qed.

Lemma one_word_lower s : one_word (Py.lower s) = one_word s.
Proof.
  induction s as [|c s IH]; [done|]. unfold one_word in *. cbn [all_chars Py.lower].
  by rewrite is_separator_lower_char, IH.
Qed.

Lemma one_word_capitalize s : one_word s = true -> one_word (Py.capitalize s) = true.
Proof.
  destruct s as [|c s]; [done|]. unfold Py.capitalize.
  pose proof (one_word_lower s) as Hl. unfold one_word in *. cbn [all_chars].
  by rewrite is_separator_upper_char, Hl.
Qed.

Lemma split_ws_aux_words (P : ascii -> bool) acc s :
  all_chars P acc = true ->
  all_chars (fun c => Py.is_space c || P c) s = true ->
  Forall (fun p => all_chars P p = true) (Py.split_ws_aux acc s).
Proof.
  revert acc. induction s as [|c s IH]; intros acc Hacc Hs; cbn [Py.split_ws_aux].
  - destruct acc; by repeat constructor.
  - cbn [all_chars] in Hs. apply andb_true_iff in Hs as [Hc Hs].
    destruct (Py.is_space c) eqn:E.
    + destruct acc; [by apply IH|]. constructor; [done|]. by apply IH.
    + apply IH; [|done]. rewrite all_chars_app, Hacc. cbn [all_chars].
      cbn [orb] in Hc. by rewrite Hc.
Qed.

Lemma replaced_separators name :
  all_chars (fun c => Py.is_space c || negb (is_separator c))
    (Py.replace_char "_" " " (Py.replace_char "-" " " name)) = true.
Proof.
  induction name as [|c name IH]; [done|]. cbn [Py.replace_char all_chars].
  rewrite IH, andb_true_r.
  destruct (decide (c = "-"%char)) as [->|Hh]; [done|].
  destruct (decide (c = "_"%char)) as [->|Hu]; [done|].
  unfold is_separator.
  rewrite (bool_decide_eq_false_2 (c = "-"%char)), (bool_decide_eq_false_2 (c = "_"%char))
    by done.
  by destruct (Py.is_space c).
Qed.

Lemma all_chars_join_empty (P : ascii -> bool) (parts : list string) :
  Forall (fun p => all_chars P p = true) parts ->
  all_chars P (Py.join EmptyString parts) = true.
Proof.
  induction 1 as [|p parts Hp Hall IH]; [done|].
  destruct parts as [|q parts]; [done|].
  change (Py.join EmptyString (p :: q :: parts))
    with (p +:+ EmptyString +:+ Py.join EmptyString (q :: parts)).
  by rewrite !all_chars_app, Hp, IH.
Qed.

(** X19. The Pascal case of a name holds no white space, no hyphen and
    no underscore, in the React generator and in the monorepo generator. *)
Theorem pascal_case_is_one_word (name : string) :
  one_word (ReactComponent.to_pascal_case name) = true
  /\ one_word (MonorepoComponent.to_pascal_case name) = true.
Proof.
  assert (one_word (ReactComponent.to_pascal_case name) = true) as H; [|by split].
  unfold ReactComponent.to_pascal_case. apply all_chars_join_empty.
  apply Forall_fmap.
  eapply Forall_impl; [apply (split_ws_aux_words (fun c => negb (is_separator c)));
                       [done|apply replaced_separators]|].
  intros p Hp. by apply one_word_capitalize.
Qed.

Lemma replace_char_absent a b s :
  lacks a s = true -> Py.replace_char a b s = s.
Proof.
  induction s as [|c s IH]; [done|]. unfold lacks. cbn [all_chars Py.replace_char].
  intros [Hc Hs]%andb_true_iff. apply negb_true_iff, bool_decide_eq_false in Hc.
  rewrite decide_False by done. fold (lacks a s) in Hs. by rewrite IH.
Qed.

Lemma split_ws_aux_word acc s :
  all_chars (fun c => negb (Py.is_space c)) s = true ->
  acc +:+ s <> EmptyString ->
  Py.split_ws_aux acc s = [acc +:+ s].
Proof.
  revert acc. induction s as [|c s IH]; intros acc Hs Hne; cbn [Py.split_ws_aux].
  - rewrite string_app_empty_r in *. by destruct acc.
  - cbn [all_chars] in Hs. apply andb_true_iff in Hs as [Hc Hs].
    apply negb_true_iff in Hc. rewrite Hc.
    rewrite IH; [by rewrite string_app_assoc|done|].
    rewrite string_app_assoc. by destruct acc.
Qed.

Lemma one_word_parts s :
  one_word s = true ->
  lacks "-" s = true /\ lacks "_" s = true
  /\ all_chars (fun c => negb (Py.is_space c)) s = true.
Proof.
  induction s as [|c s IH]; [done|]. unfold one_word, lacks in *. cbn [all_chars].
  intros [Hc Hs]%andb_true_iff. destruct (IH Hs) as (-> & -> & ->).
  unfold is_separator in Hc. rewrite !negb_orb in Hc.
  apply andb_true_iff in Hc as [[-> ->]%andb_true_iff ->]. done.
Qed.

(** X20. A name of one word, all its characters other than white
    space, hyphen and underscore, is capitalized as a whole: its first
    letter is upper-cased and all its other letters are lower-cased, so
    that the capitals inside a name in Pascal case are lost. *)
Theorem pascal_case_of_one_word (name : string) :
  one_word name = true ->
  name <> EmptyString ->
  ReactComponent.to_pascal_case name = Py.capitalize name
  /\ MonorepoComponent.to_pascal_case name = Py.capitalize name.
Proof.
  intros (Hh & Hu & Hs)%one_word_parts Hne.
  assert (ReactComponent.to_pascal_case name = Py.capitalize name) as H; [|by split].
  unfold ReactComponent.to_pascal_case.
  rewrite (replace_char_absent "-" " " name Hh), (replace_char_absent "_" " " name Hu).
  unfold Py.split_ws. by rewrite split_ws_aux_word.
Qed.

Lemma pascal_case_of_one_word_witness :
  ReactComponent.to_pascal_case "UserCard" = "Usercard"
  /\ MonorepoComponent.to_pascal_case "UserCard" = "Usercard".
Proof. apply (pascal_case_of_one_word "UserCard"); [reflexivity|done]. Defined.


(** *** The React generator *)

Section React.
Import ReactComponent.
Variable T : templates.

(** X22. When the component file is there and the answer to the
    question is not y or Y, [create_component] returns false after the word
    Cancelled: no file changes, and the answer is taken from standard
    input. *)
Theorem declined_overwrite_keeps_files
    project_path name component_type directory response rest w :
  let components_dir := project_path // "src" // directory in
  let component_file := components_dir // (to_pascal_case name +:+ ".tsx") in
  mkdir_error w components_dir = None ->
  is_file w component_file = true ->
  stdin w = response :: rest ->
  Py.lower response <> "y" ->
  let res := create_component T project_path name component_type directory w in
  res.1 = Return false
  /\ files res.2 = files w
  /\ stdin res.2 = rest
  /\ stdout res.2 =
       stdout w ++ [ nl +:+ rocket +:+ " Generating " +:+ name +:+ " component" +:+ nl;
                     warning +:+ " Warning: " +:+ str component_file +:+ " already exists";
                     "Overwrite? (y/N): ";
                     "Cancelled" ].
Proof.
  intros components_dir component_file Hmk Hfile Hin Hno res. subst res.
  cut (exists w', create_component T project_path name component_type directory w =
                    (Return false, w')
                  /\ files w' = files w /\ stdin w' = rest
                  /\ stdout w' = stdout w ++ [ nl +:+ rocket +:+ " Generating " +:+ name +:+ " component" +:+ nl;
                     warning +:+ " Warning: " +:+ str component_file +:+ " already exists";
                     "Overwrite? (y/N): ";
                     "Cancelled" ]).
  { by intros (w' & -> & ? & ? & ?). }
  eexists. split.
  - unfold create_component. fold components_dir component_file.
    rewrite run_print, run_mkdir by done.
    rewrite run_exists, is_file_make_dirs, is_file_emit, Hfile, orb_true_r.
    cbv beta iota. unfold bind at 1. rewrite run_print.
    unfold bind at 1, input. cbn [stdin emit make_dirs]. rewrite Hin.
    rewrite decide_False by done. reflexivity.
  - cbn [files stdin stdout emit make_dirs]. split; [done|]. split; [done|].
    by rewrite <- !(assoc_L (++)).
Qed.

(** X23. After an update of the index file that succeeded, the file holds
    the export line of the component, and a second update changes
    nothing: the line is never there twice through this script. *)
Theorem update_index_settles project_path components_dir pascal_name w w1 :
  update_index project_path components_dir pascal_name w = (Return tt, w1) ->
  (exists content,
      files w1 !! (components_dir // "index.ts") = Some content
      /\ Py.contains ("export * from './" +:+ pascal_name +:+ "'" +:+ nl) content = true)
  /\ update_index project_path components_dir pascal_name w1 = (Return tt, w1).
Proof.
  intros H. split; [|by apply (react_update_index_idempotent _ _ _ w)].
  revert H. unfold update_index.
  set (index_file := components_dir // "index.ts").
  set (export_line := "export * from './" +:+ pascal_name +:+ "'" +:+ nl).
  rewrite run_exists.
  destruct (is_dir w index_file || is_file w index_file) eqn:Hfound.
  - unfold bind at 1, read_text at 1.
    destruct (files w !! index_file) as [content|] eqn:Hc;
      [|destruct (is_dir w index_file); discriminate].
    destruct (Py.contains export_line content) eqn:Hin; cbn [negb].
    + intros [= <-]. by exists content.
    + unfold bind at 1, write_text at 1.
      destruct (open_error w index_file); [discriminate|].
      unfold bind at 1, relative_str.
      destruct (relative_to index_file project_path); [|discriminate].
      cbn [ret print]. intros [= <-].
      exists (content +:+ export_line). split; [apply lookup_insert_eq|].
      apply contains_app_self.
  - unfold bind at 1, write_text at 1.
    destruct (open_error w index_file); [discriminate|].
    unfold bind at 1, relative_str.
    destruct (relative_to index_file project_path); [|discriminate].
    cbn [ret print]. intros [= <-].
    exists export_line. split; [apply lookup_insert_eq|].
    apply contains_prefix, startswith_refl.
Qed.

(** X24. The React generator checks the project before anything else:
    without package.json in the project directory it ends with status 1
    after one line, whatever the name and the type. *)
Theorem react_requires_package_json a n w :
  arg_name a = Some n ->
  default "basic" (arg_type a) ∈ type_choices ->
  let project_path := Path (default "." (arg_project_path a)) in
  is_dir w project_path || is_file w project_path = true ->
  is_dir w (project_path // "package.json") = false ->
  is_file w (project_path // "package.json") = false ->
  main T a w =
    (Exit 1,
     emit (cross +:+ " Error: Not a valid Node.js project (package.json not found)") w).
Proof.
  intros Hn Ht project_path He Hd Hf.
  unfold main, parse_args. rewrite Hn.
  rewrite bool_decide_eq_true_2 by done.
  rewrite run_ret. cbn [project_path_]. fold project_path.
  rewrite run_exists, He. unfold bind at 1. cbn [ret].
  by rewrite run_exists, Hd, Hf.
Qed.

End React.

(** *** The monorepo generator *)

Section Monorepo.
Import MonorepoComponent.

Definition has_components (w : world) (package_dir : path) : bool :=
  is_dir w (package_dir // "src" // "components")
  || is_file w (package_dir // "src" // "components").

(** What a search of the frontend package comes to: the package, with
    the world as it was, or nothing after one line, or the error of listing
    a file. *)
Definition search_result (w : world) (candidates : list path)
    (res : outcome (option path) * world) : Prop :=
  match res with
  | (Return (Some p), w') => w' = w /\ p ∈ candidates /\ has_components w p = true
  | (Return None, w') => exists line, w' = emit line w
  | (Raise e, w') => w' = w /\ e = NotADirectoryError
  | (Exit _, _) => False
  end.

Lemma first_frontend_result candidates w :
  search_result w candidates (first_frontend candidates w).
Proof.
  induction candidates as [|p rest IH]; cbn [first_frontend].
  - rewrite run_print. cbn. by eexists.
  - unfold bind at 1. rewrite run_exists. fold (has_components w p).
    destruct (is_dir w p && has_components w p) eqn:E.
    + cbn. apply andb_true_iff in E as [_ E]. split; [done|]. split; [|done].
      apply elem_of_cons. by left.
    + unfold search_result in *. destruct (first_frontend rest w) as [[[q|]| |] w']; try done.
      destruct IH as (? & ? & ?). split; [done|]. split; [|done].
      apply elem_of_cons. by right.
Qed.

(** X25. [find_frontend_package] only reads the file system.  When it
    gives a package, nothing was printed and the package has src/components;
    it is the named package or an entry of the packages directory.  When it
    gives nothing, one line was printed.  It ends the process in no case;
    the only error is that of listing a packages path that is a file. *)
Theorem find_frontend_package_reads_only project_path package_name w :
  let packages_dir := project_path // "packages" in
  let named := Py.nonempty (default EmptyString package_name) in
  search_result w
    (if named then [packages_dir // default EmptyString package_name]
     else iterdir w packages_dir)
    (find_frontend_package project_path package_name w).
Proof.
  intros packages_dir named. unfold find_frontend_package. fold packages_dir named.
  rewrite run_exists.
  destruct (is_dir w packages_dir || is_file w packages_dir) eqn:Hp; cbn [negb].
  2:{ rewrite run_print. cbn. by eexists. }
  destruct named.
  - rewrite !run_exists.
    fold (has_components w (packages_dir // default EmptyString package_name)).
    destruct (_ && has_components w _) eqn:E.
    + cbn. apply andb_true_iff in E as [_ E]. split; [done|]. split; [|done].
      apply list_elem_of_singleton. done.
    + rewrite run_print. cbn. by eexists.
  - unfold bind at 1, iterdir_. destruct (is_file w packages_dir); [done|].
    apply first_frontend_result.
Qed.

Variable T : templates.

(** X26. Without a packages directory in the project the monorepo
    generator ends with status 1 after one line; nothing is made or
    written. *)
Theorem monorepo_requires_packages a n w :
  arg_name a = Some n ->
  default "basic" (arg_type a) ∈ type_choices ->
  let packages_dir := Path (default "." (arg_project_path a)) // "packages" in
  is_dir w packages_dir = false ->
  is_file w packages_dir = false ->
  main T a w =
    (Exit 1,
     emit (cross +:+ " Not a valid monorepo project (packages directory not found)") w).
Proof.
  intros Hn Ht packages_dir Hd Hf.
  unfold main, parse_args. rewrite Hn.
  rewrite bool_decide_eq_true_2 by done.
  rewrite run_ret. cbn [project_path_ package_].
  unfold bind at 1, find_frontend_package. fold packages_dir.
  by rewrite run_exists, Hd, Hf.
Qed.

(** Paths below the package *)
Lemma strip_prefix_app (p r : path) : strip_prefix (p ++ r) p = Some r.
Proof. induction p as [|a p IH]; simpl; [by destruct r|]. by rewrite decide_True. Qed.

Lemma relative_to_below (p r : path) :
  is_absolute r = false -> relative_to (p ++ r) p = Some r.
Proof.
  intros Hr. unfold relative_to. rewrite strip_prefix_app.
  destruct p as [|a p]; [by rewrite app_nil_l, Hr|].
  cbn [app is_absolute]. by destruct (bool_decide (a = "/")).
Qed.

Lemma pascal_case_lacks_slash name :
  lacks "/" name = true -> lacks "/" (to_pascal_case name) = true.
Proof.
  intros H. unfold to_pascal_case, lacks. apply all_chars_join_empty, Forall_fmap.
  eapply Forall_impl.
  - apply (split_ws_aux_words (fun c => negb (bool_decide (c = "/"%char)))); [done|].
    induction name as [|c name IH]; [done|]. unfold lacks in H.
    cbn [all_chars Py.replace_char] in *. apply andb_true_iff in H as [Hc H].
    rewrite (IH H), andb_true_r.
    destruct (decide (c = "-"%char)) as [->|]; [done|].
    destruct (decide (c = "_"%char)) as [->|]; [done|]. by rewrite Hc, orb_true_r.
  - intros p Hp. unfold compose. cbn beta in Hp |- *. destruct p as [|c p]; [done|].
    cbn [Py.capitalize all_chars] in *. apply andb_true_iff in Hp as [Hc Hp].
    fold (lacks "/" p) in Hp. apply DomainGeneratorRuns.lower_lacks_slash in Hp.
    unfold lacks in Hp. rewrite Hp, andb_true_r. revert Hc. clear.
    by destruct c as [[] [] [] [] [] [] [] []].
Qed.

Lemma component_file_not_index (p : string) : p +:+ ".tsx" <> "index.ts".
Proof.
  intros E. assert (String.length p = 4) as Hl.
  { apply (f_equal String.length) in E. rewrite string_length_app in E. simpl in E. lia. }
  destruct p as [|a [|b [|c [|d [|e p]]]]]; simpl in Hl; try lia.
  vm_compute in E. discriminate.
Qed.

(** X27. The monorepo generator writes the component file and, when the
    index file of its directory is there, appends the export line to it
    without looking at what the file holds: each further run for the same
    component adds the line once more. *)
Theorem monorepo_run_appends_export_line
    package_path name component_type directory generator old w :
  Py.dict_lookup (generators T) component_type = Some generator ->
  Py.contains "/" name = false ->
  Py.startswith "/" directory = false ->
  let dir := package_path ++ ["src"; "components"] ++ parts_of directory in
  let pascal_name := to_pascal_case name in
  let component_path := dir ++ [pascal_name +:+ ".tsx"] in
  let index_path := dir ++ ["index.ts"] in
  let export_line :=
    "export { " +:+ pascal_name +:+ " } from './" +:+ pascal_name +:+ "'" +:+ nl in
  mkdir_error w dir = None ->
  component_path ∉ dirs w ->
  index_path ∉ dirs w ->
  files w !! index_path = Some old ->
  let res := create_component T package_path name component_type directory w in
  res.1 = Return true
  /\ files res.2 =
       <[index_path := old +:+ export_line]> (<[component_path := generator name]> (files w)).
Proof.
  intros Hgen Hslash Hrel dir pascal_name component_path index_path export_line
    Hmk Hcomp Hindex Hold res. subst res.
  apply lacks_not_contains, pascal_case_lacks_slash in Hslash. fold pascal_name in Hslash.
  destruct (DomainGeneratorRuns.join_file_name dir pascal_name ".tsx" Hslash eq_refl)
    as [Hfile Hne]; [simpl; lia|].
  assert (package_path // "src" // "components" // directory = dir) as Hdir.
  { rewrite (join_plain package_path "src"), (join_plain _ "components") by done.
    unfold joinpath. rewrite Hrel. unfold dir.
    by rewrite <- !(assoc_L (++)). }
  cut (exists w', create_component T package_path name component_type directory w =
                    (Return true, w')
        /\ files w' = <[index_path := old +:+ export_line]>
                        (<[component_path := generator name]> (files w))).
  { by intros (w' & -> & ?). }
  assert (is_absolute (["src"; "components"] ++ parts_of directory ++ [pascal_name +:+ ".tsx"])
          = false) as Habs1 by done.
  assert (is_absolute (["src"; "components"] ++ parts_of directory ++ ["index.ts"])
          = false) as Habs2 by done.
  assert (relative_to component_path package_path =
            Some (["src"; "components"] ++ parts_of directory ++ [pascal_name +:+ ".tsx"]))
    as Hc1.
  { unfold component_path, dir. rewrite <- !(assoc_L (++)).
    by apply relative_to_below. }
  assert (relative_to index_path package_path =
            Some (["src"; "components"] ++ parts_of directory ++ ["index.ts"])) as Hi1.
  { unfold index_path, dir. rewrite <- !(assoc_L (++)). by apply relative_to_below. }
  eexists. split.
  - unfold create_component. rewrite run_print, Hgen.
    fold pascal_name.
    replace (if decide (directory = "ui")
             then package_path // "src" // "components" // "ui" // (pascal_name +:+ ".tsx")
             else package_path // "src" // "components" // directory
                  // (pascal_name +:+ ".tsx"))
      with component_path.
    2:{ case_decide as Hui; [rewrite <- Hui|]; by rewrite Hdir, Hfile. }
    assert (parent component_path = dir) as -> by (by apply parent_snoc).
    rewrite (join_plain dir "index.ts") by done. fold index_path.
    rewrite run_mkdir by done.
    rewrite run_write by (by apply open_error_below_make_dirs).
    unfold bind at 1, relative_str. rewrite Hc1. cbn [ret]. rewrite run_print.
    rewrite run_exists.
    assert (forall s s' w0,
      is_file (emit s (store component_path s' (make_dirs (prefixes dir) w0))) index_path
      = is_file w0 index_path) as Hsame.
    { intros. rewrite is_file_emit, is_file_store_ne; [done|].
      intros E. apply app_inj_tail in E as [_ E]. by apply component_file_not_index in E. }
    rewrite Hsame.
    assert (is_file (emit (nl +:+ rocket +:+ " Generating " +:+ name +:+ " component ("
                           +:+ component_type +:+ ")" +:+ nl) w) index_path = true) as ->
      by (apply bool_decide_eq_true; cbn; rewrite Hold; eauto).
    rewrite orb_true_r. cbn [negb].
    unfold bind at 1. rewrite run_append.
    2:{ unfold open_error, index_path. rewrite parent_snoc by done.
        rewrite is_dir_emit, is_dir_store, is_dir_below_make_dirs by done.
        rewrite is_file_emit, is_file_store_ne
          by (unfold component_path; intros E; apply (f_equal length) in E;
              rewrite length_app in E; simpl in E; lia).
        rewrite is_file_make_dirs, is_file_emit, (mkdir_error_not_file _ _ Hmk).
        by rewrite is_dir_emit, is_dir_store, is_dir_make_dirs. }
    unfold bind at 1, relative_str. rewrite Hi1. cbn [ret print]. reflexivity.
  - cbn [files emit store make_dirs]. rewrite lookup_insert_ne.
    + by rewrite Hold.
    + intros E. apply app_inj_tail in E as [_ E]. by apply component_file_not_index in E.
Qed.

End Monorepo.

(** *** The theorems at work *)

(** A React application with the component UserCard, and a user who
    answers no; a monorepo package whose components directory has an index
    file. *)
Definition react_app : world :=
  {| dirs := list_to_set (prefixes ["src"; "components"]);
     files := {[ ["package.json"] := "{}" ]};
     stdout := [];
     stdin := [] |}.

Definition react_app_with_user_card : world :=
  {| dirs := list_to_set (prefixes ["src"; "components"]);
     files := {[ ["package.json"] := "{}";
                 ["src"; "components"; "UserCard.tsx"] := "export function UserCard() {}" ]};
     stdout := [];
     stdin := ["n"] |}.

Definition package_with_index : world :=
  {| dirs := list_to_set (prefixes ["packages"; "web"; "src"; "components"; "forms"]);
     files := {[ ["packages"; "web"; "src"; "components"; "forms"; "index.ts"]
                   := "export { LoginForm } from './LoginForm'" +:+ nl ]};
     stdout := [];
     stdin := [] |}.

Lemma declined_overwrite_keeps_files_witness :
  (ReactComponent.create_component react_templates [] "user-card" "card" "components"
     react_app_with_user_card).1 = Return false
  /\ files (ReactComponent.create_component react_templates [] "user-card" "card"
              "components" react_app_with_user_card).2 = files react_app_with_user_card
  /\ stdin (ReactComponent.create_component react_templates [] "user-card" "card"
              "components" react_app_with_user_card).2 = []
  /\ stdout (ReactComponent.create_component react_templates [] "user-card" "card"
               "components" react_app_with_user_card).2 =
       stdout react_app_with_user_card
       ++ [ nl +:+ ReactComponent.rocket +:+ " Generating user-card component" +:+ nl;
            ReactComponent.warning
              +:+ " Warning: src/components/UserCard.tsx already exists";
            "Overwrite? (y/N): ";
            "Cancelled" ].
Proof.
  apply (declined_overwrite_keeps_files react_templates [] "user-card" "card" "components"
           "n" [] react_app_with_user_card);
    [by vm_compute | by vm_compute | reflexivity | done].
Defined.

Lemma update_index_settles_witness :
  (exists content,
      files (ReactComponent.update_index [] ["src"; "components"] "UserCard" react_app).2
        !! (["src"; "components"] // "index.ts") = Some content
      /\ Py.contains ("export * from './" +:+ "UserCard" +:+ "'" +:+ nl) content = true)
  /\ ReactComponent.update_index [] ["src"; "components"] "UserCard"
       (ReactComponent.update_index [] ["src"; "components"] "UserCard" react_app).2 =
     (Return tt, (ReactComponent.update_index [] ["src"; "components"] "UserCard" react_app).2).
Proof.
  apply (update_index_settles [] ["src"; "components"] "UserCard" react_app).
  by vm_compute.
Defined.

Lemma react_requires_package_json_witness :
  ReactComponent.main react_templates (react_argv "user-card" "card")
    DomainGeneratorRuns.empty_directory =
  (Exit 1,
   emit (ReactComponent.cross
         +:+ " Error: Not a valid Node.js project (package.json not found)")
     DomainGeneratorRuns.empty_directory).
Proof.
  apply (react_requires_package_json react_templates (react_argv "user-card" "card")
           "user-card" DomainGeneratorRuns.empty_directory eq_refl).
  - unfold ReactComponent.type_choices. cbn. set_solver.
  - by vm_compute.
  - by vm_compute.
  - by vm_compute.
Defined.

Lemma monorepo_requires_packages_witness :
  MonorepoComponent.main monorepo_templates (monorepo_argv "user-card" "modal")
    node_project =
  (Exit 1,
   emit (MonorepoComponent.cross
         +:+ " Not a valid monorepo project (packages directory not found)")
     node_project).
Proof.
  apply (monorepo_requires_packages monorepo_templates (monorepo_argv "user-card" "modal")
           "user-card" node_project eq_refl).
  - unfold MonorepoComponent.type_choices. cbn. set_solver.
  - by vm_compute.
  - by vm_compute.
Defined.

Lemma monorepo_run_appends_export_line_witness :
  (MonorepoComponent.create_component monorepo_templates ["packages"; "web"]
     "login-form" "form" "forms" package_with_index).1 = Return true
  /\ files (MonorepoComponent.create_component monorepo_templates ["packages"; "web"]
              "login-form" "form" "forms" package_with_index).2 =
       <[ ["packages"; "web"; "src"; "components"; "forms"; "index.ts"]
            := ("export { LoginForm } from './LoginForm'" +:+ nl)
               +:+ ("export { LoginForm } from './LoginForm'" +:+ nl) ]>
         (<[ ["packages"; "web"; "src"; "components"; "forms"; "LoginForm.tsx"]
               := "form login-form" ]> (files package_with_index)).
Proof.
  apply (monorepo_run_appends_export_line monorepo_templates ["packages"; "web"]
           "login-form" "form" "forms" (fun name => "form " +:+ name)
           ("export { LoginForm } from './LoginForm'" +:+ nl) package_with_index).
  - reflexivity.
  - reflexivity.
  - reflexivity.
  - by vm_compute.
  - by_evaluation.
  - by_evaluation.
  - by vm_compute.
Defined.

End ComponentRuns.
